(** * wlog: the interactive session model of the daily work-log TUI

    A shallow embedding of [internal/tuiapp] (the list/detail session model
    and the external-editor integration) together with the parts of
    [internal/app] it consumes, and the properties of the session state
    machine stated in the specification.

    Conventions.
    - A Go [string] is a byte sequence: Stdlib's [string] (a list of [ascii]
      bytes).  Text is UTF-8, so the Unicode-aware library functions are
      modelled on the encoded bytes.
    - A Go [int] is a [Z].  Every index and length that occurs is bounded by
      the length of a slice, so their arithmetic never leaves the 64-bit
      range; the one unbounded counter, [statusSeq], is incremented with the
      wrap-around written out.
    - [map[string]T] is a [gmap string T]; a slice is a [list].
    - The outside world (storage, clock, the text-input widget, the editor
      process) is a record of oracles handed to the transition function, and
      every call to the storage gateway is recorded in an I/O trace. *)

From Stdlib Require Import ZArith Ascii String.
From stdpp Require Import gmap strings list sorting.

Local Open Scope Z_scope.

(** ** The Go [strings] functions used by the program *)

Module GoStrings.

(** The UTF-8 encodings of the code points for which [unicode.IsSpace]
    holds: TAB, LF, VT, FF, CR, SPACE, U+0085, U+00A0, U+1680,
    U+2000..U+200A, U+2028, U+2029, U+202F, U+205F, U+3000.  UTF-8 decoding
    is injective on valid encodings and yields U+FFFD (not a space) on
    anything else, so a rune decoded at the start (or at the end) of a
    string is a space exactly when one of these byte sequences is a prefix
    (or a suffix) of the string. *)
Definition space_encodings : list (list ascii) :=
  map (map ascii_of_N)
    [ [0x09]; [0x0A]; [0x0B]; [0x0C]; [0x0D]; [0x20];
      [0xC2; 0x85]; [0xC2; 0xA0];
      [0xE1; 0x9A; 0x80];
      [0xE2; 0x80; 0x80]; [0xE2; 0x80; 0x81]; [0xE2; 0x80; 0x82];
      [0xE2; 0x80; 0x83]; [0xE2; 0x80; 0x84]; [0xE2; 0x80; 0x85];
      [0xE2; 0x80; 0x86]; [0xE2; 0x80; 0x87]; [0xE2; 0x80; 0x88];
      [0xE2; 0x80; 0x89]; [0xE2; 0x80; 0x8A];
      [0xE2; 0x80; 0xA8]; [0xE2; 0x80; 0xA9]; [0xE2; 0x80; 0xAF];
      [0xE2; 0x81; 0x9F];
      [0xE3; 0x80; 0x80] ]%N.

(** [strip_prefix p s] is [s] without its leading [p], when [p] leads [s]. *)
Fixpoint strip_prefix (p s : list ascii) : option (list ascii) :=
  match p, s with
  | [], _ => Some s
  | _ :: _, [] => None
  | a :: p', b :: s' => if decide (a = b) then strip_prefix p' s' else None
  end.

(** Remove one leading occurrence of the first matching pattern. *)
Fixpoint strip_one (pats : list (list ascii)) (s : list ascii)
  : option (list ascii) :=
  match pats with
  | [] => None
  | p :: pats' =>
      match strip_prefix p s with
      | Some s' => Some s'
      | None => strip_one pats' s
      end
  end.

Fixpoint trim_left_fuel (pats : list (list ascii)) (fuel : nat)
  (s : list ascii) : list ascii :=
  match fuel with
  | O => s
  | S fuel' =>
      match strip_one pats s with
      | Some s' => trim_left_fuel pats fuel' s'
      | None => s
      end
  end.

(** Strip leading patterns for as long as one matches. *)
Definition trim_left (pats : list (list ascii)) (s : list ascii) : list ascii :=
  trim_left_fuel pats (length s) s.

(** Strip trailing patterns for as long as one matches. *)
Definition trim_right (pats : list (list ascii)) (s : list ascii) : list ascii :=
  rev (trim_left (map (@rev ascii) pats) (rev s)).

(** [strings.TrimSpace]: all leading and trailing white space removed. *)
Definition TrimSpace (s : string) : string :=
  string_of_list_ascii
    (trim_right space_encodings
       (trim_left space_encodings (list_ascii_of_string s))).

Definition LF : ascii := ascii_of_N 0x0A.
Definition CR : ascii := ascii_of_N 0x0D.

(** [strings.TrimRight(s, "\n")]. *)
Definition TrimRight_LF (s : string) : string :=
  string_of_list_ascii (trim_right [[LF]] (list_ascii_of_string s)).

(** [strings.ReplaceAll(s, "\r\n", "\n")]: non-overlapping occurrences,
    left to right. *)
Fixpoint ReplaceAll_CRLF (s : string) : string :=
  match s with
  | EmptyString => EmptyString
  | String c rest =>
      match rest with
      | String d rest' =>
          if decide (c = CR ∧ d = LF)
          then String LF (ReplaceAll_CRLF rest')
          else String c (ReplaceAll_CRLF rest)
      | EmptyString => String c EmptyString
      end
  end.

(** [strings.Split(s, "\n")]: the pieces between line feeds; always at least
    one piece. *)
Fixpoint Split_LF (s : string) : list string :=
  match s with
  | EmptyString => [EmptyString]
  | String c rest =>
      if decide (c = LF) then EmptyString :: Split_LF rest
      else match Split_LF rest with
           | piece :: pieces => String c piece :: pieces
           | [] => [String c EmptyString]
           end
  end.

(** [strings.Join(elems, "\n")]. *)
Definition Join_LF (elems : list string) : string :=
  String.concat (String LF EmptyString) elems.

End GoStrings.

(** ** [internal/app]: configuration and the day record *)

Module App.

(** Errors are carried as their message. *)
Abbreviation error := string (only parsing).

(** The 64-bit two's-complement value of an integer. *)
Definition wrap64 (z : Z) : Z := (z + 2 ^ 63) mod 2 ^ 64 - 2 ^ 63.

Definition MaxInt64 : Z := 2 ^ 63 - 1.

Record Answer := {
  Time : string;
  Response : string;
}.

Record DayLog := {
  Date : string;
  Answers : gmap string (list Answer);
}.

Record Config := {
  Questions : list string;
  ShowHints : option bool;
  AutoInsertEntries : option bool;
  DefaultListMode : option bool;
  AutoOpenIndexJump : option bool;
  ConfirmDelete : option bool;
  ContinueInsertAfterSave : option bool;
  ConfirmEscapeWithText : option bool;
  StatusMessageDurationMs : option Z;
  EscapeConfirmTimeoutMs : option Z;
}.

Definition defaultShowHints : bool := true.
Definition defaultAutoInsertEntries : bool := true.
Definition defaultListMode : bool := false.
Definition defaultAutoOpenIndexJump : bool := true.
Definition defaultConfirmDelete : bool := true.
Definition defaultStatusMessageDurationMs : Z := 1000.

Definition HintsEnabled (cfg : Config) : bool :=
  default defaultShowHints (ShowHints cfg).

Definition AutoInsertEnabled (cfg : Config) : bool :=
  default defaultAutoInsertEntries (AutoInsertEntries cfg).

Definition DefaultListModeEnabled (cfg : Config) : bool :=
  default defaultListMode (DefaultListMode cfg).

Definition AutoOpenIndexJumpEnabled (cfg : Config) : bool :=
  default defaultAutoOpenIndexJump (AutoOpenIndexJump cfg).

Definition ConfirmDeleteEnabled (cfg : Config) : bool :=
  default defaultConfirmDelete (ConfirmDelete cfg).

Definition Millisecond : Z := 1000000.

(** A [time.Duration] is an [int64] count of nanoseconds. *)
Definition StatusMessageDuration (cfg : Config) : Z :=
  let ms :=
    match StatusMessageDurationMs cfg with
    | Some v => if decide (0 < v) then v else defaultStatusMessageDurationMs
    | None => defaultStatusMessageDurationMs
    end in
  wrap64 (ms * Millisecond).

Definition set_ShowHints (v : option bool) (cfg : Config) : Config :=
  Build_Config (Questions cfg) v (AutoInsertEntries cfg) (DefaultListMode cfg)
    (AutoOpenIndexJump cfg) (ConfirmDelete cfg) (ContinueInsertAfterSave cfg)
    (ConfirmEscapeWithText cfg) (StatusMessageDurationMs cfg)
    (EscapeConfirmTimeoutMs cfg).

Definition set_Answers (v : gmap string (list Answer)) (l : DayLog) : DayLog :=
  Build_DayLog (Date l) v.

End App.

(** ** [internal/tuiapp]: the session model *)

Module Tui.
Import GoStrings App.

Definition len {A : Type} (l : list A) : Z := Z.of_nat (length l).

(** *** Types *)

Definition indexRunes : list ascii :=
  list_ascii_of_string "0123456789abcdefghijklmnopqrstuvwxyz".

Definition jkDisableThreshold : Z := 20.

Inductive viewMode := viewList | viewDetail.

Inductive rowKind := rowQuestion | rowEntry.

Record listRow := {
  kind : rowKind;
  question : string;
  entryIndex : Z;
}.

(** The [textinput.Model] of the inline editor: only its value, focus and
    width are observed by the session model. *)
Record textinput := {
  Value : string;
  Focused : bool;
  Width : Z;
}.

Record detailState := {
  detail_question : string;
  editing : bool;
  input : textinput;
}.

Record deleteConfirmState := {
  confirm_question : string;
  confirm_entryIndex : Z;
}.

Inductive externalOpenKind := openKindDay | openKindConfig.

Record editorResultMsg := {
  msg_question : string;
  msg_entryIndex : Z;
  responses : list string;
  changed : bool;
  msg_err : option error;
}.

(** The messages the runtime delivers to [Update]. *)
Inductive Msg :=
  | WindowSizeMsg (w h : Z)
  | KeyMsg (key : string)
  | EditorResultMsg (r : editorResultMsg)
  | StatusTimeoutMsg (seq : Z)
  | ExternalOpenResultMsg (k : externalOpenKind) (e : option error)
  | OtherMsg.

(** The commands the model hands back to the runtime.  [EditEntries] stands
    for the closure built by [editEntriesCmd], [OpenFileInEditor] for the one
    built by [openFileInEditorCmd], [Tick d seq] for the timer that delivers
    [StatusTimeoutMsg seq] after [d].  The commands of the text input itself
    (its cursor) do not reach the model and are left out of the batch. *)
Inductive Cmd :=
  | Quit
  | EditEntries (q : string) (lines : list string) (idx : Z)
  | OpenFileInEditor (path : string) (k : externalOpenKind)
  | Tick (d : Z) (seq : Z).

(** Calls that write to storage, in the order they are made. *)
Inductive IOEvent :=
  | IOSaveDayLog (d : Z) (l : DayLog)
  | IOSaveConfig (c : Config).

(** What the model cannot see: the storage gateway, the clock, and the
    text-input widget.  [SaveDayLog] and [SaveConfig] answer with the error,
    if any; [Now k] is [time.Now().Format(time.RFC3339)] at the [k]-th
    reading of the clock within one transition; [FormatDay] renders a day
    as year-month-day. *)
Record World := {
  LoadDayLog : Z -> DayLog + error;
  SaveDayLog : Z -> DayLog -> option error;
  SaveConfig : Config -> option error;
  DayFilePath : Z -> string + error;
  Today : Z;
  Now : nat -> string;
  FormatDay : Z -> string;
  inputUpdate : textinput -> Msg -> textinput;
}.

Record model := {
  cfgQuestions : list string;
  config : Config;
  day : Z;
  log : DayLog;

  questions : list string;
  questionIndex : gmap string Z;
  rows : list listRow;
  selected : Z;

  listMode : bool;
  disableJKNav : bool;
  showHints : bool;
  autoInsert : bool;
  autoOpenIndex : bool;
  confirmDelete : bool;

  view : viewMode;
  detail : detailState;

  deleteConfirm : option deleteConfirmState;
  confirmPrompt : string;
  showDeletePrompt : bool;

  status : string;
  statusSeq : Z;
  statusTimeout : Z;
  statusTimerCmd : option Cmd;
  err : option error;

  width : Z;
  height : Z;
}.

#[global] Instance viewMode_eq_dec : EqDecision viewMode.
Proof. solve_decision. Defined.

#[global] Instance rowKind_eq_dec : EqDecision rowKind.
Proof. solve_decision. Defined.

(** *** Field updates *)

Definition set_config (v : Config) (m : model) : model :=
  Build_model (cfgQuestions m) v (day m) (log m) (questions m)
    (questionIndex m) (rows m) (selected m) (listMode m) (disableJKNav m)
    (showHints m) (autoInsert m) (autoOpenIndex m) (confirmDelete m) (view m)
    (detail m) (deleteConfirm m) (confirmPrompt m) (showDeletePrompt m)
    (status m) (statusSeq m) (statusTimeout m) (statusTimerCmd m) (err m)
    (width m) (height m).

Definition set_day (v : Z) (m : model) : model :=
  Build_model (cfgQuestions m) (config m) v (log m) (questions m)
    (questionIndex m) (rows m) (selected m) (listMode m) (disableJKNav m)
    (showHints m) (autoInsert m) (autoOpenIndex m) (confirmDelete m) (view m)
    (detail m) (deleteConfirm m) (confirmPrompt m) (showDeletePrompt m)
    (status m) (statusSeq m) (statusTimeout m) (statusTimerCmd m) (err m)
    (width m) (height m).

Definition set_log (v : DayLog) (m : model) : model :=
  Build_model (cfgQuestions m) (config m) (day m) v (questions m)
    (questionIndex m) (rows m) (selected m) (listMode m) (disableJKNav m)
    (showHints m) (autoInsert m) (autoOpenIndex m) (confirmDelete m) (view m)
    (detail m) (deleteConfirm m) (confirmPrompt m) (showDeletePrompt m)
    (status m) (statusSeq m) (statusTimeout m) (statusTimerCmd m) (err m)
    (width m) (height m).

Definition set_questions (v : list string) (m : model) : model :=
  Build_model (cfgQuestions m) (config m) (day m) (log m) v (questionIndex m)
    (rows m) (selected m) (listMode m) (disableJKNav m) (showHints m)
    (autoInsert m) (autoOpenIndex m) (confirmDelete m) (view m) (detail m)
    (deleteConfirm m) (confirmPrompt m) (showDeletePrompt m) (status m)
    (statusSeq m) (statusTimeout m) (statusTimerCmd m) (err m) (width m)
    (height m).

Definition set_questionIndex (v : gmap string Z) (m : model) : model :=
  Build_model (cfgQuestions m) (config m) (day m) (log m) (questions m) v
    (rows m) (selected m) (listMode m) (disableJKNav m) (showHints m)
    (autoInsert m) (autoOpenIndex m) (confirmDelete m) (view m) (detail m)
    (deleteConfirm m) (confirmPrompt m) (showDeletePrompt m) (status m)
    (statusSeq m) (statusTimeout m) (statusTimerCmd m) (err m) (width m)
    (height m).

Definition set_rows (v : list listRow) (m : model) : model :=
  Build_model (cfgQuestions m) (config m) (day m) (log m) (questions m)
    (questionIndex m) v (selected m) (listMode m) (disableJKNav m)
    (showHints m) (autoInsert m) (autoOpenIndex m) (confirmDelete m) (view m)
    (detail m) (deleteConfirm m) (confirmPrompt m) (showDeletePrompt m)
    (status m) (statusSeq m) (statusTimeout m) (statusTimerCmd m) (err m)
    (width m) (height m).

Definition set_selected (v : Z) (m : model) : model :=
  Build_model (cfgQuestions m) (config m) (day m) (log m) (questions m)
    (questionIndex m) (rows m) v (listMode m) (disableJKNav m) (showHints m)
    (autoInsert m) (autoOpenIndex m) (confirmDelete m) (view m) (detail m)
    (deleteConfirm m) (confirmPrompt m) (showDeletePrompt m) (status m)
    (statusSeq m) (statusTimeout m) (statusTimerCmd m) (err m) (width m)
    (height m).

Definition set_listMode (v : bool) (m : model) : model :=
  Build_model (cfgQuestions m) (config m) (day m) (log m) (questions m)
    (questionIndex m) (rows m) (selected m) v (disableJKNav m) (showHints m)
    (autoInsert m) (autoOpenIndex m) (confirmDelete m) (view m) (detail m)
    (deleteConfirm m) (confirmPrompt m) (showDeletePrompt m) (status m)
    (statusSeq m) (statusTimeout m) (statusTimerCmd m) (err m) (width m)
    (height m).

Definition set_disableJKNav (v : bool) (m : model) : model :=
  Build_model (cfgQuestions m) (config m) (day m) (log m) (questions m)
    (questionIndex m) (rows m) (selected m) (listMode m) v (showHints m)
    (autoInsert m) (autoOpenIndex m) (confirmDelete m) (view m) (detail m)
    (deleteConfirm m) (confirmPrompt m) (showDeletePrompt m) (status m)
    (statusSeq m) (statusTimeout m) (statusTimerCmd m) (err m) (width m)
    (height m).

Definition set_showHints (v : bool) (m : model) : model :=
  Build_model (cfgQuestions m) (config m) (day m) (log m) (questions m)
    (questionIndex m) (rows m) (selected m) (listMode m) (disableJKNav m) v
    (autoInsert m) (autoOpenIndex m) (confirmDelete m) (view m) (detail m)
    (deleteConfirm m) (confirmPrompt m) (showDeletePrompt m) (status m)
    (statusSeq m) (statusTimeout m) (statusTimerCmd m) (err m) (width m)
    (height m).

Definition set_view (v : viewMode) (m : model) : model :=
  Build_model (cfgQuestions m) (config m) (day m) (log m) (questions m)
    (questionIndex m) (rows m) (selected m) (listMode m) (disableJKNav m)
    (showHints m) (autoInsert m) (autoOpenIndex m) (confirmDelete m) v
    (detail m) (deleteConfirm m) (confirmPrompt m) (showDeletePrompt m)
    (status m) (statusSeq m) (statusTimeout m) (statusTimerCmd m) (err m)
    (width m) (height m).

Definition set_detail (v : detailState) (m : model) : model :=
  Build_model (cfgQuestions m) (config m) (day m) (log m) (questions m)
    (questionIndex m) (rows m) (selected m) (listMode m) (disableJKNav m)
    (showHints m) (autoInsert m) (autoOpenIndex m) (confirmDelete m) (view m)
    v (deleteConfirm m) (confirmPrompt m) (showDeletePrompt m) (status m)
    (statusSeq m) (statusTimeout m) (statusTimerCmd m) (err m) (width m)
    (height m).

Definition set_deleteConfirm (v : option deleteConfirmState) (m : model) : model :=
  Build_model (cfgQuestions m) (config m) (day m) (log m) (questions m)
    (questionIndex m) (rows m) (selected m) (listMode m) (disableJKNav m)
    (showHints m) (autoInsert m) (autoOpenIndex m) (confirmDelete m) (view m)
    (detail m) v (confirmPrompt m) (showDeletePrompt m) (status m)
    (statusSeq m) (statusTimeout m) (statusTimerCmd m) (err m) (width m)
    (height m).

Definition set_confirmPrompt (v : string) (m : model) : model :=
  Build_model (cfgQuestions m) (config m) (day m) (log m) (questions m)
    (questionIndex m) (rows m) (selected m) (listMode m) (disableJKNav m)
    (showHints m) (autoInsert m) (autoOpenIndex m) (confirmDelete m) (view m)
    (detail m) (deleteConfirm m) v (showDeletePrompt m) (status m)
    (statusSeq m) (statusTimeout m) (statusTimerCmd m) (err m) (width m)
    (height m).

Definition set_showDeletePrompt (v : bool) (m : model) : model :=
  Build_model (cfgQuestions m) (config m) (day m) (log m) (questions m)
    (questionIndex m) (rows m) (selected m) (listMode m) (disableJKNav m)
    (showHints m) (autoInsert m) (autoOpenIndex m) (confirmDelete m) (view m)
    (detail m) (deleteConfirm m) (confirmPrompt m) v (status m) (statusSeq m)
    (statusTimeout m) (statusTimerCmd m) (err m) (width m) (height m).

Definition set_status (v : string) (m : model) : model :=
  Build_model (cfgQuestions m) (config m) (day m) (log m) (questions m)
    (questionIndex m) (rows m) (selected m) (listMode m) (disableJKNav m)
    (showHints m) (autoInsert m) (autoOpenIndex m) (confirmDelete m) (view m)
    (detail m) (deleteConfirm m) (confirmPrompt m) (showDeletePrompt m) v
    (statusSeq m) (statusTimeout m) (statusTimerCmd m) (err m) (width m)
    (height m).

Definition set_statusSeq (v : Z) (m : model) : model :=
  Build_model (cfgQuestions m) (config m) (day m) (log m) (questions m)
    (questionIndex m) (rows m) (selected m) (listMode m) (disableJKNav m)
    (showHints m) (autoInsert m) (autoOpenIndex m) (confirmDelete m) (view m)
    (detail m) (deleteConfirm m) (confirmPrompt m) (showDeletePrompt m)
    (status m) v (statusTimeout m) (statusTimerCmd m) (err m) (width m)
    (height m).

Definition set_statusTimerCmd (v : option Cmd) (m : model) : model :=
  Build_model (cfgQuestions m) (config m) (day m) (log m) (questions m)
    (questionIndex m) (rows m) (selected m) (listMode m) (disableJKNav m)
    (showHints m) (autoInsert m) (autoOpenIndex m) (confirmDelete m) (view m)
    (detail m) (deleteConfirm m) (confirmPrompt m) (showDeletePrompt m)
    (status m) (statusSeq m) (statusTimeout m) v (err m) (width m) (height m).

Definition set_err (v : option string) (m : model) : model :=
  Build_model (cfgQuestions m) (config m) (day m) (log m) (questions m)
    (questionIndex m) (rows m) (selected m) (listMode m) (disableJKNav m)
    (showHints m) (autoInsert m) (autoOpenIndex m) (confirmDelete m) (view m)
    (detail m) (deleteConfirm m) (confirmPrompt m) (showDeletePrompt m)
    (status m) (statusSeq m) (statusTimeout m) (statusTimerCmd m) v (width m)
    (height m).

Definition set_width (v : Z) (m : model) : model :=
  Build_model (cfgQuestions m) (config m) (day m) (log m) (questions m)
    (questionIndex m) (rows m) (selected m) (listMode m) (disableJKNav m)
    (showHints m) (autoInsert m) (autoOpenIndex m) (confirmDelete m) (view m)
    (detail m) (deleteConfirm m) (confirmPrompt m) (showDeletePrompt m)
    (status m) (statusSeq m) (statusTimeout m) (statusTimerCmd m) (err m) v
    (height m).

Definition set_height (v : Z) (m : model) : model :=
  Build_model (cfgQuestions m) (config m) (day m) (log m) (questions m)
    (questionIndex m) (rows m) (selected m) (listMode m) (disableJKNav m)
    (showHints m) (autoInsert m) (autoOpenIndex m) (confirmDelete m) (view m)
    (detail m) (deleteConfirm m) (confirmPrompt m) (showDeletePrompt m)
    (status m) (statusSeq m) (statusTimeout m) (statusTimerCmd m) (err m)
    (width m) v.


Definition set_editing (v : bool) (d : detailState) : detailState :=
  Build_detailState (detail_question d) v (input d).

Definition set_detail_question (v : string) (d : detailState) : detailState :=
  Build_detailState v (editing d) (input d).

Definition set_input (v : textinput) (d : detailState) : detailState :=
  Build_detailState (detail_question d) (editing d) v.

(** [m.log.Answers = v]. *)
Definition set_answers (v : gmap string (list Answer)) (m : model) : model :=
  set_log (set_Answers v (log m)) m.

(** [m.log.Answers[q]]: the empty slice when the key is absent. *)
Definition answersFor (m : model) (q : string) : list Answer :=
  default [] (Answers (log m) !! q).

(** *** [editor.go] *)

Definition normalizeEditorContent (value : string) : string :=
  TrimRight_LF (ReplaceAll_CRLF value).

Definition parseEditorLines (content : string) : list string :=
  if decide (content = EmptyString) then []
  else
    foldl
      (fun cleaned line =>
         let trimmed := TrimSpace line in
         if decide (trimmed = EmptyString) then cleaned
         else cleaned ++ [trimmed])
      [] (Split_LF content).

(** What happens outside the program while [editEntriesCmd] runs: whether
    the scratch file can be created and written, whether an editor command
    can be built ([buildEditorCommand]: the program named by VISUAL or EDITOR
    must be found), whether the editor process ends without error, and what
    reading the scratch file back gives. *)
Record EditorRun := {
  createTemp : option error;
  writeString : option error;
  buildEditorCommand : option error;
  execProcess : option error;
  readFile : string + error;
}.

Definition editorError (q : string) (idx : Z) (e : error) : editorResultMsg :=
  {| msg_question := q; msg_entryIndex := idx; responses := [];
     changed := false; msg_err := Some e |}.

(** The message produced by running the command [editEntriesCmd(question,
    lines, entryIndex)]. *)
Definition editEntriesCmd (run : EditorRun) (q : string) (lines : list string)
  (idx : Z) : editorResultMsg :=
  let original := Join_LF lines in
  match createTemp run with
  | Some e => editorError q idx e
  | None =>
  match (if decide (original = EmptyString) then None else writeString run) with
  | Some e => editorError q idx e
  | None =>
  match buildEditorCommand run with
  | Some e => editorError q idx e
  | None =>
  match execProcess run with
  | Some e => editorError q idx e
  | None =>
  match readFile run with
  | inr e => editorError q idx e
  | inl data =>
      let newContent := normalizeEditorContent data in
      let originalContent := normalizeEditorContent original in
      if decide (newContent = originalContent) then
        {| msg_question := q; msg_entryIndex := idx; responses := lines;
           changed := false; msg_err := None |}
      else if decide (0 ≤ idx) then
        {| msg_question := q; msg_entryIndex := idx;
           responses := [newContent]; changed := true; msg_err := None |}
      else
        {| msg_question := q; msg_entryIndex := idx;
           responses := parseEditorLines newContent; changed := true;
           msg_err := None |}
  end end end end end.

(** *** Reconciliation of a whole-question edit *)

Definition responsesForQuestion (entries : list Answer) : list string :=
  foldl (fun lines ans => lines ++ [Response ans]) [] entries.

(** The loop state of [rebuildAnswers]: the pool of reusable timestamps per
    response text, the number of clock readings made, the result so far. *)
Record rebuildState := {
  pool : gmap string (list string);
  ticks : nat;
  result : list Answer;
}.

Definition poolAdd (pool : gmap string (list string)) (ans : Answer)
  : gmap string (list string) :=
  <[Response ans := default [] (pool !! Response ans) ++ [Time ans]]> pool.

Definition rebuildStep (now : nat -> string) (st : rebuildState)
  (resp : string) : rebuildState :=
  let resp := TrimSpace resp in
  if decide (resp = EmptyString) then st
  else
    let timestamp := now (ticks st) in
    match default [] (pool st !! resp) with
    | t :: times =>
        {| pool := <[resp := times]> (pool st); ticks := S (ticks st);
           result := result st ++ [{| Time := t; Response := resp |}] |}
    | [] =>
        {| pool := pool st; ticks := S (ticks st);
           result := result st ++ [{| Time := timestamp; Response := resp |}] |}
    end.

Definition rebuildAnswers (now : nat -> string) (existing : list Answer)
  (responses : list string) : list Answer :=
  if decide (responses = []) then []
  else
    let pool := foldl poolAdd ∅ existing in
    result
      (foldl (rebuildStep now)
         {| pool := pool; ticks := O; result := [] |} responses).

(** *** Questions, rows and selection *)

(** The configured questions followed by the record's other questions that
    have entries, sorted.  (The program collects the extras in map iteration
    order and then sorts them; the keys are distinct, so the sorted list does
    not depend on that order.) *)
Definition mergeQuestions (base : list string) (l : DayLog) : list string :=
  let extras :=
    filter (fun q => q ∉ base)
      (fst <$> filter (fun kv => kv.2 ≠ []) (map_to_list (Answers l))) in
  base ++ merge_sort String.le extras.

Fixpoint runeIndexFrom (i : Z) (candidates : list ascii) (r : ascii)
  : option Z :=
  match candidates with
  | [] => None
  | candidate :: rest =>
      if decide (candidate = r) then Some i else runeIndexFrom (i + 1) rest r
  end.

Definition runeToIndex (r : ascii) : option Z := runeIndexFrom 0 indexRunes r.

Definition setStatus (text : string) (m : model) : model :=
  let m := set_status text m in
  let m := set_statusSeq (wrap64 (statusSeq m + 1)) m in
  if decide (text = EmptyString ∨ statusTimeout m ≤ 0) then
    set_statusTimerCmd None m
  else
    let seq := statusSeq m in
    set_statusTimerCmd (Some (Tick (statusTimeout m) seq)) m.

Definition moveSelection (delta : Z) (m : model) : model :=
  if decide (len (rows m) = 0) then set_selected 0 m
  else
    let next := selected m + delta in
    let next := if decide (next < 0) then 0 else next in
    let next :=
      if decide (len (rows m) ≤ next) then len (rows m) - 1 else next in
    set_selected next m.

(** The loop of [rowIndexForQuestion] in list mode, from question [i] on. *)
Fixpoint rowOffset (m : model) (qs : list string) (i idx offset : Z) : Z :=
  match qs with
  | [] => -1
  | q :: qs' =>
      if decide (i = idx) then offset
      else rowOffset m qs' (i + 1) idx (offset + 1 + len (answersFor m q))
  end.

Definition rowIndexForQuestion (m : model) (idx : Z) : Z :=
  if decide (idx < 0 ∨ len (questions m) ≤ idx) then -1
  else if negb (listMode m) then idx
  else rowOffset m (questions m) 0 idx 0.

Definition jumpToIndex (r : ascii) (m : model) : bool * model :=
  match runeToIndex r with
  | None => (false, m)
  | Some idx =>
      if decide (idx < 0 ∨ len (questions m) ≤ idx) then (false, m)
      else
        let rowIdx := rowIndexForQuestion m idx in
        if decide (rowIdx < 0) then (false, m)
        else (true, set_selected rowIdx m)
  end.

Definition selectQuestionByIndex (idx : Z) (m : model) : model :=
  if decide (idx < 0 ∨ len (questions m) ≤ idx) then m
  else
    let rowIdx := rowIndexForQuestion m idx in
    if decide (0 ≤ rowIdx) then set_selected rowIdx m else m.

Definition selectQuestionByName (q : string) (m : model) : model :=
  match questionIndex m !! q with
  | Some idx => selectQuestionByIndex idx m
  | None => m
  end.

Definition currentRow (m : model) : option listRow :=
  if decide (len (rows m) = 0 ∨ selected m < 0 ∨ len (rows m) ≤ selected m)
  then None
  else rows m !! Z.to_nat (selected m).

Fixpoint indexQuestions (i : Z) (qs : list string) (index : gmap string Z)
  : gmap string Z :=
  match qs with
  | [] => index
  | q :: qs' => indexQuestions (i + 1) qs' (<[q := i]> index)
  end.

Definition rowsOf (m : model) (q : string) : list listRow :=
  {| kind := rowQuestion; question := q; entryIndex := 0 |}
  :: (if listMode m
      then imap (fun idx _ =>
                   {| kind := rowEntry; question := q;
                      entryIndex := Z.of_nat idx |})
             (answersFor m q)
      else []).

Definition rebuildRows (m : model) : model :=
  set_rows (foldl (fun rows q => rows ++ rowsOf m q) [] (questions m)) m.

Definition refreshQuestions (m : model) : model :=
  let m := set_deleteConfirm None m in
  let m := set_confirmPrompt EmptyString m in
  let m := set_showDeletePrompt false m in
  let m := set_questions (mergeQuestions (cfgQuestions m) (log m)) m in
  let m := set_questionIndex (indexQuestions 0 (questions m) ∅) m in
  let m :=
    set_disableJKNav (bool_decide (jkDisableThreshold ≤ len (questions m))) m in
  let m := rebuildRows m in
  if decide (len (rows m) = 0) then set_selected 0 m
  else if decide (len (rows m) ≤ selected m) then
    set_selected (len (rows m) - 1) m
  else m.

(** The last step of [toggleListMode]: select again the row of the question
    that was selected before, when there was one. *)
Definition reselectQuestion (currentQuestion : string) (m : model) : model :=
  if decide (currentQuestion = EmptyString) then m
  else
    match questionIndex m !! currentQuestion with
    | Some idx =>
        let rowIdx := rowIndexForQuestion m idx in
        if decide (0 ≤ rowIdx) then set_selected rowIdx m else m
    | None => m
    end.

Definition toggleListMode (m : model) : model :=
  let currentQuestion :=
    match currentRow m with
    | Some row => question row
    | None => EmptyString
    end in
  let m := set_listMode (negb (listMode m)) m in
  let m := refreshQuestions m in
  reselectQuestion currentQuestion m.

(** *** The text input of the detail view *)

Definition Blur (ti : textinput) : textinput :=
  {| Value := Value ti; Focused := false; Width := Width ti |}.

Definition Focus (ti : textinput) : textinput :=
  {| Value := Value ti; Focused := true; Width := Width ti |}.

Definition SetValue (v : string) (ti : textinput) : textinput :=
  {| Value := v; Focused := Focused ti; Width := Width ti |}.

Definition SetWidth (w : Z) (ti : textinput) : textinput :=
  {| Value := Value ti; Focused := Focused ti; Width := w |}.

Definition set_detail_input (f : textinput -> textinput) (m : model) : model :=
  set_detail (set_input (f (input (detail m))) (detail m)) m.

(** *** Transitions *)

(** A procedure that may write to storage returns the model together with
    the writes it made; a key handler also returns its command, if any. *)
Abbreviation Effect := (model * list IOEvent)%type.
Abbreviation Handled := (option Cmd * model * list IOEvent)%type.

Definition clearDeletePrompt (m : model) : model :=
  set_showDeletePrompt false (set_confirmPrompt EmptyString m).

Definition performDeleteEntry (w : World) (q : string) (idx : Z) (m : model)
  : Effect :=
  let entries := answersFor m q in
  if decide (idx < 0 ∨ len entries ≤ idx) then
    (setStatus "Entry not found." m, [])
  else
    let entries :=
      take (Z.to_nat idx) entries ++ drop (Z.to_nat (idx + 1)) entries in
    let m :=
      if decide (len entries = 0)
      then set_answers (delete q (Answers (log m))) m
      else set_answers (<[q := entries]> (Answers (log m))) m in
    let io := [IOSaveDayLog (day m) (log m)] in
    match SaveDayLog w (day m) (log m) with
    | Some e => (setStatus "Failed to delete entry." (set_err (Some e) m), io)
    | None =>
        let m := set_err None m in
        let m := clearDeletePrompt m in
        let m := setStatus "Entry deleted." m in
        let m := refreshQuestions m in
        (selectQuestionByName q m, io)
    end.

Definition initiateEntryDelete (w : World) (q : string) (idx : Z) (m : model)
  : Effect :=
  let entries := answersFor m q in
  if decide (idx < 0 ∨ len entries ≤ idx) then
    (setStatus "Entry not found." m, [])
  else if confirmDelete m then
    let m :=
      set_deleteConfirm
        (Some {| confirm_question := q; confirm_entryIndex := idx |}) m in
    let m := set_confirmPrompt "Delete this entry? (y/n)" m in
    (set_showDeletePrompt true m, [])
  else performDeleteEntry w q idx m.

Definition handleDeleteEntryRequest (w : World) (m : model) : Effect :=
  if negb (listMode m) then
    (setStatus "Enable list mode to delete entries." m, [])
  else
    match currentRow m with
    | Some row =>
        if decide (kind row = rowEntry)
        then initiateEntryDelete w (question row) (entryIndex row) m
        else (setStatus "Select an entry to delete." m, [])
    | None => (setStatus "Select an entry to delete." m, [])
    end.

(** Returns whether the key was consumed by a pending confirmation. *)
Definition handleDeleteConfirmationKey (w : World) (key : string) (m : model)
  : bool * model * list IOEvent :=
  match deleteConfirm m with
  | None => (false, m, [])
  | Some pending =>
      if decide (key = "y" ∨ key = "Y") then
        let m := set_deleteConfirm None m in
        let m := clearDeletePrompt m in
        let '(m, io) :=
          performDeleteEntry w (confirm_question pending)
            (confirm_entryIndex pending) m in
        (true, m, io)
      else if decide (key = "n" ∨ key = "N" ∨ key = "esc") then
        let m := set_deleteConfirm None m in
        let m := clearDeletePrompt m in
        (true, setStatus "Delete canceled." m, [])
      else (true, setStatus "Confirm delete with y or n." m, [])
  end.

Definition openDayJSON (w : World) (m : model) : Handled :=
  let io := [IOSaveDayLog (day m) (log m)] in
  match SaveDayLog w (day m) (log m) with
  | Some e => (None, set_err (Some e) m, io)
  | None =>
      match DayFilePath w (day m) with
      | inr e => (None, set_err (Some e) m, io)
      | inl path =>
          (Some (OpenFileInEditor path openKindDay),
           setStatus "Opened day file in editor." m, io)
      end
  end.

Definition startEditing (m : model) : model :=
  let m := set_detail (set_editing true (detail m)) m in
  let m := set_detail_input (fun ti => Focus (SetValue EmptyString ti)) m in
  setStatus "Adding entries..." m.

Definition openDetail (q : string) (start : bool) (m : model) : model :=
  let m := set_view viewDetail m in
  let m := set_deleteConfirm None m in
  let m := clearDeletePrompt m in
  let m := set_detail (set_detail_question q (detail m)) m in
  if start then startEditing m
  else
    let m := set_detail (set_editing false (detail m)) m in
    set_detail_input (fun ti => SetValue EmptyString (Blur ti)) m.

Definition saveInlineEntry (w : World) (m : model) : Effect :=
  let text := TrimSpace (Value (input (detail m))) in
  if decide (text = EmptyString) then
    (setStatus "Entry discarded (empty)." m, [])
  else
    let entry := {| Time := Now w 0%nat; Response := text |} in
    let q := detail_question (detail m) in
    let m :=
      set_answers (<[q := answersFor m q ++ [entry]]> (Answers (log m))) m in
    let io := [IOSaveDayLog (day m) (log m)] in
    match SaveDayLog w (day m) (log m) with
    | Some e => (set_err (Some e) m, io)
    | None =>
        let m := set_err None m in
        let m := set_detail_input (SetValue EmptyString) m in
        let m := setStatus "Entry saved." m in
        (refreshQuestions m, io)
    end.

Definition openQuestionEditor (q : string) (m : model) : option Cmd :=
  let lines := responsesForQuestion (answersFor m q) in
  Some (EditEntries q lines (-1)).

Definition openEntryEditor (q : string) (idx : Z) (m : model) : option Cmd :=
  let answers := answersFor m q in
  if decide (idx < 0 ∨ len answers ≤ idx) then None
  else
    match answers !! Z.to_nat idx with
    | Some ans => Some (EditEntries q [Response ans] idx)
    | None => None
    end.

Definition applyQuestionEdit (w : World) (q : string) (resps : list string)
  (m : model) : Effect :=
  let existing := answersFor m q in
  let updated := rebuildAnswers (Now w) existing resps in
  let m :=
    if decide (len updated = 0)
    then set_answers (delete q (Answers (log m))) m
    else set_answers (<[q := updated]> (Answers (log m))) m in
  let io := [IOSaveDayLog (day m) (log m)] in
  match SaveDayLog w (day m) (log m) with
  | Some e => (set_err (Some e) m, io)
  | None =>
      let m := set_err None m in
      let m := setStatus "Entries updated." m in
      (refreshQuestions m, io)
  end.

Definition applySingleEntryEdit (w : World) (q : string) (idx : Z)
  (resps : list string) (m : model) : Effect :=
  let answers := answersFor m q in
  if decide (idx < 0 ∨ len answers ≤ idx) then (m, [])
  else
    let answers :=
      match resps with
      | [] => take (Z.to_nat idx) answers ++ drop (Z.to_nat (idx + 1)) answers
      | r :: _ =>
          alter (fun a => {| Time := Time a; Response := r |})
            (Z.to_nat idx) answers
      end in
    let m :=
      if decide (len answers = 0)
      then set_answers (delete q (Answers (log m))) m
      else set_answers (<[q := answers]> (Answers (log m))) m in
    let io := [IOSaveDayLog (day m) (log m)] in
    match SaveDayLog w (day m) (log m) with
    | Some e => (set_err (Some e) m, io)
    | None =>
        let m := set_err None m in
        let m := setStatus "Entry updated." m in
        (refreshQuestions m, io)
    end.

Definition handleEditorResult (w : World) (msg : editorResultMsg) (m : model)
  : Effect :=
  match msg_err msg with
  | Some e => (set_err (Some e) m, [])
  | None =>
      if negb (changed msg) then (setStatus "No changes saved." m, [])
      else if decide (0 ≤ msg_entryIndex msg) then
        applySingleEntryEdit w (msg_question msg) (msg_entryIndex msg)
          (responses msg) m
      else applyQuestionEdit w (msg_question msg) (responses msg) m
  end.

Definition refreshCurrentDayFromDisk (w : World) (m : model) : model :=
  match LoadDayLog w (day m) with
  | inr e => set_err (Some e) m
  | inl l => refreshQuestions (set_log l (set_err None m))
  end.

Definition handleExternalOpenResult (w : World) (k : externalOpenKind)
  (e : option error) (m : model) : model :=
  match e with
  | Some e => set_err (Some e) m
  | None =>
      let m := set_err None m in
      match k with
      | openKindDay =>
          setStatus "Day file reloaded." (refreshCurrentDayFromDisk w m)
      | openKindConfig => m
      end
  end.

Definition toggleHints (w : World) (m : model) : Effect :=
  let m := set_showHints (negb (showHints m)) m in
  let m := set_config (set_ShowHints (Some (showHints m)) (config m)) m in
  let io := [IOSaveConfig (config m)] in
  match SaveConfig w (config m) with
  | Some e => (set_err (Some e) m, io)
  | None =>
      let m := set_err None m in
      if showHints m then (setStatus "Hints enabled." m, io)
      else (setStatus "Hints hidden." m, io)
  end.

Definition reloadDay (w : World) (m : model) : model :=
  match LoadDayLog w (day m) with
  | inr e => set_err (Some e) m
  | inl l =>
      let m := set_err None m in
      let m := set_log l m in
      let m := set_view viewList m in
      let m := set_detail (set_editing false (detail m)) m in
      let m := set_detail_input (fun ti => SetValue EmptyString (Blur ti)) m in
      let m := set_selected 0 m in
      let m := refreshQuestions m in
      setStatus (String.append "Viewing " (FormatDay w (day m))) m
  end.

Definition changeDay (w : World) (delta : Z) (m : model) : model :=
  reloadDay w (set_day (day m + delta) m).

Definition goToToday (w : World) (m : model) : model :=
  if decide (Today w = day m) then m
  else reloadDay w (set_day (Today w) m).

Definition activateSelection (m : model) : option Cmd * model :=
  match currentRow m with
  | None => (None, m)
  | Some row =>
      if decide (kind row = rowEntry)
      then (openEntryEditor (question row) (entryIndex row) m, m)
      else (None, openDetail (question row) (autoInsert m) m)
  end.

Definition leaveDetail (m : model) : model :=
  set_detail (set_detail_question EmptyString (detail m)) (set_view viewList m).

Definition handleDetailKey (w : World) (key : string) (m : model) : Handled :=
  if decide (key = "esc") then
    if editing (detail m) then
      let m := set_detail (set_editing false (detail m)) m in
      let m := set_detail_input (fun ti => SetValue EmptyString (Blur ti)) m in
      (None, setStatus "Insert canceled." m, [])
    else (None, leaveDetail m, [])
  else if decide (key = "-") then
    if editing (detail m) then (None, m, []) else (None, leaveDetail m, [])
  else if decide (key = "enter") then
    if editing (detail m) then
      let '(m, io) := saveInlineEntry w m in (None, m, io)
    else (None, startEditing m, [])
  else if decide (key = "i") then
    if editing (detail m) then (None, m, []) else (None, startEditing m, [])
  else if decide (key = "e") then
    if editing (detail m) then (None, m, [])
    else (openQuestionEditor (detail_question (detail m)) m, m, [])
  else (None, m, []).

(** [unicode.IsLetter] and [unicode.ToLower] on the rune of a one-byte key.
    (A byte above 0x7F alone is not valid UTF-8: its rune is U+FFFD, which is
    neither a letter nor an index rune.) *)
Definition isUpper (r : ascii) : bool :=
  bool_decide (65 ≤ Z.of_N (N_of_ascii r) ≤ 90).

Definition ToLower (r : ascii) : ascii :=
  if isUpper r then ascii_of_N (N_of_ascii r + 32) else r.

Definition handleListKey (w : World) (key : string) (m : model) : Handled :=
  if decide (key = "up") then (None, moveSelection (-1) m, [])
  else if decide (key = "down") then (None, moveSelection 1 m, [])
  else if decide (key = "j") then
    if disableJKNav m then (None, (jumpToIndex "j" m).2, [])
    else (None, moveSelection 1 m, [])
  else if decide (key = "k") then
    if disableJKNav m then (None, (jumpToIndex "k" m).2, [])
    else (None, moveSelection (-1) m, [])
  else if decide (key = "enter") then
    let '(c, m) := activateSelection m in (c, m, [])
  else if decide (key = "i") then
    match currentRow m with
    | Some row => (None, openDetail (question row) true m, [])
    | None => (None, m, [])
    end
  else if decide (key = "e") then
    match currentRow m with
    | Some row =>
        if decide (kind row = rowEntry)
        then (openEntryEditor (question row) (entryIndex row) m, m, [])
        else (openQuestionEditor (question row) m, m, [])
    | None => (None, m, [])
    end
  else if decide (key = "d") then
    let '(m, io) := handleDeleteEntryRequest w m in (None, m, io)
  else if decide (key = "l") then (None, toggleListMode m, [])
  else if decide (key = "o") then openDayJSON w m
  else
    match key with
    | String r EmptyString =>
        let r := ToLower r in
        if decide ((r = "j"%char ∨ r = "k"%char) ∧ disableJKNav m = false)
        then (None, m, [])
        else
          let '(ok, m) := jumpToIndex r m in
          if ok && autoOpenIndex m then
            let '(c, m) := activateSelection m in (c, m, [])
          else (None, m, [])
    | _ => (None, m, [])
    end.

Definition viewHandling (w : World) (key : string) (m : model) : Handled :=
  match view m with
  | viewList => handleListKey w key m
  | viewDetail => handleDetailKey w key m
  end.

Definition handleKey (w : World) (key : string) (m : model) : Handled :=
  if decide (view m = viewDetail ∧ editing (detail m) = true) then
    if decide (key = "ctrl+c") then (Some Quit, m, [])
    else viewHandling w key m
  else if decide (key = "ctrl+c" ∨ key = "q") then (Some Quit, m, [])
  else
    let '(consumed, m, io) :=
      if decide (view m = viewList ∧ deleteConfirm m ≠ None)
      then handleDeleteConfirmationKey w key m
      else (false, m, []) in
    if consumed then (None, m, io)
    else if decide (key = "h" ∨ key = "?") then
      let '(m, io') := toggleHints w m in (None, m, io ++ io')
    else if decide (key = "esc" ∧ view m = viewList ∧ showHints m = false) then
      (None, setStatus "Hints temporarily shown." (set_showHints true m), io)
    else if decide (key = "left") then (None, changeDay w (-1) m, io)
    else if decide (key = "right") then (None, changeDay w 1 m, io)
    else if decide (key = " ") then (None, goToToday w m, io)
    else
      let '(c, m, io') := viewHandling w key m in (c, m, io ++ io').

(** While the inline editor is open every message first goes to the text
    input. *)
Definition updateInput (w : World) (msg : Msg) (m : model) : model :=
  if decide (view m = viewDetail ∧ editing (detail m) = true)
  then set_detail_input (fun ti => inputUpdate w ti msg) m
  else m.

(** The type switch of [Update]. *)
Definition dispatch (w : World) (msg : Msg) (m : model)
  : list Cmd * model * list IOEvent :=
  match msg with
  | WindowSizeMsg wd ht =>
      let m := set_height ht (set_width wd m) in
      ([], set_detail_input (SetWidth (Z.max 20 (width m - 4))) m, [])
  | KeyMsg key =>
      let '(c, m, io) := handleKey w key m in (option_list c, m, io)
  | EditorResultMsg r =>
      let '(m, io) := handleEditorResult w r m in ([], m, io)
  | StatusTimeoutMsg seq =>
      if decide (seq = statusSeq m) then ([], set_status EmptyString m, [])
      else ([], m, [])
  | ExternalOpenResultMsg k e => ([], handleExternalOpenResult w k e m, [])
  | OtherMsg => ([], m, [])
  end.

(** The pending status timer joins the batch and is cleared. *)
Definition flushTimer (r : list Cmd * model * list IOEvent)
  : model * list Cmd * list IOEvent :=
  match statusTimerCmd r.1.2 with
  | Some timer => (set_statusTimerCmd None r.1.2, r.1.1 ++ [timer], r.2)
  | None => (r.1.2, r.1.1, r.2)
  end.

(** One transition: the new model, the batch of commands, and the writes. *)
Definition Update (w : World) (msg : Msg) (m : model)
  : model * list Cmd * list IOEvent :=
  flushTimer (dispatch w msg (updateInput w msg m)).

(** The model literal of [newModel]: the fields it sets, the others at
    their zero values. *)
Definition initialModel (cfg : Config) (today : Z) (l : DayLog) : model :=
  {| cfgQuestions := Questions cfg; config := cfg; day := today;
     log := l; questions := []; questionIndex := ∅; rows := [];
     selected := 0; listMode := DefaultListModeEnabled cfg;
     disableJKNav := false; showHints := HintsEnabled cfg;
     autoInsert := AutoInsertEnabled cfg;
     autoOpenIndex := AutoOpenIndexJumpEnabled cfg;
     confirmDelete := ConfirmDeleteEnabled cfg; view := viewList;
     detail :=
       {| detail_question := EmptyString; editing := false;
          input := {| Value := EmptyString; Focused := false; Width := 60 |} |};
     deleteConfirm := None; confirmPrompt := EmptyString;
     showDeletePrompt := false; status := EmptyString; statusSeq := 0;
     statusTimeout := StatusMessageDuration cfg; statusTimerCmd := None;
     err := None; width := 0; height := 0 |}.

Definition newModel (w : World) (cfg : Config) : model + error :=
  match LoadDayLog w (Today w) with
  | inr e => inr e
  | inl l => inl (refreshQuestions (initialModel cfg (Today w) l))
  end.

(** The message a command delivers once the runtime has executed it.
    [openFileInEditorCmd] answers with the error of building or running the
    editor command. *)
Definition runCmd (run : EditorRun) (c : Cmd) : option Msg :=
  match c with
  | Quit => None
  | EditEntries q lines idx => Some (EditorResultMsg (editEntriesCmd run q lines idx))
  | OpenFileInEditor _ k =>
      Some (ExternalOpenResultMsg k
              (match buildEditorCommand run with
               | Some e => Some e
               | None => execProcess run
               end))
  | Tick _ seq => Some (StatusTimeoutMsg seq)
  end.

(** A run of the session: the messages are delivered one at a time, each in
    the world it meets. *)
Fixpoint run (events : list (World * Msg)) (m : model) : model :=
  match events with
  | [] => m
  | (w, msg) :: rest => run rest (Update w msg m).1.1
  end.

End Tui.

(** ** The vocabulary of the specification *)

Module Spec.
Import GoStrings App.

(** The non-empty, whitespace-trimmed members of a list of lines, in order. *)
Definition cleanLines (lines : list string) : list string :=
  filter (fun line => line ≠ EmptyString) (TrimSpace <$> lines).


(** The timestamp of the first entry of [unused], in list order, whose
    response text is identical to [line], together with the entries that
    stay unused. *)
Fixpoint takeFirst (line : string) (unused : list Answer)
  : option (string * list Answer) :=
  match unused with
  | [] => None
  | a :: rest =>
      if decide (Response a = line) then Some (Time a, rest)
      else
        match takeFirst line rest with
        | Some (t, rest') => Some (t, a :: rest')
        | None => None
        end
  end.

(** The timestamps of the unused entries with the text [line], in list
    order. *)
Definition timesOf (line : string) (unused : list Answer) : list string :=
  Time <$> filter (fun a => Response a = line) unused.

(** Each line, in order, is given the timestamp of the first original entry,
    in list order, that has the identical text and is not yet reused, or the
    current time ([now k] at the [k]-th line) when no such entry remains. *)
Fixpoint reconcile (now : nat -> string) (k : nat) (unused : list Answer)
  (lines : list string) : list Answer :=
  match lines with
  | [] => []
  | line :: lines' =>
      match takeFirst line unused with
      | Some (t, unused') =>
          {| Time := t; Response := line |} :: reconcile now (S k) unused' lines'
      | None =>
          {| Time := now k; Response := line |}
          :: reconcile now (S k) unused lines'
      end
  end.

(** The record after the entries of question [q] have been set to
    [entries]: a question left without entries loses its key. *)
Definition putEntries (q : string) (entries : list Answer)
  (answers : gmap string (list Answer)) : gmap string (list Answer) :=
  if decide (entries = []) then delete q answers else <[q := entries]> answers.

(** The day records handed to [SaveDayLog] in a trace of writes. *)
Definition savedLogs (io : list Tui.IOEvent) : list DayLog :=
  omap (fun e => match e with
                 | Tui.IOSaveDayLog _ l => Some l
                 | Tui.IOSaveConfig _ => None
                 end) io.

(** No record handed to storage has an empty entry sequence under a key,
    unless the record [before] the transition already had it there. *)
Definition keepsNonEmpty (before : DayLog) (io : list Tui.IOEvent) : Prop :=
  ∀ l, l ∈ savedLogs io →
       ∀ k, Answers l !! k = Some [] → Answers before !! k = Some [].

(** The header row of a question. *)
Definition header (q : string) : Tui.listRow :=
  {| Tui.kind := Tui.rowQuestion; Tui.question := q; Tui.entryIndex := 0 |}.

(** The rows are the ones [rebuildRows] derives from the questions, the
    record and the list-mode flag of the model. *)
Definition rowsInSync (m : Tui.model) : Prop :=
  Tui.rows m
  = foldl (fun rows q => rows ++ Tui.rowsOf m q) [] (Tui.questions m).

(** A selection index brought into the row range of [m], as the end of
    [refreshQuestions] does. *)
Definition clampSelected (m : Tui.model) (sel : Z) : Z :=
  if decide (Tui.len (Tui.rows m) = 0) then 0
  else if decide (Tui.len (Tui.rows m) ≤ sel) then Tui.len (Tui.rows m) - 1
  else sel.

(** The number of rows that precede the header of the [n]-th question. *)
Definition rowsBefore (m : Tui.model) (n : nat) : Z :=
  Tui.len (concat (map (Tui.rowsOf m) (take n (Tui.questions m)))).

(** The fields that the rows and the selection are derived from. *)
Definition layout (m : Tui.model)
  : list Tui.listRow * list string * bool * DayLog * Z :=
  (Tui.rows m, Tui.questions m, Tui.listMode m, Tui.log m, Tui.selected m).

(** The selection index is within the bounds of the row sequence: 0 when
    there is no row, and otherwise the index of a row. *)
Definition inBounds (m : Tui.model) : Prop :=
  (Tui.len (Tui.rows m) = 0 ∧ Tui.selected m = 0)
  ∨ 0 ≤ Tui.selected m < Tui.len (Tui.rows m).

(** The rows mirror the record and the selection is within them. *)
Definition wellFormed (m : Tui.model) : Prop := rowsInSync m ∧ inBounds m.

(** A pending status timer is keyed to the current sequence number. *)
Definition armed (m : Tui.model) : Prop :=
  ∀ c, Tui.statusTimerCmd m = Some c →
       c = Tui.Tick (Tui.statusTimeout m) (Tui.statusSeq m).

(** From [m] to [m'] the status fields are untouched, or the status was set
    once: the sequence number moved to its successor and the timer is keyed
    to it. *)
Definition statusStep (m m' : Tui.model) : Prop :=
  Tui.statusTimeout m' = Tui.statusTimeout m
  ∧ ((Tui.statusSeq m' = Tui.statusSeq m
      ∧ Tui.statusTimerCmd m' = Tui.statusTimerCmd m)
     ∨ (Tui.statusSeq m' = wrap64 (Tui.statusSeq m + 1) ∧ armed m')).

(** The timer that [setStatus] leaves for the message that [m] shows: none
    for the empty message or a lifetime that is not positive. *)
Definition timerFor (m : Tui.model) : option Tui.Cmd :=
  if decide (Tui.status m = EmptyString ∨ Tui.statusTimeout m ≤ 0) then None
  else Some (Tui.Tick (Tui.statusTimeout m) (Tui.statusSeq m)).

(** From [m] to [m'] the status fields are untouched, or the status was set
    once: the sequence number moved to its successor and the timer slot
    holds the timer of the message shown. *)
Definition statusSet (m m' : Tui.model) : Prop :=
  Tui.statusTimeout m' = Tui.statusTimeout m
  ∧ ((Tui.statusSeq m' = Tui.statusSeq m
      ∧ Tui.statusTimerCmd m' = Tui.statusTimerCmd m)
     ∨ (Tui.statusSeq m' = wrap64 (Tui.statusSeq m + 1)
        ∧ Tui.statusTimerCmd m' = timerFor m')).

(** What a key handler answers: the status fields take at most one step, and
    the command is not a timer. *)
Definition handled (m : Tui.model) (r : option Tui.Cmd * Tui.model * list Tui.IOEvent)
  : Prop :=
  statusStep m r.1.2 ∧ ∀ d s, r.1.1 ≠ Some (Tui.Tick d s).

End Spec.

(** ** Concrete sessions used to exercise the model *)

Module Examples.
Import GoStrings App Tui.

Definition t1 : string := "2024-05-01T09:00:00Z".
Definition t2 : string := "2024-05-01T09:30:00Z".
Definition t3 : string := "2024-05-01T11:15:00Z".

(** The clock during the transitions of the examples. *)
Definition clock (k : nat) : string := "2024-05-01T17:45:00Z".

Definition entry (t r : string) : Answer := {| Time := t; Response := r |}.

Definition dayLog (answers : gmap string (list Answer)) : DayLog :=
  {| Date := "2024-05-01"; Answers := answers |}.

Definition cfg (qs : list string) (listModeOn confirm : bool) : Config :=
  {| Questions := qs; ShowHints := None; AutoInsertEntries := None;
     DefaultListMode := Some listModeOn; AutoOpenIndexJump := None;
     ConfirmDelete := Some confirm; ContinueInsertAfterSave := None;
     ConfirmEscapeWithText := None; StatusMessageDurationMs := None;
     EscapeConfirmTimeoutMs := None |}.

(** The text input appends a typed one-byte key while it has the focus. *)
Definition typing (ti : textinput) (msg : Msg) : textinput :=
  match msg with
  | KeyMsg (String c EmptyString) =>
      if Focused ti
      then SetValue (String.append (Value ti) (String c EmptyString)) ti
      else ti
  | _ => ti
  end.

(** A world in which the day [19844] holds [l] and every write ends with
    [saveResult]. *)
Definition world (l : DayLog) (saveResult : option string) : World :=
  {| LoadDayLog := fun _ => inl l;
     SaveDayLog := fun _ _ => saveResult;
     SaveConfig := fun _ => None;
     DayFilePath := fun _ => inl "/home/u/.local/share/wlog/2024-05-01.json";
     Today := 19844;
     Now := clock;
     FormatDay := fun _ => "2024-05-01";
     inputUpdate := typing |}.

(** The session as [newModel] leaves it. *)
Definition session (c : Config) (l : DayLog) : model :=
  refreshQuestions (initialModel c 19844 l).

(** An editor run without failure that leaves [data] in the scratch file. *)
Definition edited (data : string) : EditorRun :=
  {| createTemp := None; writeString := None; buildEditorCommand := None;
     execProcess := None; readFile := inl data |}.


Definition abc : list Answer := [entry t1 "a"; entry t2 "b"; entry t3 "c"].

(** The scenario of the specification: Q1 holds a, b, c; the whole question
    is edited and the buffer comes back as c, a, b, d. *)
Definition abcLog : DayLog := dayLog {[ "Q1" := abc ]}.
Definition abcWorld : World := world abcLog None.
Definition abcSession : model := session (cfg ["Q1"; "Q2"] false true) abcLog.

Definition untrimmed : list Answer := [entry t1 " a"].



(** Q1 holds the single entry a; list mode is on, so its row can be
    selected and opened in the editor. *)
Definition soleLog : DayLog := dayLog {[ "Q1" := [entry t1 "a"] ]}.
Definition soleWorld : World := world soleLog None.
Definition soleSession : model := session (cfg ["Q1"; "Q2"] true true) soleLog.

(** An editor run that cannot find the editor program. *)
Definition noEditor : EditorRun :=
  {| createTemp := None; writeString := None;
     buildEditorCommand := Some "unable to launch editor";
     execProcess := None; readFile := inl EmptyString |}.

(** The entry row of Q1 selected, and then a delete request made on it. *)
Definition soleSelected : model :=
  (Update soleWorld (KeyMsg "down") soleSession).1.1.
Definition solePending : model :=
  (Update soleWorld (KeyMsg "d") soleSelected).1.1.

(** Twenty-one configured questions, no entries, list mode off. *)
Definition manyQuestions : list string :=
  ["q00"; "q01"; "q02"; "q03"; "q04"; "q05"; "q06"; "q07"; "q08"; "q09";
   "q10"; "q11"; "q12"; "q13"; "q14"; "q15"; "q16"; "q17"; "q18"; "q19";
   "q20"].
Definition emptyLog : DayLog := dayLog ∅.
Definition emptyWorld : World := world emptyLog None.
Definition manySession : model := session (cfg manyQuestions false true) emptyLog.

(** Two configured questions, list mode off, and a status duration so long
    that its conversion to nanoseconds overflows the 64-bit integer. *)
Definition longStatus : Config :=
  {| Questions := ["Q1"; "Q2"]; ShowHints := None; AutoInsertEntries := None;
     DefaultListMode := Some false; AutoOpenIndexJump := None;
     ConfirmDelete := Some true; ContinueInsertAfterSave := None;
     ConfirmEscapeWithText := None;
     StatusMessageDurationMs := Some 9223372036855;
     EscapeConfirmTimeoutMs := None |}.
Definition longStatusSession : model := session longStatus emptyLog.

(** Three configured questions, the second with the empty name; the first
    has two entries; list mode on.  Three steps down select the row of the
    question with the empty name. *)
Definition namelessLog : DayLog :=
  dayLog {[ "A" := [entry t1 "a1"; entry t2 "a2"] ]}.
Definition namelessWorld : World := world namelessLog None.
Definition namelessSelected : model :=
  run [(namelessWorld, KeyMsg "down"); (namelessWorld, KeyMsg "down");
       (namelessWorld, KeyMsg "down")]
    (session (cfg ["A"; EmptyString; "B"] true true) namelessLog).

(** Three configured questions and one more, X, that only the record has,
    with a single entry; list mode on, no confirmation; every write fails.
    The entry row of X is selected and deleted: the record loses X, the
    write fails, and the rows are left as they were. *)
Definition extraLog : DayLog := dayLog {[ "X" := [entry t1 "x"] ]}.
Definition failingWorld (l : DayLog) : World := world l (Some "disk full").
Definition extraDeleted : model :=
  run [(failingWorld extraLog, KeyMsg "down");
       (failingWorld extraLog, KeyMsg "down");
       (failingWorld extraLog, KeyMsg "down");
       (failingWorld extraLog, KeyMsg "down");
       (failingWorld extraLog, KeyMsg "d")]
    (session (cfg ["A"; "B"; "C"] true false) extraLog).

(** Two configured questions, an empty record, list mode on; every write
    fails.  Enter opens Q1 and starts the inline editor, x is typed and
    submitted (the entry joins the record, the write fails, the rows are not
    rebuilt), escape twice leads back to the list, and 1 jumps to Q2. *)
Definition staleJump : model :=
  run [(failingWorld emptyLog, KeyMsg "enter");
       (failingWorld emptyLog, KeyMsg "x");
       (failingWorld emptyLog, KeyMsg "enter");
       (failingWorld emptyLog, KeyMsg "esc");
       (failingWorld emptyLog, KeyMsg "esc");
       (failingWorld emptyLog, KeyMsg "1")]
    (session (cfg ["Q1"; "Q2"] true true) emptyLog).

End Examples.

(** ** The command-line side of the program ([internal/app/app.go]) *)

Module Cli.
Import GoStrings App.

Definition DefaultQuestions : list string :=
  ["What did you do yesterday?"; "What will/did you do today?";
   "Are you blocked with anything?"].

Definition defaultContinueInsertAfterSave : bool := true.
Definition defaultConfirmEscapeWithText : bool := true.
Definition defaultEscapeConfirmTimeoutMs : Z := 1000.

Definition ContinueInsertAfterSaveEnabled (cfg : Config) : bool :=
  default defaultContinueInsertAfterSave (ContinueInsertAfterSave cfg).

Definition ConfirmEscapeWithTextEnabled (cfg : Config) : bool :=
  default defaultConfirmEscapeWithText (ConfirmEscapeWithText cfg).

Definition EscapeConfirmTimeout (cfg : Config) : Z :=
  let ms :=
    match EscapeConfirmTimeoutMs cfg with
    | Some v => if decide (0 < v) then v else defaultEscapeConfirmTimeoutMs
    | None => defaultEscapeConfirmTimeoutMs
    end in
  wrap64 (ms * Millisecond).

(** [ensureDefaults]: an empty question list becomes the default one, and a
    duration that is set but not positive is unset. *)
Definition ensureDefaults (cfg : Config) : Config :=
  {| Questions :=
       if decide (length (Questions cfg) = 0%nat) then DefaultQuestions
       else Questions cfg;
     ShowHints := ShowHints cfg;
     AutoInsertEntries := AutoInsertEntries cfg;
     DefaultListMode := DefaultListMode cfg;
     AutoOpenIndexJump := AutoOpenIndexJump cfg;
     ConfirmDelete := ConfirmDelete cfg;
     ContinueInsertAfterSave := ContinueInsertAfterSave cfg;
     ConfirmEscapeWithText := ConfirmEscapeWithText cfg;
     StatusMessageDurationMs :=
       match StatusMessageDurationMs cfg with
       | Some v => if decide (v ≤ 0) then None else Some v
       | None => None
       end;
     EscapeConfirmTimeoutMs :=
       match EscapeConfirmTimeoutMs cfg with
       | Some v => if decide (v ≤ 0) then None else Some v
       | None => None
       end |}.

(** [dayLogHasEntries]: some key of the record has a non-empty entry
    sequence.  (The loop returns at the first such key; the answer does not
    depend on the order in which the keys are visited.) *)
Definition dayLogHasEntries (l : DayLog) : bool :=
  existsb (fun kv => bool_decide (0 < length kv.2)%nat)
    (map_to_list (Answers l)).

(** [mergeQuestionsForList]: the configured questions, then the other keys
    of the record that have entries, sorted. *)
Definition mergeQuestionsForList (base : list string) (l : DayLog)
  : list string :=
  let extras :=
    filter (fun q => q ∉ base)
      (fst <$> filter (fun kv => length kv.2 ≠ 0%nat)
                 (map_to_list (Answers l))) in
  base ++ merge_sort String.le extras.

(** [OrderQuestions]: the configured questions that are keys of the record,
    in their configured order, then the remaining keys, sorted. *)
Definition OrderQuestions (answers : gmap string (list Answer))
  (base : list string) : list string :=
  let ordered := filter (fun q => is_Some (answers !! q)) base in
  let extras := filter (fun q => q ∉ ordered) (fst <$> map_to_list answers) in
  ordered ++ merge_sort String.le extras.

Definition intervalLabel (raw : string) : string :=
  let trimmed := TrimSpace raw in
  if decide (trimmed = EmptyString) then "today" else trimmed.

(** What [RunPrompts] meets: the record of today as storage holds it, the
    outcome of handing a record to storage, the text that the [k]-th read of
    a line from standard input gives (an end of input is not an error: it
    gives the text read so far), and the clock at the [k]-th reading. *)
Record PromptWorld := {
  loadToday : DayLog + error;
  saveToday : DayLog → option error;
  readLine : nat → string + error;
  nowAt : nat → string;
}.

(** The loop state of [RunPrompts]: the answers so far, the number of clock
    readings made, and whether an answer was recorded. *)
Record promptState := {
  answersSoFar : gmap string (list Answer);
  clockReadings : nat;
  updated : bool;
}.

(** The loop of [RunPrompts] from the [k]-th question on. *)
Fixpoint promptLoop (pw : PromptWorld) (questions : list string) (k : nat)
  (st : promptState) : error + promptState :=
  match questions with
  | [] => inr st
  | q :: rest =>
      match readLine pw k with
      | inr e => inl e
      | inl text =>
          let response := TrimSpace text in
          if decide (response = EmptyString) then promptLoop pw rest (S k) st
          else
            let entry :=
              {| Time := nowAt pw (clockReadings st); Response := response |} in
            promptLoop pw rest (S k)
              {| answersSoFar :=
                   <[q := default [] (answersSoFar st !! q) ++ [entry]]>
                     (answersSoFar st);
                 clockReadings := S (clockReadings st);
                 updated := true |}
      end
  end.

(** [RunPrompts]: the error returned, if any, and the records handed to
    storage. *)
Definition RunPrompts (pw : PromptWorld) (questions : list string)
  : option error * list DayLog :=
  if decide (length questions = 0%nat) then (None, [])
  else
    match loadToday pw with
    | inr e => (Some e, [])
    | inl l =>
        match
          promptLoop pw questions 0
            {| answersSoFar := Answers l; clockReadings := 0;
               updated := false |}
        with
        | inl e => (Some e, [])
        | inr st =>
            if negb (updated st) then (None, [])
            else
              let l' := set_Answers (answersSoFar st) l in
              (saveToday pw l', [l'])
        end
    end.

End Cli.

(** ** Further notions used to state properties of the code *)

Module Notions.
Import GoStrings App Tui Cli.

(** The string does not end with a carriage return. *)
Definition noFinalCR (s : string) : Prop :=
  last (list_ascii_of_string s) ≠ Some CR.

(** What [editEntriesCmd] leaves in the scratch file before the editor
    starts: the lines joined by line feeds and closed by one more line feed,
    or nothing at all when the joined text is empty. *)
Definition scratchFile (lines : list string) : string :=
  if decide (Join_LF lines = EmptyString) then EmptyString
  else String.append (Join_LF lines) (String LF EmptyString).

(** The writes of a transition that ends in [m']: none, or one write of the
    record that [m'] holds under the day that [m'] holds, or one write of
    the configuration that [m'] holds. *)
Definition writesOwnState (m' : model) (io : list IOEvent) : Prop :=
  io = []
  ∨ io = [IOSaveDayLog (day m') (log m')]
  ∨ io = [IOSaveConfig (config m')].

(** The non-blank answers, trimmed and in order, that were typed for the
    question [q] when the [questions] were asked in turn and the [texts]
    were read. *)
Definition givenTo (q : string) (questions texts : list string)
  : list string :=
  filter (fun r => r ≠ EmptyString)
    (TrimSpace <$> (snd <$> filter (fun p => p.1 = q) (zip questions texts))).

End Notions.

(** ** Further concrete sessions *)

Module Scenes.
Import GoStrings App Tui Examples.

(** Two configured questions, an empty record, every write fails: Enter
    opens Q1 with the inline editor started, and x is typed. *)
Definition typedX : model :=
  run [(failingWorld emptyLog, KeyMsg "enter");
       (failingWorld emptyLog, KeyMsg "x")]
    (session (cfg ["Q1"; "Q2"] true true) emptyLog).

(** A buffer of two lines, closed by a line feed. *)
Definition twoLines : string :=
  String.append "B1" (String LF (String.append "B2" (String LF EmptyString))).

(** Three configured questions and one more, X, that only the record has,
    with a single entry; list mode on, no confirmation; the entry row of X
    is selected. *)
Definition extraWorld : World := world extraLog None.
Definition extraSelected : model :=
  run [(extraWorld, KeyMsg "down"); (extraWorld, KeyMsg "down");
       (extraWorld, KeyMsg "down"); (extraWorld, KeyMsg "down")]
    (session (cfg ["A"; "B"; "C"] true false) extraLog).

(** A world like [soleWorld] in which only the record of today can be
    loaded. *)
Definition onlyToday : World :=
  {| LoadDayLog := fun d =>
       if decide (d = 19844) then inl soleLog else inr "permission denied";
     SaveDayLog := fun _ _ => None;
     SaveConfig := fun _ => None;
     DayFilePath := fun _ => inl "/home/u/.local/share/wlog/2024-05-01.json";
     Today := 19844;
     Now := clock;
     FormatDay := fun _ => "2024-05-01";
     inputUpdate := typing |}.

(** A configuration file with no questions and a negative status
    duration. *)
Definition bareConfig : Config :=
  {| Questions := []; ShowHints := Some false; AutoInsertEntries := None;
     DefaultListMode := None; AutoOpenIndexJump := None;
     ConfirmDelete := None; ContinueInsertAfterSave := None;
     ConfirmEscapeWithText := None; StatusMessageDurationMs := Some (-5);
     EscapeConfirmTimeoutMs := Some 250 |}.

(** Three prompts answered on the command line: the first with text, the
    second left blank, the third with text and no final line feed. *)
Definition typedAnswers : list string :=
  [String.append "fixed the build" (String LF EmptyString);
   String LF EmptyString; "nothing"].

Definition promptWorld (l : DayLog) : Cli.PromptWorld :=
  {| Cli.loadToday := inl l;
     Cli.saveToday := fun _ => None;
     Cli.readLine := fun k =>
       match typedAnswers !! k with
       | Some text => inl text
       | None => inr "read error"
       end;
     Cli.nowAt := clock |}.

End Scenes.

(** * Properties *)

Import GoStrings App Tui Spec.

(** Case analysis on the first decision found in the goal or a hypothesis. *)
Ltac case_dec :=
  match goal with
  | |- context [decide ?P] => destruct (decide P)
  | H : context [decide ?P] |- _ => destruct (decide P)
  end.

(** The example sessions are the models [newModel] builds. *)
Lemma session_is_newModel (c : Config) (l : DayLog) (saved : option string) :
  newModel (Examples.world l saved) c = inl (Examples.session c l).
Proof.
  unfold newModel, Examples.session.
  cbn [LoadDayLog Today Examples.world]. reflexivity.
Qed.

(** ** Trimming *)
















(** ** Reconciliation: the program against the rule *)


Lemma timesOf_app line (u v : list Answer) :
  timesOf line (u ++ v) = timesOf line u ++ timesOf line v.
Proof. unfold timesOf. by rewrite filter_app, fmap_app. Qed.

Lemma timesOf_cons line (a : Answer) (u : list Answer) :
  timesOf line (a :: u)
  = if decide (Response a = line) then Time a :: timesOf line u
    else timesOf line u.
Proof. unfold timesOf. rewrite filter_cons. by destruct (decide _). Qed.

Lemma poolAdd_timesOf (p : gmap string (list string)) (u : list Answer) a :
  (∀ r, default [] (p !! r) = timesOf r u) →
  ∀ r, default [] (poolAdd p a !! r) = timesOf r (u ++ [a]).
Proof.
  intros Hp r. unfold poolAdd. rewrite timesOf_app, timesOf_cons.
  destruct (decide (Response a = r)) as [<-|Hne].
  - rewrite lookup_insert_eq. simpl. by rewrite Hp.
  - rewrite lookup_insert_ne by done. rewrite Hp. unfold timesOf at 3.
    simpl. by rewrite app_nil_r.
Qed.

Lemma pool_build (existing : list Answer) :
  ∀ (p : gmap string (list string)) (u : list Answer),
    (∀ r, default [] (p !! r) = timesOf r u) →
    ∀ r, default [] (foldl poolAdd p existing !! r) = timesOf r (u ++ existing).
Proof.
  induction existing as [|a existing IH]; intros p u Hp r; simpl.
  - by rewrite app_nil_r.
  - rewrite (IH (poolAdd p a) (u ++ [a])).
    + by rewrite <-app_assoc.
    + by apply poolAdd_timesOf.
Qed.

Lemma takeFirst_None line (unused : list Answer) :
  timesOf line unused = [] → takeFirst line unused = None.
Proof.
  induction unused as [|a unused IH]; [done|].
  rewrite timesOf_cons. simpl. destruct (decide _); [done|].
  intros H. by rewrite IH.
Qed.

Lemma takeFirst_Some line (unused : list Answer) t ts :
  timesOf line unused = t :: ts →
  ∃ unused', takeFirst line unused = Some (t, unused')
             ∧ timesOf line unused' = ts
             ∧ ∀ r, r ≠ line → timesOf r unused' = timesOf r unused.
Proof.
  induction unused as [|a unused IH]; [done|].
  rewrite timesOf_cons. simpl. destruct (decide (Response a = line)) as [E|E].
  - intros [= <- <-]. exists unused. split_and!; [done..|].
    intros r Hr. rewrite timesOf_cons. destruct (decide _); congruence.
  - intros (unused' & -> & Hts & Hother)%IH. exists (a :: unused').
    split_and!; [done|..].
    + rewrite timesOf_cons. by destruct (decide _).
    + intros r Hr. rewrite !timesOf_cons, Hother by done. done.
Qed.

Lemma rebuild_fold (now : nat -> string) (lines : list string) :
  ∀ (st : rebuildState) (unused : list Answer),
    (∀ r, default [] (pool st !! r) = timesOf r unused) →
    result (foldl (rebuildStep now) st lines)
    = result st ++ reconcile now (ticks st) unused (cleanLines lines).
Proof.
  induction lines as [|l lines IH]; intros st unused Hpool; simpl.
  - by rewrite app_nil_r.
  - unfold cleanLines. rewrite fmap_cons, filter_cons.
    fold (cleanLines lines). unfold rebuildStep at 2.
    destruct (decide (TrimSpace l = EmptyString)) as [E|E].
    + destruct (decide _); [done|]. by apply IH.
    + destruct (decide _); [|done]. simpl.
      destruct (default [] (pool st !! TrimSpace l)) as [|t times] eqn:Hl.
      * rewrite Hpool in Hl. rewrite (takeFirst_None _ _ Hl).
        rewrite (IH _ unused) by done. simpl. by rewrite <-app_assoc.
      * rewrite Hpool in Hl.
        destruct (takeFirst_Some _ _ _ _ Hl) as (unused' & -> & Hts & Ho).
        rewrite (IH _ unused'); simpl.
        { by rewrite <-app_assoc. }
        intros r. destruct (decide (r = TrimSpace l)) as [->|Hr].
        -- by rewrite lookup_insert_eq.
        -- rewrite lookup_insert_ne by done. by rewrite Hpool, Ho.
Qed.

(** [rebuildAnswers] computes the reconciliation rule on the non-empty
    trimmed responses. *)
Lemma rebuildAnswers_reconcile (now : nat -> string) (existing : list Answer)
  (resps : list string) :
  rebuildAnswers now existing resps
  = reconcile now O existing (cleanLines resps).
Proof.
  unfold rebuildAnswers. destruct (decide (resps = [])) as [->|_]; [done|].
  rewrite (rebuild_fold now resps _ existing); [done|].
  simpl. intros r. by rewrite (pool_build existing ∅ []).
Qed.

Lemma reconcile_responses now k (unused : list Answer) (lines : list string) :
  Response <$> reconcile now k unused lines = lines.
Proof.
  revert k unused; induction lines as [|l lines IH]; intros k unused; simpl;
    [done|].
  destruct (takeFirst l unused) as [[t unused']|]; simpl; by rewrite IH.
Qed.

Lemma responsesForQuestion_fmap (entries : list Answer) :
  responsesForQuestion entries = Response <$> entries.
Proof.
  unfold responsesForQuestion.
  assert (H : ∀ acc, foldl (fun lines ans => lines ++ [Response ans]) acc entries
                     = acc ++ (Response <$> entries)).
  { induction entries as [|a entries IH]; intros acc; simpl.
    - by rewrite app_nil_r.
    - by rewrite IH, <-app_assoc. }
  apply (H []).
Qed.

Lemma reconcile_self now k (entries : list Answer) :
  reconcile now k entries (Response <$> entries) = entries.
Proof.
  revert k; induction entries as [|[t r] entries IH]; intros k; simpl; [done|].
  destruct (decide (r = r)); [|done]. by rewrite IH.
Qed.

Lemma cleanLines_id (lines : list string) :
  Forall (fun l => TrimSpace l = l ∧ l ≠ EmptyString) lines →
  cleanLines lines = lines.
Proof.
  unfold cleanLines. induction 1 as [|l lines [Ht Hne] _ IH]; [done|].
  rewrite fmap_cons, filter_cons, Ht. destruct (decide _); [|done].
  by rewrite IH.
Qed.

(** ** Fields a procedure leaves alone *)

Lemma len_0 {A : Type} (l : list A) : len l = 0 ↔ l = [].
Proof. unfold len. destruct l; simpl; split; intros; try done; lia. Qed.

Lemma log_setStatus text m : log (setStatus text m) = log m.
Proof. unfold setStatus. simpl. by destruct (decide _). Qed.

Lemma day_setStatus text m : day (setStatus text m) = day m.
Proof. unfold setStatus. simpl. by destruct (decide _). Qed.

Lemma log_refreshQuestions m : log (refreshQuestions m) = log m.
Proof. unfold refreshQuestions. simpl. repeat case_dec; done. Qed.

Lemma day_refreshQuestions m : day (refreshQuestions m) = day m.
Proof. unfold refreshQuestions. simpl. repeat case_dec; done. Qed.

Lemma log_selectQuestionByName q m : log (selectQuestionByName q m) = log m.
Proof.
  unfold selectQuestionByName, selectQuestionByIndex.
  destruct (_ !! _); [|done]. repeat case_dec; done.
Qed.

Lemma log_updateInput w msg m : log (updateInput w msg m) = log m.
Proof. unfold updateInput. by case_dec. Qed.

Lemma day_updateInput w msg m : day (updateInput w msg m) = day m.
Proof. unfold updateInput. by case_dec. Qed.

Lemma log_flushTimer r : log (flushTimer r).1.1 = log r.1.2.
Proof. unfold flushTimer. by destruct (statusTimerCmd _). Qed.

Lemma io_flushTimer r : (flushTimer r).2 = r.2.
Proof. unfold flushTimer. by destruct (statusTimerCmd _). Qed.

Lemma answersFor_log m m' q : log m = log m' → answersFor m q = answersFor m' q.
Proof. unfold answersFor. by intros ->. Qed.

(** ** What the mutating procedures do to the record *)

Lemma performDeleteEntry_spec w q idx m :
  0 ≤ idx < len (answersFor m q) →
  let remaining :=
    take (Z.to_nat idx) (answersFor m q)
    ++ drop (Z.to_nat (idx + 1)) (answersFor m q) in
  let r := performDeleteEntry w q idx m in
  Answers (log r.1) = putEntries q remaining (Answers (log m))
  ∧ Date (log r.1) = Date (log m)
  ∧ r.2 = [IOSaveDayLog (day m) (log r.1)].
Proof.
  intros Hidx. unfold performDeleteEntry, putEntries.
  destruct (decide (idx < 0 ∨ _)) as [[?|?]|_]; [lia..|].
  destruct (decide (len _ = 0)) as [E|E]; simpl;
    destruct (decide (_ = [])) as [E'|E']; try (apply len_0 in E; done);
    try (apply len_0 in E'; done);
    destruct (SaveDayLog _ _ _); simpl;
    rewrite ?log_selectQuestionByName, ?log_refreshQuestions, ?log_setStatus;
    simpl; done.
Qed.

Lemma applyQuestionEdit_spec w q resps m :
  let updated := rebuildAnswers (Now w) (answersFor m q) resps in
  let r := applyQuestionEdit w q resps m in
  Answers (log r.1) = putEntries q updated (Answers (log m))
  ∧ Date (log r.1) = Date (log m)
  ∧ r.2 = [IOSaveDayLog (day m) (log r.1)].
Proof.
  unfold applyQuestionEdit, putEntries.
  destruct (decide (len _ = 0)) as [E|E]; simpl;
    destruct (decide (_ = [])) as [E'|E']; try (apply len_0 in E; done);
    try (apply len_0 in E'; done);
    destruct (SaveDayLog _ _ _); simpl;
    rewrite ?log_refreshQuestions, ?log_setStatus; simpl; done.
Qed.

Lemma applySingleEntryEdit_spec w q idx r0 rs m :
  0 ≤ idx < len (answersFor m q) →
  let updated :=
    alter (fun a => {| Time := Time a; Response := r0 |}) (Z.to_nat idx)
      (answersFor m q) in
  let r := applySingleEntryEdit w q idx (r0 :: rs) m in
  Answers (log r.1) = <[q := updated]> (Answers (log m))
  ∧ Date (log r.1) = Date (log m)
  ∧ r.2 = [IOSaveDayLog (day m) (log r.1)].
Proof.
  intros Hidx. unfold applySingleEntryEdit.
  destruct (decide (idx < 0 ∨ _)) as [[?|?]|_]; [lia..|].
  destruct (decide (len _ = 0)) as [E|E]; simpl.
  { unfold len in *. rewrite length_alter in E. lia. }
  destruct (SaveDayLog _ _ _); simpl;
    rewrite ?log_refreshQuestions, ?log_setStatus; simpl; done.
Qed.

Lemma saveInlineEntry_spec w m :
  let text := TrimSpace (Value (input (detail m))) in
  let q := detail_question (detail m) in
  text ≠ EmptyString →
  let r := saveInlineEntry w m in
  Answers (log r.1)
  = <[q := answersFor m q ++ [{| Time := Now w O; Response := text |}]]>
      (Answers (log m))
  ∧ Date (log r.1) = Date (log m)
  ∧ r.2 = [IOSaveDayLog (day m) (log r.1)].
Proof.
  intros text q Hne. unfold saveInlineEntry. fold text.
  destruct (decide (text = EmptyString)); [done|]. simpl.
  destruct (SaveDayLog _ _ _); simpl;
    rewrite ?log_refreshQuestions, ?log_setStatus; simpl; done.
Qed.

(** ** Reconciling an entry list against its own responses *)

(** C6 (amended).  Whole-question reconciliation leaves an entry list as it
    is when it is reconciled against its own responses, provided every
    response is already whitespace-trimmed (trimming does not change it) and
    non-empty: same responses, same timestamps, same order. *)
Theorem C6_reconcile_own_responses (now : nat -> string)
  (existing : list Answer) :
  Forall (fun a => TrimSpace (Response a) = Response a
                   ∧ Response a ≠ EmptyString) existing →
  rebuildAnswers now existing (responsesForQuestion existing) = existing.
Proof.
  intros Hwf. rewrite rebuildAnswers_reconcile, responsesForQuestion_fmap.
  rewrite cleanLines_id; [apply reconcile_self|].
  apply Forall_fmap. eapply Forall_impl; [exact Hwf|]. by intros a [? ?].
Qed.

Lemma C6_reconcile_own_responses_witness :
  Forall (fun a => TrimSpace (Response a) = Response a
                   ∧ Response a ≠ EmptyString) Examples.abc
  ∧ rebuildAnswers Examples.clock Examples.abc
      (responsesForQuestion Examples.abc) = Examples.abc.
Proof.
  assert (H : Forall (fun a => TrimSpace (Response a) = Response a
                               ∧ Response a ≠ EmptyString) Examples.abc).
  { repeat constructor; vm_compute; congruence. }
  split; [exact H|]. exact (C6_reconcile_own_responses Examples.clock _ H).
Defined.

(** C6 as stated fails: a response that is non-empty after trimming but
    carries leading white space is trimmed by the reconciliation, finds no
    timestamp under its trimmed text, and comes back changed, with the
    current time. *)
Lemma C6_counterexample :
  Forall (fun a => TrimSpace (Response a) ≠ EmptyString) Examples.untrimmed
  ∧ rebuildAnswers Examples.clock Examples.untrimmed
      (responsesForQuestion Examples.untrimmed)
    = [Examples.entry (Examples.clock 0) "a"]
  ∧ rebuildAnswers Examples.clock Examples.untrimmed
      (responsesForQuestion Examples.untrimmed) ≠ Examples.untrimmed.
Proof.
  split_and!.
  - repeat constructor. vm_compute. congruence.
  - vm_compute. reflexivity.
  - vm_compute. congruence.
Qed.

(** ** The editor round trip *)

Lemma editEntriesCmd_changed run q lines idx data :
  createTemp run = None → writeString run = None →
  buildEditorCommand run = None → execProcess run = None →
  readFile run = inl data →
  normalizeEditorContent data ≠ normalizeEditorContent (Join_LF lines) →
  editEntriesCmd run q lines idx
  = {| msg_question := q; msg_entryIndex := idx;
       responses :=
         if decide (0 ≤ idx) then [normalizeEditorContent data]
         else parseEditorLines (normalizeEditorContent data);
       changed := true; msg_err := None |}.
Proof.
  intros Hc Hw Hb He Hr Hne. unfold editEntriesCmd.
  rewrite Hc, Hw, Hb, He, Hr. destruct (decide (Join_LF lines = _)); simpl;
    destruct (decide (normalizeEditorContent data = _)); try done;
    by destruct (decide (0 ≤ idx)).
Qed.

Lemma Update_EditorResult w r m :
  Update w (EditorResultMsg r) m
  = flushTimer ([], (handleEditorResult w r (updateInput w (EditorResultMsg r) m)).1,
                (handleEditorResult w r (updateInput w (EditorResultMsg r) m)).2).
Proof.
  unfold Update, dispatch. by destruct (handleEditorResult _ _ _).
Qed.


(** ** The whole-question edit *)

(** Through the editor an unchanged buffer never reaches the reconciliation:
    the command reports it as unchanged, and the transition leaves the
    record alone and writes nothing. *)
Lemma unchanged_buffer_is_no_edit (w : World) (m : model) (run : EditorRun)
  (q : string) (lines : list string) (idx : Z) (data : string) :
  createTemp run = None → writeString run = None →
  buildEditorCommand run = None → execProcess run = None →
  readFile run = inl data →
  normalizeEditorContent data = normalizeEditorContent (Join_LF lines) →
  let r := Update w (EditorResultMsg (editEntriesCmd run q lines idx)) m in
  log r.1.1 = log m ∧ r.2 = [].
Proof.
  intros Hc Hw Hb He Hr Heq r. unfold r.
  rewrite Update_EditorResult, log_flushTimer, io_flushTimer.
  assert (Hmsg : editEntriesCmd run q lines idx
                 = {| msg_question := q; msg_entryIndex := idx;
                      responses := lines; changed := false;
                      msg_err := None |}).
  { unfold editEntriesCmd. rewrite Hc, Hw, Hb, He, Hr. cbv zeta.
    destruct (decide (Join_LF lines = EmptyString));
      by destruct (decide (normalizeEditorContent data = _)). }
  rewrite Hmsg. unfold handleEditorResult. cbn [msg_err changed negb fst snd].
  split; [|done]. by rewrite log_setStatus, log_updateInput.
Qed.




(** ** Editor failures *)

Lemma editEntriesCmd_failed run q lines idx :
  createTemp run ≠ None
  ∨ (Join_LF lines ≠ EmptyString ∧ writeString run ≠ None)
  ∨ buildEditorCommand run ≠ None
  ∨ execProcess run ≠ None
  ∨ (∃ e, readFile run = inr e) →
  ∃ e, editEntriesCmd run q lines idx = editorError q idx e.
Proof.
  intros H. unfold editEntriesCmd.
  destruct (createTemp run) as [e|]; [by exists e|].
  destruct (decide (Join_LF lines = EmptyString)) as [E|E].
  - destruct (buildEditorCommand run) as [e|]; [by exists e|].
    destruct (execProcess run) as [e|]; [by exists e|].
    destruct (readFile run) as [data|e]; [|by exists e].
    destruct H as [?|[[? ?]|[?|[?|[e ?]]]]]; done.
  - destruct (writeString run) as [e|]; [by exists e|].
    destruct (buildEditorCommand run) as [e|]; [by exists e|].
    destruct (execProcess run) as [e|]; [by exists e|].
    destruct (readFile run) as [data|e]; [|by exists e].
    destruct H as [?|[[? ?]|[?|[?|[e ?]]]]]; done.
Qed.

(** C9.  When the scratch file cannot be created or written, the editor
    cannot be launched or fails, or the scratch file cannot be read back, the
    command answers with that error; the transition that receives it records
    the error in the model, leaves the record as it was, and makes no write
    to storage. *)
Theorem C9_editor_failure_leaves_record (w : World) (m : model)
  (run : EditorRun) (q : string) (lines : list string) (idx : Z) :
  createTemp run ≠ None
  ∨ (Join_LF lines ≠ EmptyString ∧ writeString run ≠ None)
  ∨ buildEditorCommand run ≠ None
  ∨ execProcess run ≠ None
  ∨ (∃ e, readFile run = inr e) →
  let msg := editEntriesCmd run q lines idx in
  let r := Update w (EditorResultMsg msg) m in
  (∃ e, msg_err msg = Some e ∧ err r.1.1 = Some e)
  ∧ log r.1.1 = log m
  ∧ r.2 = [].
Proof.
  intros H msg r. destruct (editEntriesCmd_failed run q lines idx H) as [e He].
  unfold r, msg. rewrite He, Update_EditorResult, log_flushTimer, io_flushTimer.
  unfold handleEditorResult. simpl. split_and!.
  - exists e. split; [done|]. unfold flushTimer.
    by destruct (statusTimerCmd _).
  - apply log_updateInput.
  - done.
Qed.

Lemma C9_editor_failure_leaves_record_witness :
  buildEditorCommand Examples.noEditor ≠ None
  ∧ log (Update Examples.soleWorld
           (EditorResultMsg (editEntriesCmd Examples.noEditor "Q1" ["a"] 0))
           Examples.soleSession).1.1 = log Examples.soleSession
  ∧ (Update Examples.soleWorld
       (EditorResultMsg (editEntriesCmd Examples.noEditor "Q1" ["a"] 0))
       Examples.soleSession).2 = [].
Proof.
  assert (H : buildEditorCommand Examples.noEditor ≠ None) by (simpl; congruence).
  split; [exact H|].
  exact (proj2 (C9_editor_failure_leaves_record Examples.soleWorld
                  Examples.soleSession Examples.noEditor "Q1" ["a"] 0
                  (or_intror (or_intror (or_introl H))))).
Defined.

(** ** The single-entry edit *)

(** What a single-entry edit does once the editor has left a buffer that
    differs from the entry: the entry's text becomes the buffer, without its
    trailing line feeds; its timestamp and the other entries stay. *)
Lemma single_entry_edit (w : World) (m : model) (q : string) (idx : Z)
  (orig : Answer) (run : EditorRun) (data : string) :
  0 ≤ idx → answersFor m q !! Z.to_nat idx = Some orig →
  createTemp run = None → writeString run = None →
  buildEditorCommand run = None → execProcess run = None →
  readFile run = inl data →
  normalizeEditorContent data
  ≠ normalizeEditorContent (Join_LF [Response orig]) →
  let r := Update w (EditorResultMsg
                       (editEntriesCmd run q [Response orig] idx)) m in
  Answers (log r.1.1) !! q
  = Some (<[Z.to_nat idx :=
             {| Time := Time orig; Response := normalizeEditorContent data |}]>
            (answersFor m q))
  ∧ r.2 = [IOSaveDayLog (day m) (log r.1.1)].
Proof.
  intros Hidx Horig Hc Hw Hb He Hr Hne r. unfold r.
  rewrite (editEntriesCmd_changed _ _ _ _ data) by done.
  destruct (decide (0 ≤ idx)); [|lia].
  rewrite Update_EditorResult, log_flushTimer, io_flushTimer. simpl.
  set (msg := EditorResultMsg _). set (m1 := updateInput w msg m).
  assert (Hlog : log m1 = log m) by apply log_updateInput.
  assert (Hday : day m1 = day m) by apply day_updateInput.
  unfold handleEditorResult. simpl. destruct (decide (0 ≤ idx)); [|lia].
  assert (Hlen : 0 ≤ idx < len (answersFor m1 q)).
  { rewrite (answersFor_log m1 m q Hlog). apply lookup_lt_Some in Horig.
    unfold len. lia. }
  destruct (applySingleEntryEdit_spec w q idx (normalizeEditorContent data) []
              m1 Hlen) as (Ha & _ & Hio).
  rewrite Hio, Hday, Ha, lookup_insert_eq, (answersFor_log m1 m q Hlog).
  split; [|done]. f_equal. apply list_eq. intros i.
  destruct (decide (i = Z.to_nat idx)) as [->|Hi].
  - rewrite list_lookup_alter_eq, Horig, list_lookup_insert_eq; [done|].
    by apply lookup_lt_Some in Horig.
  - rewrite list_lookup_alter_ne, list_lookup_insert_ne by done. done.
Qed.

(** C1 at its failing input.  Q1 holds the single entry a.  Its row is
    selected and opened with Enter, which asks for the editor on that entry;
    the editor leaves an empty buffer.  The entry is not removed: it stays,
    with its timestamp and now with empty text, and that record is handed to
    storage. *)
Theorem C1_empty_edit_keeps_entry :
  let m1 := (Update Examples.soleWorld (KeyMsg "down") Examples.soleSession).1.1 in
  (Update Examples.soleWorld (KeyMsg "enter") m1).1.2
  = [EditEntries "Q1" ["a"] 0]
  ∧ let r := Update Examples.soleWorld
               (EditorResultMsg
                  (editEntriesCmd (Examples.edited EmptyString) "Q1" ["a"] 0))
               m1 in
    Answers (log r.1.1) !! "Q1" = Some [Examples.entry Examples.t1 EmptyString]
    ∧ r.2 = [IOSaveDayLog 19844 (log r.1.1)].
Proof. vm_compute. split_and!; reflexivity. Qed.

(** ** Questions left without entries *)

Lemma keepsNonEmpty_nil before : keepsNonEmpty before [].
Proof. intros l Hl. simpl in Hl. by apply elem_of_nil in Hl. Qed.

Lemma keepsNonEmpty_config before c : keepsNonEmpty before [IOSaveConfig c].
Proof. intros l Hl. simpl in Hl. by apply elem_of_nil in Hl. Qed.

Lemma keepsNonEmpty_save before d l :
  (∀ k, Answers l !! k = Some [] → Answers before !! k = Some []) →
  keepsNonEmpty before [IOSaveDayLog d l].
Proof. intros H l' Hl. simpl in Hl. apply list_elem_of_singleton in Hl as ->. done. Qed.

Lemma keepsNonEmpty_app before io io' :
  keepsNonEmpty before io → keepsNonEmpty before io' →
  keepsNonEmpty before (io ++ io').
Proof.
  intros H H' l Hl. unfold savedLogs in Hl. rewrite omap_app in Hl.
  apply elem_of_app in Hl as [?|?]; [by apply H|by apply H'].
Qed.

Lemma putEntries_nonempty q (es : list Answer) answers k :
  putEntries q es answers !! k = Some [] → answers !! k = Some [].
Proof.
  unfold putEntries. destruct (decide (es = [])), (decide (k = q)); subst.
  - by rewrite lookup_delete_eq.
  - by rewrite lookup_delete_ne.
  - rewrite lookup_insert_eq. congruence.
  - by rewrite lookup_insert_ne.
Qed.

Lemma performDeleteEntry_keeps w q idx m :
  keepsNonEmpty (log m) (performDeleteEntry w q idx m).2.
Proof.
  destruct (decide (0 ≤ idx < len (answersFor m q))) as [H|H].
  - destruct (performDeleteEntry_spec w q idx m H) as (Ha & _ & ->).
    apply keepsNonEmpty_save. intros k. rewrite Ha. apply putEntries_nonempty.
  - unfold performDeleteEntry. destruct (decide (idx < 0 ∨ _)) as [_|?]; [|lia].
    apply keepsNonEmpty_nil.
Qed.

Lemma applyQuestionEdit_keeps w q resps m :
  keepsNonEmpty (log m) (applyQuestionEdit w q resps m).2.
Proof.
  destruct (applyQuestionEdit_spec w q resps m) as (Ha & _ & ->).
  apply keepsNonEmpty_save. intros k. rewrite Ha. apply putEntries_nonempty.
Qed.

Lemma applySingleEntryEdit_keeps w q idx resps m :
  keepsNonEmpty (log m) (applySingleEntryEdit w q idx resps m).2.
Proof.
  unfold applySingleEntryEdit.
  destruct (decide (idx < 0 ∨ _)) as [_|Hidx]; [apply keepsNonEmpty_nil|].
  set (answers := match resps with [] => _ | _ => _ end).
  destruct (decide (len answers = 0)) as [E|E]; simpl;
    destruct (SaveDayLog _ _ _); simpl; apply keepsNonEmpty_save; simpl;
    intros k; destruct (decide (k = q)) as [->|?];
    rewrite ?lookup_delete_eq, ?lookup_delete_ne, ?lookup_insert_eq,
      ?lookup_insert_ne by done; try done;
    intros [= E']; rewrite E' in E; done.
Qed.

Lemma saveInlineEntry_keeps w m :
  keepsNonEmpty (log m) (saveInlineEntry w m).2.
Proof.
  unfold saveInlineEntry.
  destruct (decide (_ = EmptyString)); [apply keepsNonEmpty_nil|]. simpl.
  destruct (SaveDayLog _ _ _); simpl; apply keepsNonEmpty_save; simpl;
    intros k; (destruct (decide (k = detail_question (detail m))) as [->|?];
    [rewrite lookup_insert_eq; intros [= E']; by destruct (answersFor _ _)
    |by rewrite lookup_insert_ne]).
Qed.

Lemma openDayJSON_keeps w m : keepsNonEmpty (log m) (openDayJSON w m).2.
Proof.
  unfold openDayJSON. destruct (SaveDayLog _ _ _); simpl;
    [|destruct (DayFilePath _ _)]; simpl; by apply keepsNonEmpty_save.
Qed.

Lemma snd_let_pair {A B C : Type} (p : A * B) (c : C) :
  (let '(a, b) := p in (c, a, b)).2 = p.2.
Proof. by destruct p. Qed.

Lemma snd_let_triple {A B C : Type} (p : A * B * C) :
  (let '(a, b, c) := p in (a, b, c)).2 = p.2.
Proof. by destruct p as [[? ?] ?]. Qed.

Ltac keeps_step :=
  first
    [ apply keepsNonEmpty_nil
    | apply keepsNonEmpty_config
    | apply openDayJSON_keeps
    | apply saveInlineEntry_keeps
    | apply performDeleteEntry_keeps
    | apply applyQuestionEdit_keeps
    | apply applySingleEntryEdit_keeps
    | rewrite snd_let_pair
    | case_dec
    | match goal with
      | |- context [match ?x with _ => _ end] => destruct x eqn:?
      end ].

Lemma handleDeleteConfirmationKey_keeps w key m :
  keepsNonEmpty (log m) (handleDeleteConfirmationKey w key m).2.
Proof.
  unfold handleDeleteConfirmationKey.
  destruct (deleteConfirm m) as [p|]; [|apply keepsNonEmpty_nil].
  repeat case_dec; try apply keepsNonEmpty_nil.
  destruct (performDeleteEntry _ _ _ _) as [m' io] eqn:E. simpl.
  change io with (m', io).2. rewrite <-E.
  apply (performDeleteEntry_keeps w _ _ (clearDeletePrompt (set_deleteConfirm None m))).
Qed.

Lemma handleDeleteEntryRequest_keeps w m :
  keepsNonEmpty (log m) (handleDeleteEntryRequest w m).2.
Proof.
  unfold handleDeleteEntryRequest, initiateEntryDelete. repeat keeps_step.
Qed.

Lemma handleDetailKey_keeps w key m :
  keepsNonEmpty (log m) (handleDetailKey w key m).2.
Proof. unfold handleDetailKey. repeat keeps_step. Qed.

Lemma handleListKey_keeps w key m :
  keepsNonEmpty (log m) (handleListKey w key m).2.
Proof.
  unfold handleListKey.
  repeat first [apply handleDeleteEntryRequest_keeps | keeps_step].
Qed.

Lemma handleDeleteConfirmationKey_unconsumed w key m m' io :
  handleDeleteConfirmationKey w key m = (false, m', io) → m' = m ∧ io = [].
Proof.
  unfold handleDeleteConfirmationKey.
  destruct (deleteConfirm m); [|by intros [= <- <-]].
  repeat case_dec; try done. by destruct (performDeleteEntry _ _ _ _).
Qed.

Lemma toggleHints_keeps w m before : keepsNonEmpty before (toggleHints w m).2.
Proof. unfold toggleHints. repeat keeps_step. Qed.

Lemma viewHandling_keeps w key m :
  keepsNonEmpty (log m) (viewHandling w key m).2.
Proof.
  unfold viewHandling.
  destruct (view m); [apply handleListKey_keeps|apply handleDetailKey_keeps].
Qed.

Lemma handleKey_keeps w key m : keepsNonEmpty (log m) (handleKey w key m).2.
Proof.
  unfold handleKey.
  destruct (decide (view m = viewDetail ∧ _)).
  { case_dec; [apply keepsNonEmpty_nil|apply viewHandling_keeps]. }
  destruct (decide (key = "ctrl+c" ∨ _)); [apply keepsNonEmpty_nil|].
  set (pending := if decide (view m = viewList ∧ deleteConfirm m ≠ None)
                  then handleDeleteConfirmationKey w key m else (false, m, [])).
  assert (Hp : keepsNonEmpty (log m) pending.2
               ∧ (pending.1.1 = false → pending.1.2 = m ∧ pending.2 = [])).
  { unfold pending. case_dec.
    - split; [apply handleDeleteConfirmationKey_keeps|].
      destruct (handleDeleteConfirmationKey w key m) as [[c m'] io] eqn:E.
      simpl. intros ->. by apply handleDeleteConfirmationKey_unconsumed in E.
    - split; [apply keepsNonEmpty_nil|done]. }
  destruct pending as [[consumed m'] io]. simpl in Hp. destruct Hp as [Hio Hun].
  destruct consumed; [done|]. destruct (Hun eq_refl) as [-> ->].
  repeat case_dec; try apply keepsNonEmpty_nil.
  - destruct (toggleHints w m) as [m' io'] eqn:E. simpl.
    change io' with (m', io').2. rewrite <-E. apply toggleHints_keeps.
  - destruct (viewHandling w key m) as [[c m'] io'] eqn:E. simpl.
    change io' with (c, m', io').2. rewrite <-E. apply viewHandling_keeps.
Qed.

Lemma handleEditorResult_keeps w r m :
  keepsNonEmpty (log m) (handleEditorResult w r m).2.
Proof. unfold handleEditorResult. repeat keeps_step. Qed.

Lemma dispatch_keeps w msg m : keepsNonEmpty (log m) (dispatch w msg m).2.
Proof.
  destruct msg; simpl; try apply keepsNonEmpty_nil.
  - destruct (handleKey w key m) as [[c m'] io] eqn:E. simpl.
    change io with (c, m', io).2. rewrite <-E. apply handleKey_keeps.
  - destruct (handleEditorResult w r m) as [m' io] eqn:E. simpl.
    change io with (m', io).2. rewrite <-E. apply handleEditorResult_keeps.
  - case_dec; apply keepsNonEmpty_nil.
Qed.

Lemma Update_keeps w msg m : keepsNonEmpty (log m) (Update w msg m).2.
Proof.
  unfold Update. rewrite io_flushTimer, <-(log_updateInput w msg m).
  apply dispatch_keeps.
Qed.

(** C5.  Across every transition of the session, no record handed to storage
    has an empty entry sequence under a question key unless the record already
    had it before the transition: a question whose entries become empty by an
    add, edit or delete is removed before the record is saved.  Deleting the
    sole entry of a question removes the question's key; deleting one of
    several entries leaves the others, in their order, and the record handed
    to storage is the one so obtained. *)
Theorem C5_empty_question_removed (w : World) (m : model) :
  (∀ msg, keepsNonEmpty (log m) (Update w msg m).2)
  ∧ (∀ q idx, 0 ≤ idx < len (answersFor m q) →
       let remaining :=
         take (Z.to_nat idx) (answersFor m q)
         ++ drop (Z.to_nat (idx + 1)) (answersFor m q) in
       let r := performDeleteEntry w q idx m in
       r.2 = [IOSaveDayLog (day m) (log r.1)]
       ∧ (len (answersFor m q) = 1 → Answers (log r.1) !! q = None)
       ∧ (1 < len (answersFor m q) →
            Answers (log r.1) !! q = Some remaining
            ∧ remaining `sublist_of` answersFor m q
            ∧ len remaining = len (answersFor m q) - 1)
       ∧ (∀ q', q' ≠ q → Answers (log r.1) !! q' = Answers (log m) !! q')).
Proof.
  split; [intros msg; apply Update_keeps|].
  intros q idx Hidx remaining r.
  destruct (performDeleteEntry_spec w q idx m Hidx) as (Ha & _ & Hio).
  fold r in Ha, Hio. fold remaining in Ha.
  assert (Hlen : len remaining = len (answersFor m q) - 1).
  { unfold remaining, len in *. rewrite length_app, length_take, length_drop.
    lia. }
  split_and!; [done|..].
  - intros H1. rewrite Ha. unfold putEntries.
    destruct (decide (remaining = [])) as [_|E]; [apply lookup_delete_eq|].
    destruct E. apply len_0. lia.
  - intros H1. split_and!; [|..|done].
    + rewrite Ha. unfold putEntries.
      destruct (decide (remaining = [])) as [E|_]; [|apply lookup_insert_eq].
      apply len_0 in E. lia.
    + unfold remaining.
      rewrite <-(take_drop (Z.to_nat idx) (answersFor m q)) at 3.
      apply sublist_app; [done|].
      replace (Z.to_nat (idx + 1)) with (Z.to_nat idx + 1)%nat by lia.
      rewrite <-drop_drop. apply sublist_drop.
  - intros q' Hq'. rewrite Ha. unfold putEntries.
    destruct (decide _); [by apply lookup_delete_ne|by apply lookup_insert_ne].
Qed.

Lemma C5_empty_question_removed_witness :
  0 ≤ 0 < len (answersFor Examples.soleSession "Q1")
  ∧ len (answersFor Examples.soleSession "Q1") = 1
  ∧ Answers (log (performDeleteEntry Examples.soleWorld "Q1" 0
                    Examples.soleSession).1) !! "Q1" = None.
Proof.
  assert (H : 0 ≤ 0 < len (answersFor Examples.soleSession "Q1"))
    by (vm_compute; split; congruence).
  assert (H1 : len (answersFor Examples.soleSession "Q1") = 1)
    by reflexivity.
  split; [exact H|]. split; [exact H1|].
  exact (proj1 (proj2 (proj2 (C5_empty_question_removed Examples.soleWorld
                                Examples.soleSession) "Q1" 0 H)) H1).
Defined.

(** ** Confirmation of a deletion *)

Lemma deleteConfirm_setStatus text m :
  deleteConfirm (setStatus text m) = deleteConfirm m.
Proof. unfold setStatus. simpl. by destruct (decide _). Qed.

Lemma deleteConfirm_refreshQuestions m : deleteConfirm (refreshQuestions m) = None.
Proof. unfold refreshQuestions. simpl. repeat case_dec; done. Qed.

Lemma deleteConfirm_selectQuestionByName q m :
  deleteConfirm (selectQuestionByName q m) = deleteConfirm m.
Proof.
  unfold selectQuestionByName, selectQuestionByIndex.
  destruct (_ !! _); [|done]. repeat case_dec; done.
Qed.

Lemma deleteConfirm_flushTimer r :
  deleteConfirm (flushTimer r).1.1 = deleteConfirm r.1.2.
Proof. unfold flushTimer. by destruct (statusTimerCmd _). Qed.

Lemma status_flushTimer r : status (flushTimer r).1.1 = status r.1.2.
Proof. unfold flushTimer. by destruct (statusTimerCmd _). Qed.

Lemma showDeletePrompt_flushTimer r :
  showDeletePrompt (flushTimer r).1.1 = showDeletePrompt r.1.2.
Proof. unfold flushTimer. by destruct (statusTimerCmd _). Qed.

Lemma updateInput_list w msg m : view m = viewList → updateInput w msg m = m.
Proof.
  intros Hv. unfold updateInput. destruct (decide _) as [[? _]|_]; [congruence|done].
Qed.

Lemma deleteConfirm_performDeleteEntry w q idx m :
  deleteConfirm m = None → deleteConfirm (performDeleteEntry w q idx m).1 = None.
Proof.
  intros H. unfold performDeleteEntry.
  repeat first [case_dec | destruct (SaveDayLog _ _ _)]; simpl;
    rewrite ?deleteConfirm_selectQuestionByName, ?deleteConfirm_refreshQuestions,
      ?deleteConfirm_setStatus; done.
Qed.

Lemma handleDeleteConfirmationKey_consumed w key m p :
  deleteConfirm m = Some p → (handleDeleteConfirmationKey w key m).1.1 = true.
Proof.
  intros Hp. unfold handleDeleteConfirmationKey. rewrite Hp.
  destruct (decide (key = "y" ∨ _)); [by destruct (performDeleteEntry _ _ _ _)|].
  by destruct (decide _).
Qed.

(** A key that meets a pending confirmation in the list view. *)
Lemma handleKey_pending w key m p :
  view m = viewList → deleteConfirm m = Some p →
  key ≠ "ctrl+c" → key ≠ "q" →
  handleKey w key m
  = (None, (handleDeleteConfirmationKey w key m).1.2,
     (handleDeleteConfirmationKey w key m).2).
Proof.
  intros Hv Hp Hc Hq. unfold handleKey.
  destruct (decide (view m = viewDetail ∧ _)) as [[? _]|_]; [congruence|].
  destruct (decide (key = "ctrl+c" ∨ _)) as [[?|?]|_]; [done..|].
  destruct (decide (view m = viewList ∧ _)) as [_|H];
    [|destruct H; split; congruence].
  pose proof (handleDeleteConfirmationKey_consumed w key m p Hp) as Hcons.
  destruct (handleDeleteConfirmationKey w key m) as [[c m'] io].
  simpl in Hcons. by subst c.
Qed.

Lemma handleKey_d w m :
  view m = viewList → deleteConfirm m = None →
  handleKey w "d" m = (None, (handleDeleteEntryRequest w m).1, (handleDeleteEntryRequest w m).2).
Proof.
  intros Hv Hp. unfold handleKey.
  destruct (decide (view m = viewDetail ∧ _)) as [[? _]|_]; [congruence|].
  destruct (decide (_ ∨ _)) as [[?|?]|_]; [done..|].
  destruct (decide (view m = viewList ∧ _)) as [[_ ?]|_]; [done|].
  simpl. unfold viewHandling. rewrite Hv. unfold handleListKey. simpl.
  by destruct (handleDeleteEntryRequest w m).
Qed.

Lemma Update_KeyMsg w key m :
  Update w (KeyMsg key) m
  = flushTimer (option_list (handleKey w key (updateInput w (KeyMsg key) m)).1.1,
                (handleKey w key (updateInput w (KeyMsg key) m)).1.2,
                (handleKey w key (updateInput w (KeyMsg key) m)).2).
Proof. unfold Update, dispatch. by destruct (handleKey _ _ _) as [[? ?] ?]. Qed.

(** C3 (amended).  In the list view, with the confirm-destructive-actions
    flag set and list mode on, a delete request on an entry row enters the
    pending-confirmation state and neither changes the record nor writes to
    storage.  From that state y (or Y) removes exactly that one entry and
    hands the record to storage; n, N or escape cancels the pending deletion
    without mutation; any other key, q and ctrl+c (which quit) apart, leaves
    the confirmation pending, with a reminder, also without mutation. *)
Theorem C3_confirmed_delete (w : World) (m : model) (q : string) (idx : Z) :
  view m = viewList → 0 ≤ idx < len (answersFor m q) →
  (listMode m = true → confirmDelete m = true → deleteConfirm m = None →
   currentRow m = Some {| kind := rowEntry; question := q; entryIndex := idx |} →
   let r := Update w (KeyMsg "d") m in
   deleteConfirm r.1.1
   = Some {| confirm_question := q; confirm_entryIndex := idx |}
   ∧ showDeletePrompt r.1.1 = true
   ∧ log r.1.1 = log m
   ∧ r.2 = [])
  ∧ (deleteConfirm m
     = Some {| confirm_question := q; confirm_entryIndex := idx |} →
     let remaining :=
       take (Z.to_nat idx) (answersFor m q)
       ++ drop (Z.to_nat (idx + 1)) (answersFor m q) in
     (∀ key, key = "y" ∨ key = "Y" →
        let r := Update w (KeyMsg key) m in
        Answers (log r.1.1) = putEntries q remaining (Answers (log m))
        ∧ len remaining = len (answersFor m q) - 1
        ∧ r.2 = [IOSaveDayLog (day m) (log r.1.1)]
        ∧ deleteConfirm r.1.1 = None)
     ∧ (∀ key, key = "n" ∨ key = "N" ∨ key = "esc" →
          let r := Update w (KeyMsg key) m in
          deleteConfirm r.1.1 = None ∧ log r.1.1 = log m ∧ r.2 = [])
     ∧ (∀ key, key ∉ ["y"; "Y"; "n"; "N"; "esc"; "q"; "ctrl+c"] →
          let r := Update w (KeyMsg key) m in
          deleteConfirm r.1.1 = deleteConfirm m
          ∧ status r.1.1 = "Confirm delete with y or n."
          ∧ log r.1.1 = log m ∧ r.2 = [])).
Proof.
  intros Hv Hidx. split.
  - intros Hlm Hcd Hdc Hrow r. unfold r.
    rewrite Update_KeyMsg, (updateInput_list _ _ _ Hv), handleKey_d by done.
    rewrite deleteConfirm_flushTimer, showDeletePrompt_flushTimer,
      log_flushTimer, io_flushTimer. simpl.
    unfold handleDeleteEntryRequest. rewrite Hlm, Hrow. simpl.
    unfold initiateEntryDelete.
    destruct (decide (idx < 0 ∨ _)) as [[?|?]|_]; [lia..|].
    by rewrite Hcd.
  - intros Hp remaining. split_and!.
    + intros key Hkey r. unfold r.
      rewrite Update_KeyMsg, (updateInput_list _ _ _ Hv).
      rewrite (handleKey_pending _ _ _ _ Hv Hp)
        by (destruct Hkey; subst; done).
      rewrite deleteConfirm_flushTimer, log_flushTimer, io_flushTimer. simpl.
      unfold handleDeleteConfirmationKey. rewrite Hp.
      destruct (decide (key = "y" ∨ _)); [|done]. simpl.
      set (m1 := clearDeletePrompt (set_deleteConfirm None m)).
      assert (Hidx1 : 0 ≤ idx < len (answersFor m1 q)) by done.
      destruct (performDeleteEntry_spec w q idx m1 Hidx1) as (Ha & _ & Hio).
      pose proof (deleteConfirm_performDeleteEntry w q idx m1 eq_refl) as Hd.
      destruct (performDeleteEntry w q idx m1) as [m' io]. simpl in *.
      split_and!; [done| |done|done].
      unfold remaining, len in *. rewrite length_app, length_take, length_drop.
      lia.
    + intros key Hkey r. unfold r.
      rewrite Update_KeyMsg, (updateInput_list _ _ _ Hv).
      rewrite (handleKey_pending _ _ _ _ Hv Hp)
        by (destruct Hkey as [?|[?|?]]; subst; done).
      rewrite deleteConfirm_flushTimer, log_flushTimer, io_flushTimer. simpl.
      unfold handleDeleteConfirmationKey. rewrite Hp.
      destruct (decide (key = "y" ∨ _)) as [[?|?]|_];
        [destruct Hkey as [?|[?|?]]; congruence..|].
      destruct (decide (key = "n" ∨ _)); [|done]. simpl.
      by rewrite deleteConfirm_setStatus, log_setStatus.
    + intros key Hkey r. unfold r.
      assert (Hk : key ≠ "y" ∧ key ≠ "Y" ∧ key ≠ "n" ∧ key ≠ "N"
                   ∧ key ≠ "esc" ∧ key ≠ "q" ∧ key ≠ "ctrl+c").
      { rewrite !not_elem_of_cons in Hkey. tauto. }
      destruct Hk as (?&?&?&?&?&?&?).
      rewrite Update_KeyMsg, (updateInput_list _ _ _ Hv).
      rewrite (handleKey_pending _ _ _ _ Hv Hp) by done.
      rewrite deleteConfirm_flushTimer, status_flushTimer, log_flushTimer,
        io_flushTimer. simpl.
      unfold handleDeleteConfirmationKey. rewrite Hp.
      destruct (decide (key = "y" ∨ _)) as [[?|?]|_]; [done..|].
      destruct (decide (key = "n" ∨ _)) as [[?|[?|?]]|_]; [done..|]. simpl.
      rewrite deleteConfirm_setStatus, log_setStatus. split_and!; try done.
      unfold setStatus. simpl. by destruct (decide _).
Qed.

Lemma C3_confirmed_delete_witness :
  view Examples.soleSelected = viewList
  ∧ 0 ≤ 0 < len (answersFor Examples.soleSelected "Q1")
  ∧ currentRow Examples.soleSelected
    = Some {| kind := rowEntry; question := "Q1"; entryIndex := 0 |}
  ∧ deleteConfirm (Update Examples.soleWorld (KeyMsg "d")
                     Examples.soleSelected).1.1
    = Some {| confirm_question := "Q1"; confirm_entryIndex := 0 |}
  ∧ log (Update Examples.soleWorld (KeyMsg "d") Examples.soleSelected).1.1
    = log Examples.soleSelected.
Proof.
  assert (Hv : view Examples.soleSelected = viewList) by reflexivity.
  assert (Hi : 0 ≤ 0 < len (answersFor Examples.soleSelected "Q1"))
    by (vm_compute; split; congruence).
  assert (Hr : currentRow Examples.soleSelected
               = Some {| kind := rowEntry; question := "Q1"; entryIndex := 0 |})
    by (vm_compute; reflexivity).
  split; [exact Hv|]. split; [exact Hi|]. split; [exact Hr|].
  destruct (proj1 (C3_confirmed_delete Examples.soleWorld Examples.soleSelected
                     "Q1" 0 Hv Hi) eq_refl eq_refl eq_refl Hr)
    as (H1 & _ & H3 & _).
  split; [exact H1|exact H3].
Defined.

(** C3 as stated fails: a key other than y, n and escape does not cancel a
    pending deletion.  After x the confirmation is still pending, and a
    following y deletes the entry. *)
Lemma C3_counterexample :
  deleteConfirm Examples.solePending
  = Some {| confirm_question := "Q1"; confirm_entryIndex := 0 |}
  ∧ deleteConfirm (Update Examples.soleWorld (KeyMsg "x")
                     Examples.solePending).1.1
    = Some {| confirm_question := "Q1"; confirm_entryIndex := 0 |}
  ∧ Answers (log (run [(Examples.soleWorld, KeyMsg "x");
                       (Examples.soleWorld, KeyMsg "y")]
                    Examples.solePending)) !! "Q1" = None.
Proof. vm_compute. split_and!; reflexivity. Qed.

(** ** The keys j and k *)

Lemma rowOffset_bounds m (qs : list string) :
  ∀ i idx offset, i ≤ idx < i + len qs → 0 ≤ offset →
                  offset ≤ rowOffset m qs i idx offset.
Proof.
  induction qs as [|q qs IH]; intros i idx offset Hi Ho; simpl.
  - unfold len in Hi. simpl in Hi. lia.
  - destruct (decide (i = idx)); [lia|].
    etrans; [|apply IH].
    + unfold len. lia.
    + unfold len in *. simpl in Hi. lia.
    + unfold len. lia.
Qed.

Lemma rowIndexForQuestion_nonneg m idx :
  0 ≤ idx < len (questions m) → 0 ≤ rowIndexForQuestion m idx.
Proof.
  intros H. unfold rowIndexForQuestion.
  destruct (decide (idx < 0 ∨ _)) as [[?|?]|_]; [lia..|].
  destruct (listMode m); simpl; [|lia].
  apply (rowOffset_bounds m (questions m) 0 idx 0); lia.
Qed.

Lemma jumpToIndex_spec r idx m :
  runeToIndex r = Some idx → 0 ≤ idx →
  jumpToIndex r m
  = if decide (idx < len (questions m))
    then (true, set_selected (rowIndexForQuestion m idx) m)
    else (false, m).
Proof.
  intros Hr Hidx. unfold jumpToIndex. rewrite Hr.
  destruct (decide (idx < 0 ∨ _)) as [[?|?]|?]; [lia|..].
  - destruct (decide (idx < len _)); [lia|done].
  - destruct (decide (idx < len _)); [|lia].
    pose proof (rowIndexForQuestion_nonneg m idx).
    destruct (decide (rowIndexForQuestion m idx < 0)); [lia|done].
Qed.

(** A key of the list view that is neither a quit key nor met by a pending
    confirmation. *)
Lemma handleKey_list w key m :
  view m = viewList → deleteConfirm m = None →
  key ∉ ["ctrl+c"; "q"; "h"; "?"; "esc"; "left"; "right"; " "] →
  handleKey w key m = handleListKey w key m.
Proof.
  intros Hv Hp Hkey. rewrite !not_elem_of_cons in Hkey.
  destruct Hkey as (?&?&?&?&?&?&?&?&_). unfold handleKey.
  destruct (decide (view m = viewDetail ∧ _)) as [[? _]|_]; [congruence|].
  destruct (decide (key = "ctrl+c" ∨ _)) as [[?|?]|_]; [done..|].
  destruct (decide (view m = viewList ∧ _)) as [[_ ?]|_]; [done|].
  simpl.
  destruct (decide (key = "h" ∨ _)) as [[?|?]|_]; [done..|].
  destruct (decide (key = "esc" ∧ _)) as [[? _]|_]; [done|].
  destruct (decide (key = "left")); [done|].
  destruct (decide (key = "right")); [done|].
  destruct (decide (key = " ")); [done|].
  unfold viewHandling. rewrite Hv. by destruct (handleListKey w key m) as [[? ?] ?].
Qed.

Lemma disableJKNav_refreshQuestions m :
  disableJKNav (refreshQuestions m)
  = bool_decide (jkDisableThreshold ≤ len (questions (refreshQuestions m))).
Proof. unfold refreshQuestions. simpl. repeat case_dec; done. Qed.




(** ** Status messages and their timers *)

#[local] Arguments wrap64 : simpl never.

(** *** The status fields under field updates and procedures *)

Lemma statusSeq_set_config v m : statusSeq (set_config v m) = statusSeq m.
Proof. done. Qed.

Lemma statusSeq_set_day v m : statusSeq (set_day v m) = statusSeq m.
Proof. done. Qed.

Lemma statusSeq_set_log v m : statusSeq (set_log v m) = statusSeq m.
Proof. done. Qed.

Lemma statusSeq_set_questions v m : statusSeq (set_questions v m) = statusSeq m.
Proof. done. Qed.

Lemma statusSeq_set_questionIndex v m : statusSeq (set_questionIndex v m) = statusSeq m.
Proof. done. Qed.

Lemma statusSeq_set_rows v m : statusSeq (set_rows v m) = statusSeq m.
Proof. done. Qed.

Lemma statusSeq_set_selected v m : statusSeq (set_selected v m) = statusSeq m.
Proof. done. Qed.

Lemma statusSeq_set_listMode v m : statusSeq (set_listMode v m) = statusSeq m.
Proof. done. Qed.

Lemma statusSeq_set_disableJKNav v m : statusSeq (set_disableJKNav v m) = statusSeq m.
Proof. done. Qed.

Lemma statusSeq_set_showHints v m : statusSeq (set_showHints v m) = statusSeq m.
Proof. done. Qed.

Lemma statusSeq_set_view v m : statusSeq (set_view v m) = statusSeq m.
Proof. done. Qed.

Lemma statusSeq_set_detail v m : statusSeq (set_detail v m) = statusSeq m.
Proof. done. Qed.

Lemma statusSeq_set_deleteConfirm v m : statusSeq (set_deleteConfirm v m) = statusSeq m.
Proof. done. Qed.

Lemma statusSeq_set_confirmPrompt v m : statusSeq (set_confirmPrompt v m) = statusSeq m.
Proof. done. Qed.

Lemma statusSeq_set_showDeletePrompt v m : statusSeq (set_showDeletePrompt v m) = statusSeq m.
Proof. done. Qed.

Lemma statusSeq_set_status v m : statusSeq (set_status v m) = statusSeq m.
Proof. done. Qed.

Lemma statusSeq_set_statusSeq v m : statusSeq (set_statusSeq v m) = v.
Proof. done. Qed.

Lemma statusSeq_set_statusTimerCmd v m : statusSeq (set_statusTimerCmd v m) = statusSeq m.
Proof. done. Qed.

Lemma statusSeq_set_err v m : statusSeq (set_err v m) = statusSeq m.
Proof. done. Qed.

Lemma statusSeq_set_width v m : statusSeq (set_width v m) = statusSeq m.
Proof. done. Qed.

Lemma statusSeq_set_height v m : statusSeq (set_height v m) = statusSeq m.
Proof. done. Qed.

Lemma statusTimerCmd_set_config v m : statusTimerCmd (set_config v m) = statusTimerCmd m.
Proof. done. Qed.

Lemma statusTimerCmd_set_day v m : statusTimerCmd (set_day v m) = statusTimerCmd m.
Proof. done. Qed.

Lemma statusTimerCmd_set_log v m : statusTimerCmd (set_log v m) = statusTimerCmd m.
Proof. done. Qed.

Lemma statusTimerCmd_set_questions v m : statusTimerCmd (set_questions v m) = statusTimerCmd m.
Proof. done. Qed.

Lemma statusTimerCmd_set_questionIndex v m : statusTimerCmd (set_questionIndex v m) = statusTimerCmd m.
Proof. done. Qed.

Lemma statusTimerCmd_set_rows v m : statusTimerCmd (set_rows v m) = statusTimerCmd m.
Proof. done. Qed.

Lemma statusTimerCmd_set_selected v m : statusTimerCmd (set_selected v m) = statusTimerCmd m.
Proof. done. Qed.

Lemma statusTimerCmd_set_listMode v m : statusTimerCmd (set_listMode v m) = statusTimerCmd m.
Proof. done. Qed.

Lemma statusTimerCmd_set_disableJKNav v m : statusTimerCmd (set_disableJKNav v m) = statusTimerCmd m.
Proof. done. Qed.

Lemma statusTimerCmd_set_showHints v m : statusTimerCmd (set_showHints v m) = statusTimerCmd m.
Proof. done. Qed.

Lemma statusTimerCmd_set_view v m : statusTimerCmd (set_view v m) = statusTimerCmd m.
Proof. done. Qed.

Lemma statusTimerCmd_set_detail v m : statusTimerCmd (set_detail v m) = statusTimerCmd m.
Proof. done. Qed.

Lemma statusTimerCmd_set_deleteConfirm v m : statusTimerCmd (set_deleteConfirm v m) = statusTimerCmd m.
Proof. done. Qed.

Lemma statusTimerCmd_set_confirmPrompt v m : statusTimerCmd (set_confirmPrompt v m) = statusTimerCmd m.
Proof. done. Qed.

Lemma statusTimerCmd_set_showDeletePrompt v m : statusTimerCmd (set_showDeletePrompt v m) = statusTimerCmd m.
Proof. done. Qed.

Lemma statusTimerCmd_set_status v m : statusTimerCmd (set_status v m) = statusTimerCmd m.
Proof. done. Qed.

Lemma statusTimerCmd_set_statusSeq v m : statusTimerCmd (set_statusSeq v m) = statusTimerCmd m.
Proof. done. Qed.

Lemma statusTimerCmd_set_statusTimerCmd v m : statusTimerCmd (set_statusTimerCmd v m) = v.
Proof. done. Qed.

Lemma statusTimerCmd_set_err v m : statusTimerCmd (set_err v m) = statusTimerCmd m.
Proof. done. Qed.

Lemma statusTimerCmd_set_width v m : statusTimerCmd (set_width v m) = statusTimerCmd m.
Proof. done. Qed.

Lemma statusTimerCmd_set_height v m : statusTimerCmd (set_height v m) = statusTimerCmd m.
Proof. done. Qed.

Lemma statusTimeout_set_config v m : statusTimeout (set_config v m) = statusTimeout m.
Proof. done. Qed.

Lemma statusTimeout_set_day v m : statusTimeout (set_day v m) = statusTimeout m.
Proof. done. Qed.

Lemma statusTimeout_set_log v m : statusTimeout (set_log v m) = statusTimeout m.
Proof. done. Qed.

Lemma statusTimeout_set_questions v m : statusTimeout (set_questions v m) = statusTimeout m.
Proof. done. Qed.

Lemma statusTimeout_set_questionIndex v m : statusTimeout (set_questionIndex v m) = statusTimeout m.
Proof. done. Qed.

Lemma statusTimeout_set_rows v m : statusTimeout (set_rows v m) = statusTimeout m.
Proof. done. Qed.

Lemma statusTimeout_set_selected v m : statusTimeout (set_selected v m) = statusTimeout m.
Proof. done. Qed.

Lemma statusTimeout_set_listMode v m : statusTimeout (set_listMode v m) = statusTimeout m.
Proof. done. Qed.

Lemma statusTimeout_set_disableJKNav v m : statusTimeout (set_disableJKNav v m) = statusTimeout m.
Proof. done. Qed.

Lemma statusTimeout_set_showHints v m : statusTimeout (set_showHints v m) = statusTimeout m.
Proof. done. Qed.

Lemma statusTimeout_set_view v m : statusTimeout (set_view v m) = statusTimeout m.
Proof. done. Qed.

Lemma statusTimeout_set_detail v m : statusTimeout (set_detail v m) = statusTimeout m.
Proof. done. Qed.

Lemma statusTimeout_set_deleteConfirm v m : statusTimeout (set_deleteConfirm v m) = statusTimeout m.
Proof. done. Qed.

Lemma statusTimeout_set_confirmPrompt v m : statusTimeout (set_confirmPrompt v m) = statusTimeout m.
Proof. done. Qed.

Lemma statusTimeout_set_showDeletePrompt v m : statusTimeout (set_showDeletePrompt v m) = statusTimeout m.
Proof. done. Qed.

Lemma statusTimeout_set_status v m : statusTimeout (set_status v m) = statusTimeout m.
Proof. done. Qed.

Lemma statusTimeout_set_statusSeq v m : statusTimeout (set_statusSeq v m) = statusTimeout m.
Proof. done. Qed.

Lemma statusTimeout_set_statusTimerCmd v m : statusTimeout (set_statusTimerCmd v m) = statusTimeout m.
Proof. done. Qed.

Lemma statusTimeout_set_err v m : statusTimeout (set_err v m) = statusTimeout m.
Proof. done. Qed.

Lemma statusTimeout_set_width v m : statusTimeout (set_width v m) = statusTimeout m.
Proof. done. Qed.

Lemma statusTimeout_set_height v m : statusTimeout (set_height v m) = statusTimeout m.
Proof. done. Qed.

Lemma statusSeq_refreshQuestions m :
  statusSeq (refreshQuestions m) = statusSeq m.
Proof.
  unfold refreshQuestions. cbv zeta. repeat case_dec; done.
Qed.

Lemma statusTimerCmd_refreshQuestions m :
  statusTimerCmd (refreshQuestions m) = statusTimerCmd m.
Proof.
  unfold refreshQuestions. cbv zeta. repeat case_dec; done.
Qed.

Lemma statusTimeout_refreshQuestions m :
  statusTimeout (refreshQuestions m) = statusTimeout m.
Proof.
  unfold refreshQuestions. cbv zeta. repeat case_dec; done.
Qed.

Lemma statusSeq_selectQuestionByIndex idx m :
  statusSeq (selectQuestionByIndex idx m) = statusSeq m.
Proof.
  unfold selectQuestionByIndex. repeat case_dec; done.
Qed.

Lemma statusTimerCmd_selectQuestionByIndex idx m :
  statusTimerCmd (selectQuestionByIndex idx m) = statusTimerCmd m.
Proof.
  unfold selectQuestionByIndex. repeat case_dec; done.
Qed.

Lemma statusTimeout_selectQuestionByIndex idx m :
  statusTimeout (selectQuestionByIndex idx m) = statusTimeout m.
Proof.
  unfold selectQuestionByIndex. repeat case_dec; done.
Qed.

Lemma statusSeq_selectQuestionByName q m :
  statusSeq (selectQuestionByName q m) = statusSeq m.
Proof.
  unfold selectQuestionByName. destruct (_ !! _); [|done]. apply statusSeq_selectQuestionByIndex.
Qed.

Lemma statusTimerCmd_selectQuestionByName q m :
  statusTimerCmd (selectQuestionByName q m) = statusTimerCmd m.
Proof.
  unfold selectQuestionByName. destruct (_ !! _); [|done]. apply statusTimerCmd_selectQuestionByIndex.
Qed.

Lemma statusTimeout_selectQuestionByName q m :
  statusTimeout (selectQuestionByName q m) = statusTimeout m.
Proof.
  unfold selectQuestionByName. destruct (_ !! _); [|done]. apply statusTimeout_selectQuestionByIndex.
Qed.

Lemma statusSeq_moveSelection d m :
  statusSeq (moveSelection d m) = statusSeq m.
Proof.
  unfold moveSelection. repeat case_dec; done.
Qed.

Lemma statusTimerCmd_moveSelection d m :
  statusTimerCmd (moveSelection d m) = statusTimerCmd m.
Proof.
  unfold moveSelection. repeat case_dec; done.
Qed.

Lemma statusTimeout_moveSelection d m :
  statusTimeout (moveSelection d m) = statusTimeout m.
Proof.
  unfold moveSelection. repeat case_dec; done.
Qed.

Lemma statusSeq_jumpToIndex r m :
  statusSeq ((jumpToIndex r m).2) = statusSeq m.
Proof.
  unfold jumpToIndex. destruct (runeToIndex r); [|done]. repeat case_dec; done.
Qed.

Lemma statusTimerCmd_jumpToIndex r m :
  statusTimerCmd ((jumpToIndex r m).2) = statusTimerCmd m.
Proof.
  unfold jumpToIndex. destruct (runeToIndex r); [|done]. repeat case_dec; done.
Qed.

Lemma statusTimeout_jumpToIndex r m :
  statusTimeout ((jumpToIndex r m).2) = statusTimeout m.
Proof.
  unfold jumpToIndex. destruct (runeToIndex r); [|done]. repeat case_dec; done.
Qed.

Lemma statusSeq_reselectQuestion q m :
  statusSeq (reselectQuestion q m) = statusSeq m.
Proof.
  unfold reselectQuestion. case_dec; [done|]. destruct (_ !! _); [|done].
  cbv zeta. by case_dec.
Qed.

Lemma statusSeq_toggleListMode m :
  statusSeq (toggleListMode m) = statusSeq m.
Proof.
  unfold toggleListMode. cbv zeta.
  by rewrite statusSeq_reselectQuestion, statusSeq_refreshQuestions.
Qed.

Lemma statusTimerCmd_reselectQuestion q m :
  statusTimerCmd (reselectQuestion q m) = statusTimerCmd m.
Proof.
  unfold reselectQuestion. case_dec; [done|]. destruct (_ !! _); [|done].
  cbv zeta. by case_dec.
Qed.

Lemma statusTimerCmd_toggleListMode m :
  statusTimerCmd (toggleListMode m) = statusTimerCmd m.
Proof.
  unfold toggleListMode. cbv zeta.
  by rewrite statusTimerCmd_reselectQuestion, statusTimerCmd_refreshQuestions.
Qed.

Lemma statusTimeout_reselectQuestion q m :
  statusTimeout (reselectQuestion q m) = statusTimeout m.
Proof.
  unfold reselectQuestion. case_dec; [done|]. destruct (_ !! _); [|done].
  cbv zeta. by case_dec.
Qed.

Lemma statusTimeout_toggleListMode m :
  statusTimeout (toggleListMode m) = statusTimeout m.
Proof.
  unfold toggleListMode. cbv zeta.
  by rewrite statusTimeout_reselectQuestion, statusTimeout_refreshQuestions.
Qed.

Lemma statusSeq_updateInput w msg m :
  statusSeq (updateInput w msg m) = statusSeq m.
Proof.
  unfold updateInput. by case_dec.
Qed.

Lemma statusTimerCmd_updateInput w msg m :
  statusTimerCmd (updateInput w msg m) = statusTimerCmd m.
Proof.
  unfold updateInput. by case_dec.
Qed.

Lemma statusTimeout_updateInput w msg m :
  statusTimeout (updateInput w msg m) = statusTimeout m.
Proof.
  unfold updateInput. by case_dec.
Qed.

Lemma statusTimeout_setStatus text m :
  statusTimeout (setStatus text m) = statusTimeout m.
Proof. unfold setStatus. cbv zeta. by case_dec. Qed.

Lemma statusSeq_setStatus text m :
  statusSeq (setStatus text m) = wrap64 (statusSeq m + 1).
Proof. unfold setStatus. cbv zeta. by case_dec. Qed.

Lemma statusTimerCmd_setStatus text m :
  statusTimerCmd (setStatus text m)
  = if decide (text = EmptyString ∨ statusTimeout m ≤ 0) then None
    else Some (Tick (statusTimeout m) (wrap64 (statusSeq m + 1))).
Proof. unfold setStatus. cbv zeta. cbn. by case_dec. Qed.

Lemma statusSeq_refreshCurrentDayFromDisk w m :
  statusSeq (refreshCurrentDayFromDisk w m) = statusSeq m.
Proof.
  unfold refreshCurrentDayFromDisk. destruct (LoadDayLog _ _); [|done].
  by rewrite statusSeq_refreshQuestions.
Qed.

Lemma statusTimerCmd_refreshCurrentDayFromDisk w m :
  statusTimerCmd (refreshCurrentDayFromDisk w m) = statusTimerCmd m.
Proof.
  unfold refreshCurrentDayFromDisk. destruct (LoadDayLog _ _); [|done].
  by rewrite statusTimerCmd_refreshQuestions.
Qed.

Lemma statusTimeout_refreshCurrentDayFromDisk w m :
  statusTimeout (refreshCurrentDayFromDisk w m) = statusTimeout m.
Proof.
  unfold refreshCurrentDayFromDisk. destruct (LoadDayLog _ _); [|done].
  by rewrite statusTimeout_refreshQuestions.
Qed.

Create Rewrite HintDb status_fields.

#[local] Hint Rewrite
  statusSeq_set_config
  statusSeq_set_day
  statusSeq_set_log
  statusSeq_set_questions
  statusSeq_set_questionIndex
  statusSeq_set_rows
  statusSeq_set_selected
  statusSeq_set_listMode
  statusSeq_set_disableJKNav
  statusSeq_set_showHints
  statusSeq_set_view
  statusSeq_set_detail
  statusSeq_set_deleteConfirm
  statusSeq_set_confirmPrompt
  statusSeq_set_showDeletePrompt
  statusSeq_set_status
  statusSeq_set_statusSeq
  statusSeq_set_statusTimerCmd
  statusSeq_set_err
  statusSeq_set_width
  statusSeq_set_height
  statusTimerCmd_set_config
  statusTimerCmd_set_day
  statusTimerCmd_set_log
  statusTimerCmd_set_questions
  statusTimerCmd_set_questionIndex
  statusTimerCmd_set_rows
  statusTimerCmd_set_selected
  statusTimerCmd_set_listMode
  statusTimerCmd_set_disableJKNav
  statusTimerCmd_set_showHints
  statusTimerCmd_set_view
  statusTimerCmd_set_detail
  statusTimerCmd_set_deleteConfirm
  statusTimerCmd_set_confirmPrompt
  statusTimerCmd_set_showDeletePrompt
  statusTimerCmd_set_status
  statusTimerCmd_set_statusSeq
  statusTimerCmd_set_statusTimerCmd
  statusTimerCmd_set_err
  statusTimerCmd_set_width
  statusTimerCmd_set_height
  statusTimeout_set_config
  statusTimeout_set_day
  statusTimeout_set_log
  statusTimeout_set_questions
  statusTimeout_set_questionIndex
  statusTimeout_set_rows
  statusTimeout_set_selected
  statusTimeout_set_listMode
  statusTimeout_set_disableJKNav
  statusTimeout_set_showHints
  statusTimeout_set_view
  statusTimeout_set_detail
  statusTimeout_set_deleteConfirm
  statusTimeout_set_confirmPrompt
  statusTimeout_set_showDeletePrompt
  statusTimeout_set_status
  statusTimeout_set_statusSeq
  statusTimeout_set_statusTimerCmd
  statusTimeout_set_err
  statusTimeout_set_width
  statusTimeout_set_height
  statusSeq_refreshQuestions
  statusTimerCmd_refreshQuestions
  statusTimeout_refreshQuestions
  statusSeq_selectQuestionByIndex
  statusTimerCmd_selectQuestionByIndex
  statusTimeout_selectQuestionByIndex
  statusSeq_selectQuestionByName
  statusTimerCmd_selectQuestionByName
  statusTimeout_selectQuestionByName
  statusSeq_moveSelection
  statusTimerCmd_moveSelection
  statusTimeout_moveSelection
  statusSeq_jumpToIndex
  statusTimerCmd_jumpToIndex
  statusTimeout_jumpToIndex
  statusSeq_toggleListMode
  statusTimerCmd_toggleListMode
  statusTimeout_toggleListMode
  statusSeq_updateInput
  statusTimerCmd_updateInput
  statusTimeout_updateInput
  statusTimeout_setStatus
  statusSeq_setStatus
  statusTimerCmd_setStatus
  statusSeq_refreshCurrentDayFromDisk
  statusTimerCmd_refreshCurrentDayFromDisk
  statusTimeout_refreshCurrentDayFromDisk
  : status_fields.

Lemma let_pair_1 {A B C : Type} (p : A * B) (c : C) :
  (let '(a, b) := p in (c, a, b)).1.2 = p.1.
Proof. by destruct p. Qed.

Lemma let_pair_c {A B C : Type} (p : A * B) (c : C) :
  (let '(a, b) := p in (c, a, b)).1.1 = c.
Proof. by destruct p. Qed.

Lemma statusStep_same_l m m1 m' :
  statusSeq m1 = statusSeq m → statusTimerCmd m1 = statusTimerCmd m →
  statusTimeout m1 = statusTimeout m →
  statusStep m1 m' → statusStep m m'.
Proof. unfold statusStep. by intros -> -> ->. Qed.

(** Close a goal [statusStep m m'] where [m'] is [m] after field updates,
    procedures that leave the status fields alone, and at most one
    [setStatus]. *)
Ltac status_step :=
  unfold statusStep, armed, clearDeletePrompt, set_answers, set_detail_input,
    leaveDetail;
  cbn [fst snd]; autorewrite with status_fields;
  first
    [ by (split; [|left])
    | split; [done|right]; split; [done|];
      intros ?; case_dec; [done|by intros [= <-]] ].

Lemma statusStep_performDeleteEntry w q idx m :
  statusStep m (performDeleteEntry w q idx m).1.
Proof.
  unfold performDeleteEntry. cbv zeta.
  repeat first [case_dec | destruct (SaveDayLog _ _ _)]; status_step.
Qed.

Lemma statusStep_initiateEntryDelete w q idx m :
  statusStep m (initiateEntryDelete w q idx m).1.
Proof.
  unfold initiateEntryDelete. cbv zeta. case_dec; [status_step|].
  destruct (confirmDelete m); [status_step|apply statusStep_performDeleteEntry].
Qed.

Lemma statusStep_handleDeleteEntryRequest w m :
  statusStep m (handleDeleteEntryRequest w m).1.
Proof.
  unfold handleDeleteEntryRequest.
  destruct (negb (listMode m)); [status_step|].
  destruct (currentRow m); [|status_step].
  case_dec; [apply statusStep_initiateEntryDelete|status_step].
Qed.

Lemma statusStep_handleDeleteConfirmationKey w key m :
  statusStep m (handleDeleteConfirmationKey w key m).1.2.
Proof.
  unfold handleDeleteConfirmationKey. cbv zeta.
  destruct (deleteConfirm m) as [p|]; [|status_step].
  case_dec; [|case_dec; status_step].
  pose proof (statusStep_performDeleteEntry w (confirm_question p)
                (confirm_entryIndex p)
                (clearDeletePrompt (set_deleteConfirm None m))) as H.
  destruct (performDeleteEntry _ _ _ _) as [m' io]. cbn [fst snd] in *.
  by apply (statusStep_same_l m _ m') in H.
Qed.

Lemma statusStep_openDayJSON w m : statusStep m (openDayJSON w m).1.2.
Proof.
  unfold openDayJSON. cbv zeta.
  destruct (SaveDayLog _ _ _); [status_step|].
  destruct (DayFilePath _ _); status_step.
Qed.

Lemma statusStep_startEditing m : statusStep m (startEditing m).
Proof. unfold startEditing. cbv zeta. status_step. Qed.

Lemma statusStep_openDetail q start m : statusStep m (openDetail q start m).
Proof.
  unfold openDetail. cbv zeta. destruct start; [|status_step].
  eapply statusStep_same_l; [..|apply statusStep_startEditing]; done.
Qed.

Lemma statusStep_saveInlineEntry w m : statusStep m (saveInlineEntry w m).1.
Proof.
  unfold saveInlineEntry. cbv zeta. case_dec; [status_step|].
  destruct (SaveDayLog _ _ _); status_step.
Qed.

Lemma statusStep_applyQuestionEdit w q resps m :
  statusStep m (applyQuestionEdit w q resps m).1.
Proof.
  unfold applyQuestionEdit. cbv zeta.
  case_dec; destruct (SaveDayLog _ _ _); status_step.
Qed.

Lemma statusStep_applySingleEntryEdit w q idx resps m :
  statusStep m (applySingleEntryEdit w q idx resps m).1.
Proof.
  unfold applySingleEntryEdit. cbv zeta. case_dec; [status_step|].
  case_dec; destruct (SaveDayLog _ _ _); status_step.
Qed.

Lemma statusStep_handleEditorResult w r m :
  statusStep m (handleEditorResult w r m).1.
Proof.
  unfold handleEditorResult. destruct (msg_err r); [status_step|].
  destruct (negb (changed r)); [status_step|].
  case_dec; [apply statusStep_applySingleEntryEdit
            |apply statusStep_applyQuestionEdit].
Qed.

Lemma statusStep_handleExternalOpenResult w k e m :
  statusStep m (handleExternalOpenResult w k e m).
Proof.
  unfold handleExternalOpenResult. cbv zeta.
  destruct e; [status_step|]. destruct k; status_step.
Qed.

Lemma statusStep_toggleHints w m : statusStep m (toggleHints w m).1.
Proof.
  unfold toggleHints. cbv zeta. destruct (SaveConfig _ _); [status_step|].
  cbn [showHints set_err set_config set_showHints].
  destruct (negb (showHints m)); status_step.
Qed.

Lemma statusStep_reloadDay w m m0 :
  statusSeq m = statusSeq m0 → statusTimerCmd m = statusTimerCmd m0 →
  statusTimeout m = statusTimeout m0 →
  statusStep m0 (reloadDay w m).
Proof.
  intros H1 H2 H3. apply (statusStep_same_l m0 m); [done..|].
  unfold reloadDay. cbv zeta. destruct (LoadDayLog _ _); status_step.
Qed.

Lemma statusStep_changeDay w d m : statusStep m (changeDay w d m).
Proof. unfold changeDay. by apply statusStep_reloadDay. Qed.

Lemma statusStep_goToToday w m : statusStep m (goToToday w m).
Proof.
  unfold goToToday. case_dec; [status_step|]. by apply statusStep_reloadDay.
Qed.

Lemma openEntryEditor_not_Tick q idx m d s :
  openEntryEditor q idx m ≠ Some (Tick d s).
Proof.
  unfold openEntryEditor. cbv zeta. case_dec; [done|].
  by destruct (_ !! _).
Qed.

Lemma handled_activateSelection m :
  handled m (activateSelection m, []).
Proof.
  unfold handled, activateSelection. destruct (currentRow m) as [row|].
  - case_dec; cbn [fst snd].
    + split; [status_step|]. intros d s. apply openEntryEditor_not_Tick.
    + split; [apply statusStep_openDetail|done].
  - split; [status_step|done].
Qed.

Lemma handled_handleDetailKey w key m : handled m (handleDetailKey w key m).
Proof.
  unfold handled, handleDetailKey. cbv zeta.
  repeat case_dec; destruct (editing (detail m));
    try (split; [status_step|done]).
  - rewrite let_pair_1, let_pair_c.
    split; [apply statusStep_saveInlineEntry|done].
  - split; [apply statusStep_startEditing|done].
  - split; [apply statusStep_startEditing|done].
Qed.

Lemma handled_handleListKey w key m : handled m (handleListKey w key m).
Proof.
  unfold handleListKey.
  repeat (destruct (decide (key = _)) as [_|_]).
  - split; [status_step|done].
  - split; [status_step|done].
  - destruct (disableJKNav m); (split; [status_step|done]).
  - destruct (disableJKNav m); (split; [status_step|done]).
  - pose proof (handled_activateSelection m) as H.
    by destruct (activateSelection m).
  - destruct (currentRow m); (split; [|done]);
      [apply statusStep_openDetail|status_step].
  - destruct (currentRow m) as [row|]; [|split; [status_step|done]].
    case_dec; (split; [status_step|]); intros d s; cbn [fst snd];
      [apply openEntryEditor_not_Tick|done].
  - unfold handled. rewrite let_pair_1, let_pair_c.
    split; [apply statusStep_handleDeleteEntryRequest|done].
  - split; [status_step|done].
  - unfold handled, openDayJSON. cbv zeta.
    split; [apply statusStep_openDayJSON|].
    destruct (SaveDayLog _ _ _); [done|]. by destruct (DayFilePath _ _).
  - destruct key as [|r [|]]; try (split; [status_step|done]).
    case_dec; [split; [status_step|done]|].
    pose proof (statusSeq_jumpToIndex (ToLower r) m) as H1.
    pose proof (statusTimerCmd_jumpToIndex (ToLower r) m) as H2.
    pose proof (statusTimeout_jumpToIndex (ToLower r) m) as H3.
    destruct (jumpToIndex (ToLower r) m) as [ok m']. cbn [fst snd] in *.
    destruct (ok && autoOpenIndex m').
    + pose proof (handled_activateSelection m') as [Hs Hc].
      destruct (activateSelection m') as [c m'']. cbn [fst snd] in *.
      split; [|done]. by apply (statusStep_same_l m m').
    + split; [|done]. cbn [fst snd].
      apply (statusStep_same_l m m'); [done..|status_step].
Qed.

Lemma handled_viewHandling w key m : handled m (viewHandling w key m).
Proof.
  unfold viewHandling.
  destruct (view m); [apply handled_handleListKey|apply handled_handleDetailKey].
Qed.

Lemma handled_handleKey w key m : handled m (handleKey w key m).
Proof.
  unfold handleKey.
  destruct (decide (view m = viewDetail ∧ _)).
  { case_dec; [split; [status_step|done]|apply handled_viewHandling]. }
  destruct (decide (key = "ctrl+c" ∨ _)); [split; [status_step|done]|].
  set (pending := if decide (view m = viewList ∧ deleteConfirm m ≠ None)
                  then handleDeleteConfirmationKey w key m else (false, m, [])).
  assert (Hp : statusStep m pending.1.2
               ∧ (pending.1.1 = false → pending.1.2 = m)).
  { unfold pending. case_dec.
    - split; [apply statusStep_handleDeleteConfirmationKey|].
      destruct (handleDeleteConfirmationKey w key m) as [[c m'] io] eqn:E.
      cbn [fst snd]. intros ->.
      by apply handleDeleteConfirmationKey_unconsumed in E as [-> _].
    - split; [status_step|done]. }
  destruct pending as [[consumed m'] io]. cbn [fst snd] in Hp.
  destruct Hp as [Hstep Hun].
  destruct consumed; [by split|]. rewrite (Hun eq_refl).
  repeat case_dec; try (split; [status_step|done]).
  - pose proof (statusStep_toggleHints w m) as H.
    destruct (toggleHints w m) as [m'' io']. by split.
  - split; [apply statusStep_changeDay|done].
  - split; [apply statusStep_changeDay|done].
  - split; [apply statusStep_goToToday|done].
  - pose proof (handled_viewHandling w key m) as H.
    by destruct (viewHandling w key m) as [[c m''] io'].
Qed.

Lemma dispatch_status w msg m :
  statusStep m (dispatch w msg m).1.2
  ∧ ∀ d s, Tick d s ∉ (dispatch w msg m).1.1.
Proof.
  destruct msg; cbn [dispatch].
  - split; [status_step|]. intros d s. apply not_elem_of_nil.
  - pose proof (handled_handleKey w key m) as [Hs Hc].
    destruct (handleKey w key m) as [[c m'] io]. cbn [fst snd] in *.
    split; [done|]. intros d s. destruct c as [c|]; cbn.
    + intros Hin%list_elem_of_singleton. subst c. by apply (Hc d s).
    + apply not_elem_of_nil.
  - pose proof (statusStep_handleEditorResult w r m) as Hs.
    destruct (handleEditorResult w r m) as [m' io]. cbn [fst snd] in *.
    split; [done|]. intros d s. apply not_elem_of_nil.
  - case_dec; (split; [status_step|]); intros d s; apply not_elem_of_nil.
  - split; [apply statusStep_handleExternalOpenResult|].
    intros d s. apply not_elem_of_nil.
  - split; [status_step|]. intros d s. apply not_elem_of_nil.
Qed.

(** *** Handing the timer over *)

(** The status text is left alone by the same updates. *)

Lemma status_set_config v m : status (set_config v m) = status m.
Proof. done. Qed.

Lemma status_set_day v m : status (set_day v m) = status m.
Proof. done. Qed.

Lemma status_set_log v m : status (set_log v m) = status m.
Proof. done. Qed.

Lemma status_set_questions v m : status (set_questions v m) = status m.
Proof. done. Qed.

Lemma status_set_questionIndex v m : status (set_questionIndex v m) = status m.
Proof. done. Qed.

Lemma status_set_rows v m : status (set_rows v m) = status m.
Proof. done. Qed.

Lemma status_set_selected v m : status (set_selected v m) = status m.
Proof. done. Qed.

Lemma status_set_listMode v m : status (set_listMode v m) = status m.
Proof. done. Qed.

Lemma status_set_disableJKNav v m : status (set_disableJKNav v m) = status m.
Proof. done. Qed.

Lemma status_set_showHints v m : status (set_showHints v m) = status m.
Proof. done. Qed.

Lemma status_set_view v m : status (set_view v m) = status m.
Proof. done. Qed.

Lemma status_set_detail v m : status (set_detail v m) = status m.
Proof. done. Qed.

Lemma status_set_deleteConfirm v m : status (set_deleteConfirm v m) = status m.
Proof. done. Qed.

Lemma status_set_confirmPrompt v m : status (set_confirmPrompt v m) = status m.
Proof. done. Qed.

Lemma status_set_showDeletePrompt v m :
  status (set_showDeletePrompt v m) = status m.
Proof. done. Qed.

Lemma status_set_status v m : status (set_status v m) = v.
Proof. done. Qed.

Lemma status_set_statusSeq v m : status (set_statusSeq v m) = status m.
Proof. done. Qed.

Lemma status_set_statusTimerCmd v m :
  status (set_statusTimerCmd v m) = status m.
Proof. done. Qed.

Lemma status_set_err v m : status (set_err v m) = status m.
Proof. done. Qed.

Lemma status_set_width v m : status (set_width v m) = status m.
Proof. done. Qed.

Lemma status_set_height v m : status (set_height v m) = status m.
Proof. done. Qed.

Lemma status_refreshQuestions m :
  status (refreshQuestions m) = status m.
Proof.
  unfold refreshQuestions. cbv zeta. repeat case_dec; done.
Qed.

Lemma status_selectQuestionByIndex idx m :
  status (selectQuestionByIndex idx m) = status m.
Proof.
  unfold selectQuestionByIndex. repeat case_dec; done.
Qed.

Lemma status_selectQuestionByName q m :
  status (selectQuestionByName q m) = status m.
Proof.
  unfold selectQuestionByName. destruct (_ !! _); [|done]. apply status_selectQuestionByIndex.
Qed.

Lemma status_moveSelection d m :
  status (moveSelection d m) = status m.
Proof.
  unfold moveSelection. repeat case_dec; done.
Qed.

Lemma status_jumpToIndex r m :
  status ((jumpToIndex r m).2) = status m.
Proof.
  unfold jumpToIndex. destruct (runeToIndex r); [|done]. repeat case_dec; done.
Qed.

Lemma status_reselectQuestion q m :
  status (reselectQuestion q m) = status m.
Proof.
  unfold reselectQuestion. case_dec; [done|]. destruct (_ !! _); [|done].
  cbv zeta. by case_dec.
Qed.

Lemma status_toggleListMode m :
  status (toggleListMode m) = status m.
Proof.
  unfold toggleListMode. cbv zeta.
  by rewrite status_reselectQuestion, status_refreshQuestions.
Qed.

Lemma status_updateInput w msg m :
  status (updateInput w msg m) = status m.
Proof.
  unfold updateInput. by case_dec.
Qed.

Lemma status_setStatus text m : status (setStatus text m) = text.
Proof. unfold setStatus. cbv zeta. by case_dec. Qed.

Lemma status_refreshCurrentDayFromDisk w m :
  status (refreshCurrentDayFromDisk w m) = status m.
Proof.
  unfold refreshCurrentDayFromDisk. destruct (LoadDayLog _ _); [|done].
  by rewrite status_refreshQuestions.
Qed.

Create Rewrite HintDb status_text.

#[local] Hint Rewrite
  status_set_config
  status_set_day
  status_set_log
  status_set_questions
  status_set_questionIndex
  status_set_rows
  status_set_selected
  status_set_listMode
  status_set_disableJKNav
  status_set_showHints
  status_set_view
  status_set_detail
  status_set_deleteConfirm
  status_set_confirmPrompt
  status_set_showDeletePrompt
  status_set_status
  status_set_statusSeq
  status_set_statusTimerCmd
  status_set_err
  status_set_width
  status_set_height
  status_refreshQuestions
  status_selectQuestionByIndex
  status_selectQuestionByName
  status_moveSelection
  status_jumpToIndex
  status_reselectQuestion
  status_toggleListMode
  status_updateInput
  status_setStatus
  status_refreshCurrentDayFromDisk
  : status_text.

Lemma statusSet_same_l m m1 m' :
  statusSeq m1 = statusSeq m → statusTimerCmd m1 = statusTimerCmd m →
  statusTimeout m1 = statusTimeout m →
  statusSet m1 m' → statusSet m m'.
Proof. unfold statusSet. by intros -> -> ->. Qed.

(** Close a goal [statusSet m m'] where [m'] is [m] after field updates,
    procedures that leave the status fields alone, and at most one
    [setStatus]. *)
Ltac status_set :=
  unfold statusSet, timerFor, clearDeletePrompt, set_answers,
    set_detail_input, leaveDetail;
  cbn [fst snd]; autorewrite with status_fields status_text;
  first [ by (split; [|left]) | by (split; [|right]) ].

Lemma statusSet_performDeleteEntry w q idx m :
  statusSet m (performDeleteEntry w q idx m).1.
Proof.
  unfold performDeleteEntry. cbv zeta.
  repeat first [case_dec | destruct (SaveDayLog _ _ _)]; status_set.
Qed.

Lemma statusSet_initiateEntryDelete w q idx m :
  statusSet m (initiateEntryDelete w q idx m).1.
Proof.
  unfold initiateEntryDelete. cbv zeta. case_dec; [status_set|].
  destruct (confirmDelete m); [status_set|apply statusSet_performDeleteEntry].
Qed.

Lemma statusSet_handleDeleteEntryRequest w m :
  statusSet m (handleDeleteEntryRequest w m).1.
Proof.
  unfold handleDeleteEntryRequest.
  destruct (negb (listMode m)); [status_set|].
  destruct (currentRow m); [|status_set].
  case_dec; [apply statusSet_initiateEntryDelete|status_set].
Qed.

Lemma statusSet_handleDeleteConfirmationKey w key m :
  statusSet m (handleDeleteConfirmationKey w key m).1.2.
Proof.
  unfold handleDeleteConfirmationKey. cbv zeta.
  destruct (deleteConfirm m) as [p|]; [|status_set].
  case_dec; [|case_dec; status_set].
  pose proof (statusSet_performDeleteEntry w (confirm_question p)
                (confirm_entryIndex p)
                (clearDeletePrompt (set_deleteConfirm None m))) as H.
  destruct (performDeleteEntry _ _ _ _) as [m' io]. cbn [fst snd] in *.
  by apply (statusSet_same_l m _ m') in H.
Qed.

Lemma statusSet_openDayJSON w m : statusSet m (openDayJSON w m).1.2.
Proof.
  unfold openDayJSON. cbv zeta.
  destruct (SaveDayLog _ _ _); [status_set|].
  destruct (DayFilePath _ _); status_set.
Qed.

Lemma statusSet_startEditing m : statusSet m (startEditing m).
Proof. unfold startEditing. cbv zeta. status_set. Qed.

Lemma statusSet_openDetail q start m : statusSet m (openDetail q start m).
Proof.
  unfold openDetail. cbv zeta. destruct start; [|status_set].
  eapply statusSet_same_l; [..|apply statusSet_startEditing]; done.
Qed.

Lemma statusSet_saveInlineEntry w m : statusSet m (saveInlineEntry w m).1.
Proof.
  unfold saveInlineEntry. cbv zeta. case_dec; [status_set|].
  destruct (SaveDayLog _ _ _); status_set.
Qed.

Lemma statusSet_applyQuestionEdit w q resps m :
  statusSet m (applyQuestionEdit w q resps m).1.
Proof.
  unfold applyQuestionEdit. cbv zeta.
  case_dec; destruct (SaveDayLog _ _ _); status_set.
Qed.

Lemma statusSet_applySingleEntryEdit w q idx resps m :
  statusSet m (applySingleEntryEdit w q idx resps m).1.
Proof.
  unfold applySingleEntryEdit. cbv zeta. case_dec; [status_set|].
  case_dec; destruct (SaveDayLog _ _ _); status_set.
Qed.

Lemma statusSet_handleEditorResult w r m :
  statusSet m (handleEditorResult w r m).1.
Proof.
  unfold handleEditorResult. destruct (msg_err r); [status_set|].
  destruct (negb (changed r)); [status_set|].
  case_dec; [apply statusSet_applySingleEntryEdit
            |apply statusSet_applyQuestionEdit].
Qed.

Lemma statusSet_handleExternalOpenResult w k e m :
  statusSet m (handleExternalOpenResult w k e m).
Proof.
  unfold handleExternalOpenResult. cbv zeta.
  destruct e; [status_set|]. destruct k; status_set.
Qed.

Lemma statusSet_toggleHints w m : statusSet m (toggleHints w m).1.
Proof.
  unfold toggleHints. cbv zeta. destruct (SaveConfig _ _); [status_set|].
  cbn [showHints set_err set_config set_showHints].
  destruct (negb (showHints m)); status_set.
Qed.

Lemma statusSet_reloadDay w m m0 :
  statusSeq m = statusSeq m0 → statusTimerCmd m = statusTimerCmd m0 →
  statusTimeout m = statusTimeout m0 →
  statusSet m0 (reloadDay w m).
Proof.
  intros H1 H2 H3. apply (statusSet_same_l m0 m); [done..|].
  unfold reloadDay. cbv zeta. destruct (LoadDayLog _ _); status_set.
Qed.

Lemma statusSet_changeDay w d m : statusSet m (changeDay w d m).
Proof. unfold changeDay. by apply statusSet_reloadDay. Qed.

Lemma statusSet_goToToday w m : statusSet m (goToToday w m).
Proof.
  unfold goToToday. case_dec; [status_set|]. by apply statusSet_reloadDay.
Qed.

Lemma statusSet_activateSelection m : statusSet m (activateSelection m).2.
Proof.
  unfold activateSelection. destruct (currentRow m) as [row|].
  - case_dec; cbn [fst snd]; [status_set|apply statusSet_openDetail].
  - status_set.
Qed.

Lemma statusSet_handleDetailKey w key m :
  statusSet m (handleDetailKey w key m).1.2.
Proof.
  unfold handleDetailKey. cbv zeta.
  repeat case_dec; destruct (editing (detail m)); try status_set.
  - rewrite let_pair_1. apply statusSet_saveInlineEntry.
  - apply statusSet_startEditing.
  - apply statusSet_startEditing.
Qed.

Lemma statusSet_handleListKey w key m :
  statusSet m (handleListKey w key m).1.2.
Proof.
  unfold handleListKey.
  repeat (destruct (decide (key = _)) as [_|_]).
  - status_set.
  - status_set.
  - destruct (disableJKNav m); status_set.
  - destruct (disableJKNav m); status_set.
  - pose proof (statusSet_activateSelection m) as H.
    by destruct (activateSelection m).
  - destruct (currentRow m); [apply statusSet_openDetail|status_set].
  - destruct (currentRow m) as [row|]; [|status_set].
    case_dec; status_set.
  - rewrite let_pair_1. apply statusSet_handleDeleteEntryRequest.
  - status_set.
  - apply statusSet_openDayJSON.
  - destruct key as [|r [|]]; try status_set.
    case_dec; [status_set|].
    pose proof (statusSeq_jumpToIndex (ToLower r) m) as H1.
    pose proof (statusTimerCmd_jumpToIndex (ToLower r) m) as H2.
    pose proof (statusTimeout_jumpToIndex (ToLower r) m) as H3.
    destruct (jumpToIndex (ToLower r) m) as [ok m']. cbn [fst snd] in *.
    destruct (ok && autoOpenIndex m').
    + pose proof (statusSet_activateSelection m') as Hs.
      destruct (activateSelection m') as [c m'']. cbn [fst snd] in *.
      by apply (statusSet_same_l m m').
    + cbn [fst snd]. apply (statusSet_same_l m m'); [done..|status_set].
Qed.

Lemma statusSet_viewHandling w key m :
  statusSet m (viewHandling w key m).1.2.
Proof.
  unfold viewHandling.
  destruct (view m);
    [apply statusSet_handleListKey|apply statusSet_handleDetailKey].
Qed.

Lemma statusSet_handleKey w key m : statusSet m (handleKey w key m).1.2.
Proof.
  unfold handleKey.
  destruct (decide (view m = viewDetail ∧ _)).
  { case_dec; [status_set|apply statusSet_viewHandling]. }
  destruct (decide (key = "ctrl+c" ∨ _)); [status_set|].
  set (pending := if decide (view m = viewList ∧ deleteConfirm m ≠ None)
                  then handleDeleteConfirmationKey w key m else (false, m, [])).
  assert (Hp : statusSet m pending.1.2
               ∧ (pending.1.1 = false → pending.1.2 = m)).
  { unfold pending. case_dec.
    - split; [apply statusSet_handleDeleteConfirmationKey|].
      destruct (handleDeleteConfirmationKey w key m) as [[c m'] io] eqn:E.
      cbn [fst snd]. intros ->.
      by apply handleDeleteConfirmationKey_unconsumed in E as [-> _].
    - split; [status_set|done]. }
  destruct pending as [[consumed m'] io]. cbn [fst snd] in Hp.
  destruct Hp as [Hstep Hun].
  destruct consumed; [done|]. rewrite (Hun eq_refl).
  repeat case_dec; try status_set.
  - pose proof (statusSet_toggleHints w m) as H.
    by destruct (toggleHints w m) as [m'' io'].
  - apply statusSet_changeDay.
  - apply statusSet_changeDay.
  - apply statusSet_goToToday.
  - pose proof (statusSet_viewHandling w key m) as H.
    by destruct (viewHandling w key m) as [[c m''] io'].
Qed.

Lemma statusSet_dispatch w msg m : statusSet m (dispatch w msg m).1.2.
Proof.
  destruct msg; cbn [dispatch].
  - status_set.
  - pose proof (statusSet_handleKey w key m) as Hs.
    by destruct (handleKey w key m) as [[c m'] io].
  - pose proof (statusSet_handleEditorResult w r m) as Hs.
    by destruct (handleEditorResult w r m) as [m' io].
  - case_dec; status_set.
  - apply statusSet_handleExternalOpenResult.
  - status_set.
Qed.

Lemma statusSeq_flushTimer r : statusSeq (flushTimer r).1.1 = statusSeq r.1.2.
Proof. unfold flushTimer. by destruct (statusTimerCmd _). Qed.

Lemma cmds_flushTimer r c :
  c ∈ (flushTimer r).1.2 → c ∈ r.1.1 ∨ statusTimerCmd r.1.2 = Some c.
Proof.
  unfold flushTimer. destruct (statusTimerCmd _); cbn [fst snd]; [|by left].
  intros [?|Hin%list_elem_of_singleton]%elem_of_app; [by left|].
  subst c. by right.
Qed.

Lemma wrap64_small z : - 2 ^ 63 ≤ z < 2 ^ 63 → wrap64 z = z.
Proof. intros H. unfold wrap64. rewrite Z.mod_small; lia. Qed.

(** Across one transition the sequence number stays or moves to its
    successor, and a timer in the batch is keyed to the new number. *)
Lemma Update_status w msg m :
  (statusSeq (Update w msg m).1.1 = statusSeq m
   ∨ statusSeq (Update w msg m).1.1 = wrap64 (statusSeq m + 1))
  ∧ (statusTimerCmd m = None →
     ∀ d s, Tick d s ∈ (Update w msg m).1.2 →
            s = statusSeq (Update w msg m).1.1
            ∧ s = wrap64 (statusSeq m + 1)).
Proof.
  unfold Update. rewrite statusSeq_flushTimer.
  destruct (dispatch_status w msg (updateInput w msg m)) as [Hs Hc].
  destruct Hs as [_ Hs]. autorewrite with status_fields in Hs. split.
  - destruct Hs as [[? _]|[? _]]; [by left|by right].
  - intros Hnone d s [Hin|Ht]%cmds_flushTimer; [by apply Hc in Hin|].
    destruct Hs as [[_ Hsame]|[Hseq Harmed]]; [congruence|].
    apply Harmed in Ht as [= _ ->]. by rewrite Hseq.
Qed.

Lemma statusTimerCmd_flushTimer r : statusTimerCmd (flushTimer r).1.1 = None.
Proof. unfold flushTimer. by destruct (statusTimerCmd r.1.2) eqn:E. Qed.

(** A transition that starts with an empty timer slot leaves the sequence
    number alone and returns no timer, or sets the status once: then the
    batch holds the timer of the message shown, keyed to the new number,
    unless that message is empty or the lifetime is not positive, in which
    case the batch holds no timer. *)
Lemma Update_hands_timer w msg m :
  statusTimerCmd m = None →
  (statusSeq (Update w msg m).1.1 = statusSeq m
   ∧ ∀ d s, Tick d s ∉ (Update w msg m).1.2)
  ∨ (statusSeq (Update w msg m).1.1 = wrap64 (statusSeq m + 1)
     ∧ (status (Update w msg m).1.1 = EmptyString ∨ statusTimeout m ≤ 0 →
        ∀ d s, Tick d s ∉ (Update w msg m).1.2)
     ∧ (status (Update w msg m).1.1 ≠ EmptyString → 0 < statusTimeout m →
        Tick (statusTimeout m) (wrap64 (statusSeq m + 1))
        ∈ (Update w msg m).1.2)).
Proof.
  intros Hnone. unfold Update.
  rewrite statusSeq_flushTimer, status_flushTimer.
  destruct (dispatch_status w msg (updateInput w msg m)) as [_ Hc].
  destruct (statusSet_dispatch w msg (updateInput w msg m)) as [Hto Hs].
  autorewrite with status_fields in Hto, Hs.
  unfold flushTimer.
  destruct Hs as [[Hseq Ht]|[Hseq Ht]].
  - left. rewrite Ht, Hnone. cbn [fst snd]. split; [done|]. exact Hc.
  - right. split; [done|]. rewrite Ht. unfold timerFor. rewrite Hto, Hseq.
    destruct (decide _) as [Hd|Hd]; cbn [fst snd].
    + split; [intros _; exact Hc|]. intros Hne Hpos. destruct Hd; [done|lia].
    + split; [intros Hor; by destruct Hd|].
      intros _ _. apply elem_of_app. right. by left.
Qed.

Lemma Update_StatusTimeout w seq m :
  statusSeq (Update w (StatusTimeoutMsg seq) m).1.1 = statusSeq m
  ∧ status (Update w (StatusTimeoutMsg seq) m).1.1
    = if decide (seq = statusSeq m) then EmptyString else status m.
Proof.
  unfold Update. rewrite statusSeq_flushTimer, status_flushTimer.
  cbn [dispatch]. rewrite statusSeq_updateInput.
  case_dec; cbn [fst snd]; autorewrite with status_fields;
    rewrite ?status_updateInput; done.
Qed.

(** C7 (amended).  Status sequence numbers increase (as long as the 64-bit
    counter has not reached its maximum).  Setting a status message stores
    the text and moves the sequence number to its successor; a non-empty
    message with a positive lifetime arms a timer carrying the new number,
    and an empty message or a lifetime that is not positive arms none.
    Across any transition the number never decreases and moves by at most
    one.  For a transition that starts with an empty timer slot, as every
    transition of a session does: a timer found in the batch of commands
    carries the number current after the transition; when the number has
    moved, the timer of the message then shown (non-empty, positive
    lifetime) is in the batch that [Update] returns; and when that message
    is empty or the lifetime is not positive the batch holds no timer.  After
    every transition the slot is empty again.  A timer delivers the number it carries; when
    it fires the status is cleared exactly when that number equals the
    current one, so a timer whose number is smaller than the current one
    leaves the status alone. *)
Theorem C7_status_sequence (w : World) (m : model) :
  - 2 ^ 63 ≤ statusSeq m < MaxInt64 →
  (∀ text,
     status (setStatus text m) = text
     ∧ statusSeq (setStatus text m) = statusSeq m + 1
     ∧ (text ≠ EmptyString → 0 < statusTimeout m →
        statusTimerCmd (setStatus text m)
        = Some (Tick (statusTimeout m) (statusSeq m + 1)))
     ∧ (text = EmptyString ∨ statusTimeout m ≤ 0 →
        statusTimerCmd (setStatus text m) = None))
  ∧ (∀ msg,
       statusSeq m ≤ statusSeq (Update w msg m).1.1 ≤ statusSeq m + 1
       ∧ statusTimerCmd (Update w msg m).1.1 = None
       ∧ (statusTimerCmd m = None →
          (∀ d s, Tick d s ∈ (Update w msg m).1.2 →
                  s = statusSeq (Update w msg m).1.1 ∧ statusSeq m < s)
          ∧ (statusSeq m < statusSeq (Update w msg m).1.1 →
             status (Update w msg m).1.1 ≠ EmptyString →
             0 < statusTimeout m →
             Tick (statusTimeout m) (statusSeq (Update w msg m).1.1)
             ∈ (Update w msg m).1.2)
          ∧ (status (Update w msg m).1.1 = EmptyString
             ∨ statusTimeout m ≤ 0 →
             ∀ d s, Tick d s ∉ (Update w msg m).1.2)))
  ∧ (∀ run d s, runCmd run (Tick d s) = Some (StatusTimeoutMsg s))
  ∧ (∀ seq,
       statusSeq (Update w (StatusTimeoutMsg seq) m).1.1 = statusSeq m
       ∧ status (Update w (StatusTimeoutMsg seq) m).1.1
         = if decide (seq = statusSeq m) then EmptyString else status m)
  ∧ (∀ seq, seq < statusSeq m →
            status (Update w (StatusTimeoutMsg seq) m).1.1 = status m).
Proof.
  intros Hrange. unfold MaxInt64 in Hrange.
  assert (Hw : wrap64 (statusSeq m + 1) = statusSeq m + 1)
    by (apply wrap64_small; lia).
  split_and!.
  - intros text. split_and!.
    + unfold setStatus. cbv zeta. by case_dec.
    + by rewrite statusSeq_setStatus.
    + intros Hne Hpos. rewrite statusTimerCmd_setStatus, Hw.
      destruct (decide _) as [[?|?]|_]; [done|lia|done].
    + intros Hor. rewrite statusTimerCmd_setStatus.
      by destruct (decide _).
  - intros msg. destruct (Update_status w msg m) as [Hs Ht]. split_and!.
    + destruct Hs as [->| ->]; lia.
    + destruct Hs as [->| ->]; lia.
    + unfold Update. apply statusTimerCmd_flushTimer.
    + intros Hnone. split_and!.
      * intros d s Hin. destruct (Ht Hnone d s Hin) as [-> Hs'].
        split; [done|]. lia.
      * intros Hlt Hne Hpos.
        destruct (Update_hands_timer w msg m Hnone)
          as [[Hsame _]|(Hseq & _ & Hin)]; [lia|].
        rewrite Hseq. by apply Hin.
      * intros Hor.
        destruct (Update_hands_timer w msg m Hnone)
          as [[_ Hno]|(_ & Hno & _)]; [done|by apply Hno].
  - done.
  - intros seq. apply Update_StatusTimeout.
  - intros seq Hlt. destruct (Update_StatusTimeout w seq m) as [_ ->].
    destruct (decide _); [lia|done].
Qed.

Lemma C7_status_sequence_witness :
  - 2 ^ 63 ≤ statusSeq Examples.soleSession < MaxInt64
  ∧ statusSeq (setStatus "Entry saved." Examples.soleSession)
    = statusSeq Examples.soleSession + 1.
Proof.
  assert (H : - 2 ^ 63 ≤ statusSeq Examples.soleSession < MaxInt64)
    by (vm_compute; split; congruence).
  split; [exact H|].
  exact (proj1 (proj2 (proj1 (C7_status_sequence Examples.soleWorld
                                Examples.soleSession H) "Entry saved."))).
Defined.

(** C7 as stated fails: not every new status message arms a timer.  With
    [statusMessageDurationMs] set to 9223372036855 the lifetime in
    nanoseconds overflows to a negative duration; the key d (list mode is
    off) then sets a status message under the next sequence number, and the
    transition returns no timer and leaves none pending, so nothing will
    clear the message. *)
Lemma C7_counterexample :
  StatusMessageDurationMs Examples.longStatus = Some 9223372036855
  ∧ statusTimeout Examples.longStatusSession = - 9223372036854551616
  ∧ statusTimerCmd Examples.longStatusSession = None
  ∧ status (Update Examples.emptyWorld (KeyMsg "d")
              Examples.longStatusSession).1.1
    = "Enable list mode to delete entries."
  ∧ statusSeq (Update Examples.emptyWorld (KeyMsg "d")
                 Examples.longStatusSession).1.1
    = statusSeq Examples.longStatusSession + 1
  ∧ (Update Examples.emptyWorld (KeyMsg "d")
       Examples.longStatusSession).1.2 = []
  ∧ statusTimerCmd (Update Examples.emptyWorld (KeyMsg "d")
                      Examples.longStatusSession).1.1 = None.
Proof.
  split_and!; vm_compute; reflexivity.
Qed.

(** ** Toggling list mode *)

Lemma refreshQuestions_fields m :
  let m' := refreshQuestions m in
  cfgQuestions m' = cfgQuestions m
  ∧ log m' = log m
  ∧ listMode m' = listMode m
  ∧ questions m' = mergeQuestions (cfgQuestions m) (log m)
  ∧ questionIndex m' = indexQuestions 0 (questions m') ∅
  ∧ rowsInSync m'
  ∧ selected m' = clampSelected m' (selected m).
Proof.
  unfold refreshQuestions, rowsInSync, clampSelected. cbv zeta.
  set (m1 := rebuildRows _).
  assert (H1 : cfgQuestions m1 = cfgQuestions m) by reflexivity.
  assert (H2 : log m1 = log m) by reflexivity.
  assert (H3 : listMode m1 = listMode m) by reflexivity.
  assert (H4 : questions m1 = mergeQuestions (cfgQuestions m) (log m))
    by reflexivity.
  assert (H5 : questionIndex m1 = indexQuestions 0 (questions m1) ∅)
    by reflexivity.
  assert (H6 : rows m1 = foldl (fun rows q => rows ++ rowsOf m1 q) []
                           (questions m1)) by reflexivity.
  assert (H7 : selected m1 = selected m) by reflexivity.
  clearbody m1.
  destruct (decide (len (rows m1) = 0)) as [E|E].
  - cbn [cfgQuestions log listMode questions questionIndex rows selected
           set_selected].
    rewrite decide_True by done. by split_and!.
  - destruct (decide (len (rows m1) ≤ selected m1)) as [E'|E'].
    + cbn [cfgQuestions log listMode questions questionIndex rows selected
             set_selected].
      rewrite decide_False by done. rewrite decide_True by lia.
      by split_and!.
    + rewrite decide_False by done. rewrite decide_False by lia.
      by split_and!.
Qed.

Lemma foldl_rows {A B : Type} (f : A → list B) (qs : list A) (init : list B) :
  foldl (fun acc q => acc ++ f q) init qs = init ++ concat (map f qs).
Proof.
  revert init; induction qs as [|q qs IH]; intros init; simpl.
  - by rewrite app_nil_r.
  - by rewrite IH, app_assoc.
Qed.

Lemma rows_concat m :
  rowsInSync m → rows m = concat (map (rowsOf m) (questions m)).
Proof. unfold rowsInSync. intros ->. apply (foldl_rows _ _ []). Qed.

Lemma rowsOf_length m q :
  len (rowsOf m q) = if listMode m then 1 + len (answersFor m q) else 1.
Proof.
  unfold rowsOf, len. destruct (listMode m); simpl; [|done].
  rewrite length_imap. lia.
Qed.

Lemma rowOffset_concat m (qs : list string) :
  listMode m = true →
  ∀ i idx offset, i ≤ idx < i + len qs →
    rowOffset m qs i idx offset
    = offset + len (concat (map (rowsOf m) (take (Z.to_nat (idx - i)) qs))).
Proof.
  intros Hlm. induction qs as [|q qs IH]; intros i idx offset Hi.
  - unfold len in Hi. simpl in Hi. lia.
  - simpl. destruct (decide (i = idx)) as [->|Hne].
    + rewrite Z.sub_diag. simpl. unfold len. simpl. lia.
    + rewrite IH by (unfold len in *; simpl in Hi; lia).
      replace (Z.to_nat (idx - i)) with (S (Z.to_nat (idx - (i + 1)))) by lia.
      rewrite firstn_cons, map_cons, concat_cons.
      pose proof (rowsOf_length m q) as Hq. rewrite Hlm in Hq.
      unfold len in *. rewrite length_app. lia.
Qed.

Lemma concat_singletons {A B : Type} (f : A → list B) (qs : list A) :
  (∀ q, length (f q) = 1%nat) → length (concat (map f qs)) = length qs.
Proof.
  intros H. induction qs as [|q qs IH]; simpl; [done|].
  rewrite length_app, H, IH. done.
Qed.

Lemma rowIndexForQuestion_rowsBefore m idx :
  0 ≤ idx < len (questions m) →
  rowIndexForQuestion m idx = rowsBefore m (Z.to_nat idx).
Proof.
  intros Hidx. unfold rowIndexForQuestion, rowsBefore.
  destruct (decide (idx < 0 ∨ _)) as [[?|?]|_]; [lia..|].
  destruct (listMode m) eqn:Hlm; simpl.
  - rewrite (rowOffset_concat m _ Hlm) by lia. rewrite Z.sub_0_r. lia.
  - unfold len in *. rewrite concat_singletons.
    + rewrite length_take. lia.
    + intros q. unfold rowsOf. by rewrite Hlm.
Qed.

(** In a model whose rows are in step with its questions, the row at the
    index computed for question [idx] is the header row of that question. *)
Lemma header_row m idx q :
  rowsInSync m → 0 ≤ idx → questions m !! Z.to_nat idx = Some q →
  0 ≤ rowIndexForQuestion m idx < len (rows m)
  ∧ rows m !! Z.to_nat (rowIndexForQuestion m idx) = Some (header q).
Proof.
  intros Hsync Hidx Hq.
  assert (Hlt : 0 ≤ idx < len (questions m)).
  { apply lookup_lt_Some in Hq. unfold len. lia. }
  rewrite rowIndexForQuestion_rowsBefore by done. unfold rowsBefore.
  set (n := Z.to_nat idx) in *. set (qs := questions m) in *.
  assert (Hrows : rows m
                  = concat (map (rowsOf m) (take n qs))
                    ++ rowsOf m q ++ concat (map (rowsOf m) (drop (S n) qs))).
  { rewrite (rows_concat m Hsync). fold qs.
    rewrite <-(take_drop_middle qs n q Hq) at 1.
    by rewrite map_app, concat_app, map_cons, concat_cons. }
  rewrite Hrows. unfold len. rewrite Nat2Z.id. split.
  - pose proof (rowsOf_length m q) as Hl. unfold len in Hl.
    rewrite !length_app. destruct (listMode m); lia.
  - rewrite lookup_app_r by lia. by rewrite Nat.sub_diag.
Qed.

Lemma indexQuestions_lookup (qs : list string) :
  ∀ i (acc : gmap string Z) q idx,
    indexQuestions i qs acc !! q = Some idx →
    (i ≤ idx ∧ qs !! Z.to_nat (idx - i) = Some q)
    ∨ (acc !! q = Some idx ∧ q ∉ qs).
Proof.
  induction qs as [|q' qs IH]; intros i acc q idx H; simpl in H.
  - right. split; [done|apply not_elem_of_nil].
  - apply IH in H as [[Hi Hq]|[Hacc Hnot]].
    + left. split; [lia|].
      replace (Z.to_nat (idx - i)) with (S (Z.to_nat (idx - (i + 1)))) by lia.
      done.
    + destruct (decide (q' = q)) as [->|Hne].
      * rewrite lookup_insert_eq in Hacc. injection Hacc as <-.
        left. split; [lia|]. by rewrite Z.sub_diag.
      * rewrite lookup_insert_ne in Hacc by done. right.
        split; [done|]. rewrite not_elem_of_cons. by split.
Qed.

Lemma indexQuestions_elem (qs : list string) :
  ∀ i (acc : gmap string Z) q,
    q ∈ qs → is_Some (indexQuestions i qs acc !! q).
Proof.
  induction qs as [|q' qs IH]; intros i acc q Hq; simpl.
  - by apply elem_of_nil in Hq.
  - destruct (decide (q ∈ qs)) as [Hin|Hnot]; [by apply IH|].
    apply elem_of_cons in Hq as [->|?]; [|done].
    assert (Hk : ∀ j (acc' : gmap string Z),
              q' ∉ qs → indexQuestions j qs acc' !! q' = acc' !! q').
    { clear. induction qs as [|x qs IH]; intros j acc' Hnot; simpl; [done|].
      apply not_elem_of_cons in Hnot as [? ?].
      rewrite IH by done. by rewrite lookup_insert_ne. }
    rewrite Hk by done. rewrite lookup_insert_eq. by eexists.
Qed.

Lemma currentRow_in_range m :
  0 ≤ selected m < len (rows m) →
  currentRow m = rows m !! Z.to_nat (selected m).
Proof.
  intros H. unfold currentRow.
  destruct (decide _) as [[?|[?|?]]|_]; [lia..|done].
Qed.


(** The re-selection step on a model whose rows and index are in step with
    its questions. *)
Lemma reselectQuestion_found X q :
  rowsInSync X → questionIndex X = indexQuestions 0 (questions X) ∅ →
  q ≠ EmptyString → q ∈ questions X →
  currentRow (reselectQuestion q X) = Some (header q)
  ∧ cfgQuestions (reselectQuestion q X) = cfgQuestions X
  ∧ log (reselectQuestion q X) = log X
  ∧ listMode (reselectQuestion q X) = listMode X.
Proof.
  intros Hsync Hqi Hne Hin. unfold reselectQuestion.
  destruct (decide (q = EmptyString)); [done|].
  destruct (indexQuestions_elem (questions X) 0 ∅ _ Hin) as [idx Hidx].
  rewrite Hqi, Hidx.
  apply indexQuestions_lookup in Hidx as [[H0 Hq]|[Hempty _]];
    [|by rewrite lookup_empty in Hempty].
  rewrite Z.sub_0_r in Hq.
  destruct (header_row X idx _ Hsync H0 Hq) as [Hrange Hhead].
  cbv zeta. destruct (decide (0 ≤ rowIndexForQuestion X idx)); [|lia].
  generalize dependent (rowIndexForQuestion X idx). intros r Hrange Hhead _.
  split; [|by split_and!].
  rewrite currentRow_in_range; [exact Hhead|exact Hrange].
Qed.

Lemma reselectQuestion_not_found X q :
  questionIndex X = indexQuestions 0 (questions X) ∅ →
  q ∉ questions X → reselectQuestion q X = X.
Proof.
  intros Hqi Hnot. unfold reselectQuestion. case_dec; [done|].
  destruct (questionIndex X !! q) as [idx|] eqn:Hidx; [|done].
  rewrite Hqi in Hidx.
  apply indexQuestions_lookup in Hidx as [[H0 Hq]|[Hempty _]];
    [|by rewrite lookup_empty in Hempty].
  destruct Hnot. by apply list_elem_of_lookup_2 in Hq.
Qed.

(** One toggle, when the selected question has a name and is in the question
    set: its header row is selected in the other mode. *)
Lemma toggleListMode_found m row :
  currentRow m = Some row → question row ≠ EmptyString →
  question row ∈ mergeQuestions (cfgQuestions m) (log m) →
  currentRow (toggleListMode m) = Some (header (question row))
  ∧ cfgQuestions (toggleListMode m) = cfgQuestions m
  ∧ log (toggleListMode m) = log m
  ∧ listMode (toggleListMode m) = negb (listMode m).
Proof.
  intros Hrow Hne Hin. unfold toggleListMode. cbv zeta. rewrite Hrow.
  destruct (refreshQuestions_fields (set_listMode (negb (listMode m)) m))
    as (Hcfg & Hlog & Hlm & Hqs & Hqi & Hsync & _).
  cbn [cfgQuestions log listMode set_listMode] in Hcfg, Hlog, Hlm, Hqs.
  rewrite <-Hqs in Hin.
  destruct (reselectQuestion_found _ _ Hsync Hqi Hne Hin)
    as (H1 & H2 & H3 & H4).
  by rewrite H1, H2, H3, H4, Hcfg, Hlog, Hlm.
Qed.

Lemma toggleListMode_not_found m :
  (∀ row, currentRow m = Some row →
          question row ∉ mergeQuestions (cfgQuestions m) (log m)) →
  toggleListMode m = refreshQuestions (set_listMode (negb (listMode m)) m).
Proof.
  intros Hrow. unfold toggleListMode. cbv zeta.
  destruct (refreshQuestions_fields (set_listMode (negb (listMode m)) m))
    as (_ & _ & _ & Hqs & Hqi & _ & _).
  cbn [cfgQuestions log set_listMode] in Hqs.
  destruct (currentRow m) as [row|].
  - apply reselectQuestion_not_found; [done|]. rewrite Hqs.
    by apply Hrow.
  - unfold reselectQuestion. by case_dec.
Qed.

(** C8 (amended).  Toggling list mode selects the header row of the
    previously selected question whenever that question has a non-empty name
    and belongs to the recomputed question set; toggling twice then selects
    the header row of that same question again, in the original mode.  When
    the previously selected question is not in the recomputed question set
    (or no row was selected) the selection does not fall back to 0: it keeps
    its previous index, clamped to the new row sequence. *)
Theorem C8_toggle_list_mode (m : model) :
  (∀ row, currentRow m = Some row → question row ≠ EmptyString →
          question row ∈ mergeQuestions (cfgQuestions m) (log m) →
          currentRow (toggleListMode m) = Some (header (question row))
          ∧ currentRow (toggleListMode (toggleListMode m))
            = Some (header (question row))
          ∧ listMode (toggleListMode (toggleListMode m)) = listMode m)
  ∧ ((∀ row, currentRow m = Some row →
             question row ∉ mergeQuestions (cfgQuestions m) (log m)) →
     selected (toggleListMode m)
     = clampSelected (toggleListMode m) (selected m)).
Proof.
  split.
  - intros row Hrow Hne Hin.
    destruct (toggleListMode_found m row Hrow Hne Hin)
      as (Hcur & Hcfg & Hlog & Hlm).
    split; [done|].
    destruct (toggleListMode_found (toggleListMode m) _ Hcur Hne)
      as (Hcur2 & _ & _ & Hlm2).
    { cbn [question header]. by rewrite Hcfg, Hlog. }
    split; [done|]. rewrite Hlm2, Hlm. apply negb_involutive.
  - intros Hrow. rewrite (toggleListMode_not_found m Hrow).
    by destruct (refreshQuestions_fields (set_listMode (negb (listMode m)) m))
      as (_ & _ & _ & _ & _ & _ & ->).
Qed.

Lemma C8_toggle_list_mode_witness :
  currentRow Examples.soleSelected
  = Some {| kind := rowEntry; question := "Q1"; entryIndex := 0 |}
  ∧ currentRow (toggleListMode Examples.soleSelected) = Some (header "Q1")
  ∧ currentRow (toggleListMode (toggleListMode Examples.soleSelected))
    = Some (header "Q1").
Proof.
  assert (Hr : currentRow Examples.soleSelected
               = Some {| kind := rowEntry; question := "Q1"; entryIndex := 0 |})
    by (vm_compute; reflexivity).
  split; [exact Hr|].
  destruct (proj1 (C8_toggle_list_mode Examples.soleSelected) _ Hr)
    as (H1 & H2 & _).
  - simpl. discriminate.
  - apply (bool_decide_unpack _). vm_compute. exact I.
  - split; [exact H1|exact H2].
Defined.

(** C8 as stated fails.  With a question whose name is empty selected, the
    toggle does not select that question again: the selection keeps its
    index, clamped, and lands on the row of another question, and a second
    toggle selects that other question.  With a selected question that is no
    longer in the question set (its last entry was deleted and the write
    failed), the selection does not fall back to 0 either. *)
Lemma C8_counterexample :
  (currentRow Examples.namelessSelected = Some (header EmptyString)
   ∧ selected (toggleListMode Examples.namelessSelected) = 2
   ∧ currentRow (toggleListMode Examples.namelessSelected)
     = Some (header "B")
   ∧ currentRow (toggleListMode (toggleListMode Examples.namelessSelected))
     = Some (header "B"))
  ∧ (currentRow Examples.extraDeleted
     = Some {| kind := rowEntry; question := "X"; entryIndex := 0 |}
     ∧ questionIndex (toggleListMode Examples.extraDeleted) !! "X" = None
     ∧ selected (toggleListMode Examples.extraDeleted) = 2).
Proof. vm_compute. split_and!; reflexivity. Qed.

(** ** The selection index *)

(** *** The selection while every write succeeds *)

Lemma layout_set_config v m : layout (set_config v m) = layout m.
Proof. done. Qed.

Lemma selected_set_config v m : selected (set_config v m) = selected m.
Proof. done. Qed.

Lemma layout_set_day v m : layout (set_day v m) = layout m.
Proof. done. Qed.

Lemma selected_set_day v m : selected (set_day v m) = selected m.
Proof. done. Qed.

Lemma selected_set_log v m : selected (set_log v m) = selected m.
Proof. done. Qed.

Lemma selected_set_questions v m : selected (set_questions v m) = selected m.
Proof. done. Qed.

Lemma layout_set_questionIndex v m : layout (set_questionIndex v m) = layout m.
Proof. done. Qed.

Lemma selected_set_questionIndex v m : selected (set_questionIndex v m) = selected m.
Proof. done. Qed.

Lemma selected_set_rows v m : selected (set_rows v m) = selected m.
Proof. done. Qed.

Lemma selected_set_listMode v m : selected (set_listMode v m) = selected m.
Proof. done. Qed.

Lemma layout_set_disableJKNav v m : layout (set_disableJKNav v m) = layout m.
Proof. done. Qed.

Lemma selected_set_disableJKNav v m : selected (set_disableJKNav v m) = selected m.
Proof. done. Qed.

Lemma layout_set_showHints v m : layout (set_showHints v m) = layout m.
Proof. done. Qed.

Lemma selected_set_showHints v m : selected (set_showHints v m) = selected m.
Proof. done. Qed.

Lemma layout_set_view v m : layout (set_view v m) = layout m.
Proof. done. Qed.

Lemma selected_set_view v m : selected (set_view v m) = selected m.
Proof. done. Qed.

Lemma layout_set_detail v m : layout (set_detail v m) = layout m.
Proof. done. Qed.

Lemma selected_set_detail v m : selected (set_detail v m) = selected m.
Proof. done. Qed.

Lemma layout_set_deleteConfirm v m : layout (set_deleteConfirm v m) = layout m.
Proof. done. Qed.

Lemma selected_set_deleteConfirm v m : selected (set_deleteConfirm v m) = selected m.
Proof. done. Qed.

Lemma layout_set_confirmPrompt v m : layout (set_confirmPrompt v m) = layout m.
Proof. done. Qed.

Lemma selected_set_confirmPrompt v m : selected (set_confirmPrompt v m) = selected m.
Proof. done. Qed.

Lemma layout_set_showDeletePrompt v m : layout (set_showDeletePrompt v m) = layout m.
Proof. done. Qed.

Lemma selected_set_showDeletePrompt v m : selected (set_showDeletePrompt v m) = selected m.
Proof. done. Qed.

Lemma layout_set_status v m : layout (set_status v m) = layout m.
Proof. done. Qed.

Lemma selected_set_status v m : selected (set_status v m) = selected m.
Proof. done. Qed.

Lemma layout_set_statusSeq v m : layout (set_statusSeq v m) = layout m.
Proof. done. Qed.

Lemma selected_set_statusSeq v m : selected (set_statusSeq v m) = selected m.
Proof. done. Qed.

Lemma layout_set_statusTimerCmd v m : layout (set_statusTimerCmd v m) = layout m.
Proof. done. Qed.

Lemma selected_set_statusTimerCmd v m : selected (set_statusTimerCmd v m) = selected m.
Proof. done. Qed.

Lemma layout_set_err v m : layout (set_err v m) = layout m.
Proof. done. Qed.

Lemma selected_set_err v m : selected (set_err v m) = selected m.
Proof. done. Qed.

Lemma layout_set_width v m : layout (set_width v m) = layout m.
Proof. done. Qed.

Lemma selected_set_width v m : selected (set_width v m) = selected m.
Proof. done. Qed.

Lemma layout_set_height v m : layout (set_height v m) = layout m.
Proof. done. Qed.

Lemma selected_set_height v m : selected (set_height v m) = selected m.
Proof. done. Qed.

Lemma layout_setStatus text m : layout (setStatus text m) = layout m.
Proof. unfold setStatus. cbv zeta. by case_dec. Qed.

Lemma selected_setStatus text m : selected (setStatus text m) = selected m.
Proof. unfold setStatus. cbv zeta. by case_dec. Qed.

Lemma layout_updateInput w msg m : layout (updateInput w msg m) = layout m.
Proof. unfold updateInput. by case_dec. Qed.

Create Rewrite HintDb layout_fields.

#[local] Hint Rewrite
  layout_set_config
  layout_set_day
  layout_set_questionIndex
  layout_set_disableJKNav
  layout_set_showHints
  layout_set_view
  layout_set_detail
  layout_set_deleteConfirm
  layout_set_confirmPrompt
  layout_set_showDeletePrompt
  layout_set_status
  layout_set_statusSeq
  layout_set_statusTimerCmd
  layout_set_err
  layout_set_width
  layout_set_height
  layout_setStatus
  layout_updateInput
  selected_set_config
  selected_set_day
  selected_set_log
  selected_set_questions
  selected_set_questionIndex
  selected_set_rows
  selected_set_listMode
  selected_set_disableJKNav
  selected_set_showHints
  selected_set_view
  selected_set_detail
  selected_set_deleteConfirm
  selected_set_confirmPrompt
  selected_set_showDeletePrompt
  selected_set_status
  selected_set_statusSeq
  selected_set_statusTimerCmd
  selected_set_err
  selected_set_width
  selected_set_height
  selected_setStatus
  : layout_fields.

Lemma wellFormed_layout m m' :
  layout m' = layout m → wellFormed m → wellFormed m'.
Proof.
  unfold layout. intros [= Hr Hq Hl Hlog Hs] [Hsync Hb]. split.
  - unfold rowsInSync, rowsOf, answersFor in *. by rewrite Hr, Hq, Hl, Hlog.
  - unfold inBounds in *. by rewrite Hr, Hs.
Qed.

Lemma wellFormed_nonneg m : wellFormed m → 0 ≤ selected m.
Proof. intros [_ [[_ ->]|?]]; lia. Qed.

Lemma wellFormed_refreshQuestions m :
  0 ≤ selected m → wellFormed (refreshQuestions m).
Proof.
  intros Hsel.
  destruct (refreshQuestions_fields m) as (_ & _ & _ & _ & _ & Hsync & Hs).
  split; [done|]. unfold inBounds. rewrite Hs. unfold clampSelected.
  assert (0 ≤ len (rows (refreshQuestions m))) by (unfold len; lia).
  repeat case_dec; [by left|right; lia|right; lia].
Qed.

Lemma wellFormed_select m idx :
  wellFormed m → 0 ≤ rowIndexForQuestion m idx →
  wellFormed (set_selected (rowIndexForQuestion m idx) m).
Proof.
  intros [Hsync Hb] Hrow.
  assert (Hidx : 0 ≤ idx < len (questions m)).
  { unfold rowIndexForQuestion in Hrow.
    destruct (decide (idx < 0 ∨ _)) as [|Hn]; [lia|]. lia. }
  destruct (lookup_lt_is_Some_2 (questions m) (Z.to_nat idx)) as [q Hq].
  { unfold len in Hidx. lia. }
  destruct (header_row m idx q Hsync (proj1 Hidx) Hq) as [Hrange _].
  generalize dependent (rowIndexForQuestion m idx). intros r _ Hrange.
  split; [exact Hsync|]. right. exact Hrange.
Qed.

Lemma wellFormed_moveSelection d m :
  wellFormed m → wellFormed (moveSelection d m).
Proof.
  intros [Hsync Hb]. unfold moveSelection. cbv zeta.
  destruct (decide (len (rows m) = 0)) as [E|E].
  - split; [exact Hsync|]. left. by split.
  - assert (0 ≤ len (rows m)) by (unfold len; lia).
    split; [exact Hsync|]. right.
    cbn [selected rows set_selected]. repeat case_dec; lia.
Qed.

Lemma wellFormed_jumpToIndex r m :
  wellFormed m → wellFormed (jumpToIndex r m).2.
Proof.
  intros Hwf. unfold jumpToIndex. destruct (runeToIndex r); [|done].
  cbv zeta. repeat case_dec; try done. apply wellFormed_select; [done|lia].
Qed.

Lemma wellFormed_selectQuestionByName q m :
  wellFormed m → wellFormed (selectQuestionByName q m).
Proof.
  intros Hwf. unfold selectQuestionByName, selectQuestionByIndex.
  destruct (_ !! _); [|done]. cbv zeta. repeat case_dec; try done.
  by apply wellFormed_select.
Qed.

Lemma wellFormed_reselectQuestion q m :
  wellFormed m → wellFormed (reselectQuestion q m).
Proof.
  intros Hwf. unfold reselectQuestion. case_dec; [done|].
  destruct (_ !! _); [|done]. cbv zeta. case_dec; [|done].
  by apply wellFormed_select.
Qed.

Lemma wellFormed_toggleListMode m :
  wellFormed m → wellFormed (toggleListMode m).
Proof.
  intros Hwf. unfold toggleListMode. cbv zeta.
  apply wellFormed_reselectQuestion, wellFormed_refreshQuestions.
  by apply wellFormed_nonneg in Hwf.
Qed.

(** Close [wellFormed m'] from [Hwf : wellFormed m] when [m'] is [m] after
    updates that leave the layout alone. *)
Ltac wf_same :=
  match goal with
  | Hwf : wellFormed ?m |- wellFormed _ =>
      apply (wellFormed_layout m); [|exact Hwf];
      unfold clearDeletePrompt, set_detail_input, leaveDetail;
      autorewrite with layout_fields; reflexivity
  end.

(** Close [wellFormed (refreshQuestions m')] when [m'] has the selection of
    a well-formed [m]. *)
Ltac wf_refresh :=
  match goal with
  | Hwf : wellFormed ?m |- wellFormed (refreshQuestions _) =>
      apply wellFormed_refreshQuestions;
      unfold clearDeletePrompt, set_detail_input, set_answers;
      autorewrite with layout_fields;
      first [ by apply wellFormed_nonneg | done ]
  end.

Section SavesSucceed.

Variable w : World.
Hypothesis Hsave : ∀ d l, SaveDayLog w d l = None.

Lemma wellFormed_performDeleteEntry q idx m :
  wellFormed m → wellFormed (performDeleteEntry w q idx m).1.
Proof.
  intros Hwf. unfold performDeleteEntry. cbv zeta.
  case_dec; [cbn [fst]; wf_same|].
  rewrite Hsave. cbn [fst].
  case_dec; apply wellFormed_selectQuestionByName; wf_refresh.
Qed.

Lemma wellFormed_initiateEntryDelete q idx m :
  wellFormed m → wellFormed (initiateEntryDelete w q idx m).1.
Proof.
  intros Hwf. unfold initiateEntryDelete. cbv zeta.
  case_dec; [cbn [fst]; wf_same|].
  destruct (confirmDelete m); [cbn [fst]; wf_same|].
  by apply wellFormed_performDeleteEntry.
Qed.

Lemma wellFormed_handleDeleteEntryRequest m :
  wellFormed m → wellFormed (handleDeleteEntryRequest w m).1.
Proof.
  intros Hwf. unfold handleDeleteEntryRequest.
  destruct (negb (listMode m)); [cbn [fst]; wf_same|].
  destruct (currentRow m); [|cbn [fst]; wf_same].
  case_dec; [by apply wellFormed_initiateEntryDelete|cbn [fst]; wf_same].
Qed.

Lemma wellFormed_handleDeleteConfirmationKey key m :
  wellFormed m → wellFormed (handleDeleteConfirmationKey w key m).1.2.
Proof.
  intros Hwf. unfold handleDeleteConfirmationKey. cbv zeta.
  destruct (deleteConfirm m) as [p|]; [|done].
  case_dec; [|case_dec; cbn [fst snd]; wf_same].
  assert (Hwf' : wellFormed (clearDeletePrompt (set_deleteConfirm None m)))
    by wf_same.
  pose proof (wellFormed_performDeleteEntry (confirm_question p)
                (confirm_entryIndex p) _ Hwf') as H.
  by destruct (performDeleteEntry _ _ _ _).
Qed.

Lemma wellFormed_openDayJSON m :
  wellFormed m → wellFormed (openDayJSON w m).1.2.
Proof.
  intros Hwf. unfold openDayJSON. cbv zeta. rewrite Hsave.
  destruct (DayFilePath _ _); cbn [fst snd]; wf_same.
Qed.

Lemma wellFormed_startEditing m : wellFormed m → wellFormed (startEditing m).
Proof. intros Hwf. unfold startEditing. cbv zeta. wf_same. Qed.

Lemma wellFormed_openDetail q start m :
  wellFormed m → wellFormed (openDetail q start m).
Proof.
  intros Hwf. unfold openDetail. cbv zeta. destruct start; [|wf_same].
  apply wellFormed_startEditing. wf_same.
Qed.

Lemma wellFormed_saveInlineEntry m :
  wellFormed m → wellFormed (saveInlineEntry w m).1.
Proof.
  intros Hwf. unfold saveInlineEntry. cbv zeta.
  case_dec; [cbn [fst]; wf_same|]. rewrite Hsave. cbn [fst]. wf_refresh.
Qed.

Lemma wellFormed_applyQuestionEdit q resps m :
  wellFormed m → wellFormed (applyQuestionEdit w q resps m).1.
Proof.
  intros Hwf. unfold applyQuestionEdit. cbv zeta. rewrite Hsave. cbn [fst].
  case_dec; wf_refresh.
Qed.

Lemma wellFormed_applySingleEntryEdit q idx resps m :
  wellFormed m → wellFormed (applySingleEntryEdit w q idx resps m).1.
Proof.
  intros Hwf. unfold applySingleEntryEdit. cbv zeta.
  case_dec; [done|]. rewrite Hsave. cbn [fst]. case_dec; wf_refresh.
Qed.

Lemma wellFormed_handleEditorResult r m :
  wellFormed m → wellFormed (handleEditorResult w r m).1.
Proof.
  intros Hwf. unfold handleEditorResult.
  destruct (msg_err r); [cbn [fst]; wf_same|].
  destruct (negb (changed r)); [cbn [fst]; wf_same|].
  case_dec; [by apply wellFormed_applySingleEntryEdit
            |by apply wellFormed_applyQuestionEdit].
Qed.

Lemma wellFormed_refreshCurrentDayFromDisk m :
  wellFormed m → wellFormed (refreshCurrentDayFromDisk w m).
Proof.
  intros Hwf. unfold refreshCurrentDayFromDisk.
  destruct (LoadDayLog _ _); [wf_refresh|wf_same].
Qed.

Lemma wellFormed_handleExternalOpenResult k e m :
  wellFormed m → wellFormed (handleExternalOpenResult w k e m).
Proof.
  intros Hwf. unfold handleExternalOpenResult. cbv zeta.
  destruct e; [wf_same|]. destruct k; [|wf_same].
  assert (Hwf' : wellFormed (set_err None m)) by wf_same.
  apply wellFormed_refreshCurrentDayFromDisk in Hwf'.
  revert Hwf'. generalize (refreshCurrentDayFromDisk w (set_err None m)).
  intros m' Hwf'. wf_same.
Qed.

Lemma wellFormed_toggleHints m :
  wellFormed m → wellFormed (toggleHints w m).1.
Proof.
  intros Hwf. unfold toggleHints. cbv zeta.
  destruct (SaveConfig _ _); [cbn [fst]; wf_same|].
  cbn [showHints set_err set_config set_showHints].
  destruct (negb (showHints m)); cbn [fst]; wf_same.
Qed.

Lemma wellFormed_reloadDay m m0 :
  layout m = layout m0 → wellFormed m0 → wellFormed (reloadDay w m).
Proof.
  intros Hl Hwf0. assert (Hwf : wellFormed m) by (by apply (wellFormed_layout m0)).
  clear Hwf0 Hl. unfold reloadDay. cbv zeta.
  destruct (LoadDayLog _ _); [|wf_same].
  set (X := refreshQuestions _).
  assert (HX : wellFormed X).
  { apply wellFormed_refreshQuestions. unfold set_detail_input. done. }
  clearbody X. clear Hwf. wf_same.
Qed.

Lemma wellFormed_changeDay d m : wellFormed m → wellFormed (changeDay w d m).
Proof. intros Hwf. unfold changeDay. by apply (wellFormed_reloadDay _ m). Qed.

Lemma wellFormed_goToToday m : wellFormed m → wellFormed (goToToday w m).
Proof.
  intros Hwf. unfold goToToday. case_dec; [done|].
  by apply (wellFormed_reloadDay _ m).
Qed.

Lemma wellFormed_activateSelection m :
  wellFormed m → wellFormed (activateSelection m).2.
Proof.
  intros Hwf. unfold activateSelection. destruct (currentRow m); [|done].
  case_dec; [done|]. by apply wellFormed_openDetail.
Qed.

Lemma wellFormed_handleDetailKey key m :
  wellFormed m → wellFormed (handleDetailKey w key m).1.2.
Proof.
  intros Hwf. unfold handleDetailKey. cbv zeta.
  repeat case_dec; destruct (editing (detail m)); cbn [fst snd];
    try done; try wf_same; try (by apply wellFormed_startEditing).
  rewrite let_pair_1. by apply wellFormed_saveInlineEntry.
Qed.

Lemma wellFormed_handleListKey key m :
  wellFormed m → wellFormed (handleListKey w key m).1.2.
Proof.
  intros Hwf. unfold handleListKey.
  repeat (destruct (decide (key = _)) as [_|_]).
  - by apply wellFormed_moveSelection.
  - by apply wellFormed_moveSelection.
  - destruct (disableJKNav m);
      [by apply wellFormed_jumpToIndex|by apply wellFormed_moveSelection].
  - destruct (disableJKNav m);
      [by apply wellFormed_jumpToIndex|by apply wellFormed_moveSelection].
  - pose proof (wellFormed_activateSelection m Hwf) as H.
    by destruct (activateSelection m).
  - destruct (currentRow m); [by apply wellFormed_openDetail|done].
  - destruct (currentRow m); [case_dec|]; done.
  - rewrite let_pair_1. by apply wellFormed_handleDeleteEntryRequest.
  - by apply wellFormed_toggleListMode.
  - by apply wellFormed_openDayJSON.
  - destruct key as [|r [|]]; try done. case_dec; [done|].
    pose proof (wellFormed_jumpToIndex (ToLower r) m Hwf) as Hj.
    destruct (jumpToIndex (ToLower r) m) as [ok m']. cbn [fst snd] in Hj.
    destruct (ok && autoOpenIndex m'); [|done].
    pose proof (wellFormed_activateSelection m' Hj) as H.
    by destruct (activateSelection m').
Qed.

Lemma wellFormed_viewHandling key m :
  wellFormed m → wellFormed (viewHandling w key m).1.2.
Proof.
  intros Hwf. unfold viewHandling.
  destruct (view m);
    [by apply wellFormed_handleListKey|by apply wellFormed_handleDetailKey].
Qed.

Lemma wellFormed_handleKey key m :
  wellFormed m → wellFormed (handleKey w key m).1.2.
Proof.
  intros Hwf. unfold handleKey.
  destruct (decide (view m = viewDetail ∧ _)).
  { case_dec; [done|by apply wellFormed_viewHandling]. }
  destruct (decide (key = "ctrl+c" ∨ _)); [done|].
  set (pending := if decide (view m = viewList ∧ deleteConfirm m ≠ None)
                  then handleDeleteConfirmationKey w key m else (false, m, [])).
  assert (Hp : wellFormed pending.1.2).
  { unfold pending. case_dec;
      [by apply wellFormed_handleDeleteConfirmationKey|done]. }
  destruct pending as [[consumed m'] io]. cbn [fst snd] in Hp.
  destruct consumed; [done|]. clear Hwf.
  repeat case_dec; cbn [fst snd]; try done.
  - pose proof (wellFormed_toggleHints m' Hp) as H.
    by destruct (toggleHints w m').
  - wf_same.
  - by apply wellFormed_changeDay.
  - by apply wellFormed_changeDay.
  - by apply wellFormed_goToToday.
  - pose proof (wellFormed_viewHandling key m' Hp) as H.
    by destruct (viewHandling w key m') as [[c m''] io'].
Qed.

Lemma wellFormed_dispatch msg m :
  wellFormed m → wellFormed (dispatch w msg m).1.2.
Proof.
  intros Hwf. destruct msg; cbn [dispatch].
  - cbn [fst snd]. wf_same.
  - pose proof (wellFormed_handleKey key m Hwf) as H.
    by destruct (handleKey w key m) as [[c m'] io].
  - pose proof (wellFormed_handleEditorResult r m Hwf) as H.
    by destruct (handleEditorResult w r m).
  - case_dec; cbn [fst snd]; [wf_same|done].
  - by apply wellFormed_handleExternalOpenResult.
  - done.
Qed.

(** While every write to storage succeeds, a transition keeps the rows in
    step with the record and the selection within the rows. *)
Lemma wellFormed_Update msg m :
  wellFormed m → wellFormed (Update w msg m).1.1.
Proof.
  intros Hwf. unfold Update.
  assert (Hwf1 : wellFormed (updateInput w msg m)) by wf_same.
  apply (wellFormed_dispatch msg) in Hwf1.
  revert Hwf1. generalize (dispatch w msg (updateInput w msg m)).
  intros r Hr. unfold flushTimer.
  destruct (statusTimerCmd r.1.2); cbn [fst snd]; [wf_same|done].
Qed.

End SavesSucceed.

Lemma wellFormed_newModel w cfg m : newModel w cfg = inl m → wellFormed m.
Proof.
  unfold newModel. destruct (LoadDayLog _ _); [|done]. intros [= <-].
  by apply wellFormed_refreshQuestions.
Qed.

(** A session in which no write to storage fails keeps the selection within
    the bounds of the rows from start to end. *)
Lemma selection_in_bounds_while_saves_succeed events m :
  Forall (fun e => ∀ d l, SaveDayLog e.1 d l = None) events →
  wellFormed m → inBounds (run events m).
Proof.
  intros Hev Hwf. enough (wellFormed (run events m)) as [_ ?] by done.
  revert m Hwf. induction Hev as [|[w msg] events Hw _ IH]; intros m Hwf;
    [done|].
  cbn [run]. apply IH. by apply wellFormed_Update.
Qed.

(** *** The selection after a failed write *)


(** C10 at its failing input.  After an inline entry whose write to storage
    failed, the record has the new entry but the rows were not rebuilt; the
    jump to the second question computes its row from the record and stores
    an index equal to the number of rows: the selection is out of bounds and
    no row is current. *)
Theorem C10_selection_out_of_bounds :
  view Examples.staleJump = viewList
  ∧ Answers (log Examples.staleJump) !! "Q1"
    = Some [Examples.entry (Examples.clock 0) "x"]
  ∧ rows Examples.staleJump = [header "Q1"; header "Q2"]
  ∧ selected Examples.staleJump = 2
  ∧ ¬ inBounds Examples.staleJump
  ∧ currentRow Examples.staleJump = None.
Proof.
  assert (H : view Examples.staleJump = viewList
    ∧ Answers (log Examples.staleJump) !! "Q1"
      = Some [Examples.entry (Examples.clock 0) "x"]
    ∧ rows Examples.staleJump = [header "Q1"; header "Q2"]
    ∧ selected Examples.staleJump = 2
    ∧ currentRow Examples.staleJump = None)
    by (vm_compute; split_and!; reflexivity).
  destruct H as (H1 & H2 & H3 & H4 & H5).
  split; [exact H1|]. split; [exact H2|]. split; [exact H3|].
  split; [exact H4|]. split; [|exact H5].
  unfold inBounds. rewrite H3, H4. unfold len. cbn [length]. lia.
Qed.

(** * Further properties of the code *)

Import Cli Notions.

(** ** The question list *)

(** X1.  The question list of a day is the configured questions, in their
    configured order, followed by the record's other questions that have at
    least one entry: each of those once, in ascending byte order.  A key of
    the record whose entry sequence is empty is not listed. *)
Theorem X1_mergeQuestions_order (base : list string) (l : DayLog) :
  ∃ extras,
    mergeQuestions base l = base ++ extras
    ∧ StronglySorted String.le extras
    ∧ NoDup extras
    ∧ ∀ q, q ∈ extras
           ↔ (q ∉ base) ∧ ∃ es, Answers l !! q = Some es ∧ es ≠ [].
Proof.
  unfold mergeQuestions. eexists. split; [reflexivity|].
  split; [apply StronglySorted_merge_sort; apply _|].
  split.
  - rewrite merge_sort_Permutation. apply NoDup_filter.
    eapply sublist_NoDup; [apply (NoDup_fst_map_to_list (Answers l))|].
    apply fmap_sublist, sublist_filter.
  - intros q. rewrite merge_sort_Permutation, list_elem_of_filter.
    rewrite list_elem_of_fmap. split.
    + intros [Hq ([k es] & -> & [Hne Hin%elem_of_map_to_list]%list_elem_of_filter)].
      split; [done|]. by exists es.
    + intros [Hq (es & Hes & Hne)]. split; [done|].
      exists (q, es). split; [done|]. apply list_elem_of_filter.
      split; [done|]. by apply elem_of_map_to_list.
Qed.

(** ** Rows *)

Lemma rowsOf_elem m q row :
  row ∈ rowsOf m q
  ↔ question row = q
    ∧ ((kind row = rowQuestion ∧ entryIndex row = 0)
       ∨ (kind row = rowEntry ∧ listMode m = true
          ∧ 0 ≤ entryIndex row < len (answersFor m q))).
Proof.
  unfold rowsOf. rewrite elem_of_cons. split.
  - intros [->|Hin]; [cbn; by eauto|].
    destruct (listMode m); [|by apply elem_of_nil in Hin].
    apply elem_of_lookup_imap in Hin as (i & a & -> & Hi). cbn.
    apply lookup_lt_Some in Hi. unfold len. split; [done|]. right.
    split_and!; [done|done|lia|lia].
  - destruct row as [k q' i]. cbn. intros [-> [[-> ->]|(-> & Hl & Hi)]];
      [by left|right].
    rewrite Hl. apply elem_of_lookup_imap.
    destruct (lookup_lt_is_Some_2 (answersFor m q) (Z.to_nat i)) as [a Ha];
      [unfold len in Hi; lia|].
    exists (Z.to_nat i), a. split; [|done]. f_equal. lia.
Qed.

Lemma rows_elem m row :
  rowsInSync m →
  row ∈ rows m
  ↔ question row ∈ questions m
    ∧ ((kind row = rowQuestion ∧ entryIndex row = 0)
       ∨ (kind row = rowEntry ∧ listMode m = true
          ∧ 0 ≤ entryIndex row < len (answersFor m (question row)))).
Proof.
  intros Hsync. rewrite (rows_concat m Hsync), list_elem_of_In, in_concat.
  split.
  - intros (rs & (q & <- & Hq%list_elem_of_In)%in_map_iff
                & Hrow%list_elem_of_In).
    apply rowsOf_elem in Hrow as [<- Hrow]. done.
  - intros [Hq Hrow]. exists (rowsOf m (question row)). split.
    + apply in_map. by apply list_elem_of_In.
    + by apply list_elem_of_In, rowsOf_elem.
Qed.

(** X2.  After the rows have been rebuilt they refer to the record and to
    nothing else: a row is listed exactly when its question is in the
    question list and it is either the header of that question or, in list
    mode only, the row of one of the question's existing entries. *)
Theorem X2_rows_mirror_record (m : model) (row : listRow) :
  let m' := refreshQuestions m in
  row ∈ rows m'
  ↔ question row ∈ mergeQuestions (cfgQuestions m) (log m)
    ∧ ((kind row = rowQuestion ∧ entryIndex row = 0)
       ∨ (kind row = rowEntry ∧ listMode m = true
          ∧ 0 ≤ entryIndex row < len (answersFor m (question row)))).
Proof.
  intros m'.
  destruct (refreshQuestions_fields m) as (_ & Hlog & Hmode & Hqs & _ & Hsync & _).
  fold m' in Hlog, Hmode, Hqs, Hsync.
  rewrite (rows_elem m' row Hsync), Hqs, Hmode.
  by rewrite (answersFor_log m' m (question row) Hlog).
Qed.

(** ** Index jumps *)

Lemma runeIndexFrom_spec (cs : list ascii) (r : ascii) :
  NoDup cs →
  ∀ i j, runeIndexFrom i cs r = Some j
         ↔ i ≤ j ∧ cs !! Z.to_nat (j - i) = Some r.
Proof.
  induction 1 as [|c cs Hc _ IH]; intros i j; cbn [runeIndexFrom].
  { split; [done|]. by intros [_ ?]. }
  case_dec.
  - subst c. split.
    + intros [= <-]. split; [lia|]. by replace (Z.to_nat (i - i)) with O by lia.
    + intros [Hij Hl]. f_equal.
      destruct (Z.to_nat (j - i)) as [|n] eqn:E; [lia|].
      cbn in Hl. by apply list_elem_of_lookup_2 in Hl.
  - rewrite IH. split.
    + intros [Hij Hl]. split; [lia|].
      by replace (Z.to_nat (j - i)) with (S (Z.to_nat (j - (i + 1)))) by lia.
    + intros [Hij Hl].
      destruct (Z.to_nat (j - i)) as [|k] eqn:E; [cbn in Hl; congruence|].
      split; [lia|]. cbn in Hl.
      by replace (Z.to_nat (j - (i + 1))) with k by lia.
Qed.

Lemma indexRunes_NoDup : NoDup indexRunes.
Proof. apply (bool_decide_unpack _). vm_compute. exact I. Qed.

Lemma runeToIndex_lookup (r : ascii) (idx : Z) :
  runeToIndex r = Some idx
  ↔ 0 ≤ idx ∧ indexRunes !! Z.to_nat idx = Some r.
Proof.
  unfold runeToIndex. rewrite (runeIndexFrom_spec _ _ indexRunes_NoDup).
  by rewrite Z.sub_0_r.
Qed.

(** X3.  The key decoder [runeToIndex] and the label list [indexRunes] are
    inverse to one another: a rune decodes to the position [idx] exactly
    when it is the label at position [idx]; there are 36 labels, so a
    decoded position is between 0 and 35. *)
Theorem X3_runeToIndex_labels (r : ascii) (idx : Z) :
  runeToIndex r = Some idx
  ↔ 0 ≤ idx < 36 ∧ indexRunes !! Z.to_nat idx = Some r.
Proof.
  rewrite runeToIndex_lookup. split; [|by intros [[? _] ?]].
  intros [H0 Hl]. split; [|done]. split; [done|].
  apply lookup_lt_Some in Hl. change (length indexRunes) with 36%nat in Hl. lia.
Qed.

Lemma jumpToIndex_label (m : model) (r : ascii) (i : nat) (q : string) :
  rowsInSync m → indexRunes !! i = Some r → questions m !! i = Some q →
  (jumpToIndex r m).1 = true
  ∧ currentRow (jumpToIndex r m).2 = Some (header q)
  ∧ layout (jumpToIndex r m).2
    = (rows m, questions m, listMode m, log m,
       rowIndexForQuestion m (Z.of_nat i)).
Proof.
  intros Hsync Hr Hq.
  assert (Hidx : runeToIndex r = Some (Z.of_nat i)).
  { apply runeToIndex_lookup. split; [lia|]. by rewrite Nat2Z.id. }
  rewrite (jumpToIndex_spec r (Z.of_nat i) m Hidx) by lia.
  pose proof (lookup_lt_Some _ _ _ Hq) as Hlt.
  destruct (decide (Z.of_nat i < len (questions m))) as [_|Hn];
    [|unfold len in Hn; lia].
  cbn [fst snd].
  destruct (header_row m (Z.of_nat i) q Hsync) as [Hrange Hrow];
    [lia|by rewrite Nat2Z.id|].
  split; [done|]. split; [|done].
  rewrite currentRow_in_range; [done|done].
Qed.

Lemma jumpToIndex_no_label (m : model) (r : ascii) :
  (∀ i, indexRunes !! i = Some r → (length (questions m) ≤ i)%nat) →
  jumpToIndex r m = (false, m).
Proof.
  intros Hno. unfold jumpToIndex.
  destruct (runeToIndex r) as [idx|] eqn:E; [|done].
  apply runeToIndex_lookup in E as [H0 Hl]. apply Hno in Hl.
  rewrite decide_True; [done|]. right. unfold len. lia.
Qed.

(** X4.  A jump by label.  When the rows mirror the record, the label of a
    listed question selects the header row of that question and changes
    nothing else of the layout; a rune that is not the label of a listed
    question leaves the model as it is. *)
Theorem X4_jump_by_label (m : model) (r : ascii) :
  rowsInSync m →
  (∀ i q, indexRunes !! i = Some r → questions m !! i = Some q →
     (jumpToIndex r m).1 = true
     ∧ currentRow (jumpToIndex r m).2 = Some (header q)
     ∧ rows (jumpToIndex r m).2 = rows m
     ∧ log (jumpToIndex r m).2 = log m)
  ∧ ((∀ i, indexRunes !! i = Some r → (length (questions m) ≤ i)%nat) →
     jumpToIndex r m = (false, m)).
Proof.
  intros Hsync. split; [|apply jumpToIndex_no_label].
  intros i q Hr Hq.
  destruct (jumpToIndex_label m r i q Hsync Hr Hq) as (H1 & H2 & H3).
  split; [done|]. split; [done|]. unfold layout in H3. by simplify_eq.
Qed.

Lemma X4_jump_by_label_witness :
  rowsInSync Examples.manySession
  ∧ indexRunes !! 12%nat = Some "c"%char
  ∧ questions Examples.manySession !! 12%nat = Some "q12"
  ∧ currentRow (jumpToIndex "c" Examples.manySession).2 = Some (header "q12").
Proof.
  assert (Hsync : rowsInSync Examples.manySession)
    by (vm_compute; reflexivity).
  assert (Hr : indexRunes !! 12%nat = Some "c"%char) by reflexivity.
  assert (Hq : questions Examples.manySession !! 12%nat = Some "q12")
    by (vm_compute; reflexivity).
  split; [exact Hsync|]. split; [exact Hr|]. split; [exact Hq|].
  exact (proj1 (proj2
    (proj1 (X4_jump_by_label Examples.manySession "c" Hsync) 12%nat "q12"
       Hr Hq))).
Defined.

Lemma view_flushTimer r : view (flushTimer r).1.1 = view r.1.2.
Proof. unfold flushTimer. by destruct (statusTimerCmd _). Qed.

Lemma detail_flushTimer r : detail (flushTimer r).1.1 = detail r.1.2.
Proof. unfold flushTimer. by destruct (statusTimerCmd _). Qed.

Lemma layout_flushTimer r : layout (flushTimer r).1.1 = layout r.1.2.
Proof. unfold flushTimer. by destruct (statusTimerCmd _). Qed.

Lemma openDetail_fields q start m :
  view (openDetail q start m) = viewDetail
  ∧ detail_question (detail (openDetail q start m)) = q
  ∧ editing (detail (openDetail q start m)) = start
  ∧ layout (openDetail q start m) = layout m.
Proof.
  unfold openDetail, startEditing, setStatus. cbv zeta.
  destruct start; [case_dec|]; done.
Qed.

Lemma currentRow_layout m m' :
  layout m' = layout m → currentRow m' = currentRow m.
Proof. unfold layout, currentRow. intros [= -> _ _ _ ->]. done. Qed.

(** X5.  A label typed in the list view.  Assume that the rows mirror the
    record ([rowsInSync]), that no confirmation is pending, and that the key
    is one byte, none of q h ? space j k i e d l o, with a lower-case form
    that is neither j nor k and is the label of a listed question.  Then the
    key never touches the record or storage.  With [autoOpenIndex] off the
    list view stays and the header row of that question is the current row;
    with [autoOpenIndex] on the detail view of that question opens, with the
    inline editor started exactly when [autoInsert] is set. *)
Theorem X5_label_key (w : World) (m : model) (r0 : ascii) (i : nat)
  (q : string) :
  view m = viewList → deleteConfirm m = None → rowsInSync m →
  String r0 EmptyString
    ∉ ["q"; "h"; "?"; " "; "j"; "k"; "i"; "e"; "d"; "l"; "o"] →
  ToLower r0 ≠ "j"%char → ToLower r0 ≠ "k"%char →
  indexRunes !! i = Some (ToLower r0) → questions m !! i = Some q →
  let r := Update w (KeyMsg (String r0 EmptyString)) m in
  log r.1.1 = log m ∧ r.2 = []
  ∧ (autoOpenIndex m = false →
       view r.1.1 = viewList ∧ currentRow r.1.1 = Some (header q))
  ∧ (autoOpenIndex m = true →
       view r.1.1 = viewDetail
       ∧ detail_question (detail r.1.1) = q
       ∧ editing (detail r.1.1) = autoInsert m).
Proof.
  intros Hview Hno Hsync Hkey Hj Hk Hr Hq r.
  assert (Hlist : handleKey w (String r0 EmptyString) m
                  = handleListKey w (String r0 EmptyString) m).
  { apply handleKey_list; [done|done|].
    rewrite !not_elem_of_cons in Hkey.
    destruct Hkey as (Hkq & Hkh & Hkm & Hks & _).
    rewrite !not_elem_of_cons.
    split_and!; first [assumption | discriminate | apply not_elem_of_nil]. }
  destruct (jumpToIndex_label m (ToLower r0) i q Hsync Hr Hq)
    as (Hok & Hrow & Hlay).
  assert (Hh : handleListKey w (String r0 EmptyString) m
               = if autoOpenIndex (jumpToIndex (ToLower r0) m).2
                 then (None, openDetail q (autoInsert (jumpToIndex (ToLower r0) m).2)
                               (jumpToIndex (ToLower r0) m).2, [])
                 else (None, (jumpToIndex (ToLower r0) m).2, [])).
  { unfold handleListKey.
    rewrite !not_elem_of_cons in Hkey.
    destruct Hkey as (? & ? & ? & ? & ? & ? & ? & ? & ? & ? & ? & _).
    repeat (rewrite decide_False; [|first [assumption | discriminate]]).
    rewrite decide_False by (by intros [[?|?] _]).
    destruct (jumpToIndex (ToLower r0) m) as [ok m'] eqn:E.
    cbn [fst snd] in Hok, Hrow |- *. subst ok. cbn [andb].
    destruct (autoOpenIndex m'); [|done].
    unfold activateSelection. rewrite Hrow. done. }
  unfold r. rewrite Update_KeyMsg, (updateInput_list _ _ _ Hview), Hlist, Hh.
  rewrite log_flushTimer, io_flushTimer, view_flushTimer, detail_flushTimer.
  rewrite (currentRow_layout _ _ (layout_flushTimer _)).
  set (m' := (jumpToIndex (ToLower r0) m).2) in *.
  assert (Hm' : autoOpenIndex m' = autoOpenIndex m ∧ autoInsert m' = autoInsert m
                ∧ view m' = view m ∧ log m' = log m).
  { unfold m', jumpToIndex. destruct (runeToIndex _); [|done].
    repeat case_dec; done. }
  destruct Hm' as (Ha & Hi & Hv & Hl).
  destruct (openDetail_fields q (autoInsert m') m') as (Hd1 & Hd2 & Hd3 & Hd4).
  rewrite Ha. destruct (autoOpenIndex m) eqn:Ea; cbn [fst snd].
  - split; [|split; [done|split; [done|]]].
    + unfold layout in Hd4. simplify_eq. congruence.
    + intros _. by rewrite Hd1, Hd2, Hd3, Hi.
  - split; [done|]. split; [done|]. split; [|done].
    intros _. by rewrite Hv, Hview.
Qed.

Lemma X5_label_key_witness :
  view Examples.manySession = viewList
  ∧ deleteConfirm Examples.manySession = None
  ∧ questions Examples.manySession !! 5%nat = Some "q05"
  ∧ autoOpenIndex Examples.manySession = true
  ∧ view (Update Examples.emptyWorld (KeyMsg "5") Examples.manySession).1.1
    = viewDetail
  ∧ detail_question
      (detail (Update Examples.emptyWorld (KeyMsg "5")
                 Examples.manySession).1.1) = "q05".
Proof.
  assert (H1 : view Examples.manySession = viewList)
    by (vm_compute; reflexivity).
  assert (H2 : deleteConfirm Examples.manySession = None)
    by (vm_compute; reflexivity).
  assert (H3 : rowsInSync Examples.manySession) by (vm_compute; reflexivity).
  assert (H4 : String "5" EmptyString
               ∉ ["q"; "h"; "?"; " "; "j"; "k"; "i"; "e"; "d"; "l"; "o"])
    by (apply (bool_decide_unpack _); vm_compute; exact I).
  assert (H5 : ToLower "5" ≠ "j"%char) by (vm_compute; discriminate).
  assert (H6 : ToLower "5" ≠ "k"%char) by (vm_compute; discriminate).
  assert (H7 : indexRunes !! 5%nat = Some (ToLower "5")) by reflexivity.
  assert (H8 : questions Examples.manySession !! 5%nat = Some "q05")
    by (vm_compute; reflexivity).
  assert (H9 : autoOpenIndex Examples.manySession = true)
    by (vm_compute; reflexivity).
  destruct (X5_label_key Examples.emptyWorld Examples.manySession "5" 5%nat
              "q05" H1 H2 H3 H4 H5 H6 H7 H8) as (_ & _ & _ & Hopen).
  destruct (Hopen H9) as (Hv & Hq & _).
  split; [exact H1|]. split; [exact H2|]. split; [exact H8|].
  split; [exact H9|]. split; [exact Hv|exact Hq].
Defined.

(** ** The session as a whole *)

Lemma wellFormed_run events m :
  Forall (fun e => ∀ d l, SaveDayLog e.1 d l = None) events →
  wellFormed m → wellFormed (run events m).
Proof.
  intros Hev. revert m.
  induction Hev as [|[w msg] events Hw _ IH]; intros m Hwf; [done|].
  cbn [run]. apply IH. by apply wellFormed_Update.
Qed.

(** X6.  A session started by [newModel] in which no write to storage fails
    keeps, after every message, the rows in step with the record and the
    selection on a row: the current row exists whenever there is a row. *)
Theorem X6_session_stays_well_formed (w0 : World) (cfg : Config) (m : model)
  (events : list (World * Msg)) :
  newModel w0 cfg = inl m →
  Forall (fun e => ∀ d l, SaveDayLog e.1 d l = None) events →
  rowsInSync (run events m)
  ∧ inBounds (run events m)
  ∧ (rows (run events m) ≠ [] → is_Some (currentRow (run events m))).
Proof.
  intros Hnew Hev.
  destruct (wellFormed_run events m Hev (wellFormed_newModel _ _ _ Hnew))
    as [Hsync Hin].
  split; [done|]. split; [done|]. intros Hrows.
  destruct Hin as [[H0 _]|Hrange]; [by apply len_0 in H0|].
  rewrite currentRow_in_range by done.
  apply lookup_lt_is_Some. unfold len in Hrange. lia.
Qed.

Lemma X6_session_stays_well_formed_witness :
  newModel Examples.soleWorld (Examples.cfg ["Q1"; "Q2"] true true)
  = inl Examples.soleSession
  ∧ inBounds (run [(Examples.soleWorld, KeyMsg "down");
                   (Examples.soleWorld, KeyMsg "d");
                   (Examples.soleWorld, KeyMsg "y")] Examples.soleSession).
Proof.
  assert (Hnew : newModel Examples.soleWorld
                   (Examples.cfg ["Q1"; "Q2"] true true)
                 = inl Examples.soleSession) by apply session_is_newModel.
  split; [exact Hnew|].
  refine (proj1 (proj2 (X6_session_stays_well_formed _ _ _ _ Hnew _))).
  repeat constructor.
Defined.

(** ** Inline entries *)

Lemma Update_enter_editing w m :
  view m = viewDetail → editing (detail m) = true →
  Update w (KeyMsg "enter") m
  = flushTimer
      ([], (saveInlineEntry w (updateInput w (KeyMsg "enter") m)).1,
       (saveInlineEntry w (updateInput w (KeyMsg "enter") m)).2).
Proof.
  intros Hv He. rewrite Update_KeyMsg.
  set (m1 := updateInput w (KeyMsg "enter") m).
  assert (H1 : view m1 = viewDetail ∧ editing (detail m1) = true).
  { unfold m1, updateInput. by case_dec. }
  destruct H1 as [Hv1 He1].
  assert (Hh : handleKey w "enter" m1
               = (None, (saveInlineEntry w m1).1, (saveInlineEntry w m1).2)).
  { unfold handleKey. rewrite decide_True by done.
    rewrite decide_False by discriminate.
    unfold viewHandling. rewrite Hv1. unfold handleDetailKey.
    do 2 (rewrite decide_False by discriminate).
    rewrite decide_True by done. rewrite He1.
    by destruct (saveInlineEntry w m1). }
  by rewrite Hh.
Qed.

(** X7.  Enter in the inline editor.  The text is what the input holds once
    it has seen the key, trimmed.  If nothing is left, the record is not
    touched and nothing is written; otherwise exactly one entry, with the
    trimmed text and the current time, is appended after the entries of the
    open question, the other questions keep theirs, and the new record is
    handed to storage once. *)
Theorem X7_inline_entry (w : World) (m : model) :
  view m = viewDetail → editing (detail m) = true →
  let text :=
    TrimSpace (Value (inputUpdate w (input (detail m)) (KeyMsg "enter"))) in
  let q := detail_question (detail m) in
  let r := Update w (KeyMsg "enter") m in
  (text = EmptyString → log r.1.1 = log m ∧ r.2 = [])
  ∧ (text ≠ EmptyString →
       Answers (log r.1.1) !! q
       = Some (answersFor m q ++ [{| Time := Now w O; Response := text |}])
       ∧ (∀ q', q' ≠ q → Answers (log r.1.1) !! q' = Answers (log m) !! q')
       ∧ r.2 = [IOSaveDayLog (day m) (log r.1.1)]).
Proof.
  intros Hv He text q r. unfold r.
  rewrite (Update_enter_editing w m Hv He).
  rewrite log_flushTimer, io_flushTimer. cbn [fst snd].
  set (m1 := updateInput w (KeyMsg "enter") m).
  assert (H1 : Value (input (detail m1))
               = Value (inputUpdate w (input (detail m)) (KeyMsg "enter"))
               ∧ detail_question (detail m1) = q
               ∧ log m1 = log m ∧ day m1 = day m).
  { unfold m1, updateInput. by rewrite decide_True. }
  destruct H1 as (Hval & Hq1 & Hlog & Hday).
  split.
  - intros Htext. unfold saveInlineEntry. cbv zeta.
    rewrite Hval. fold text. rewrite decide_True by done. cbn [fst snd].
    by rewrite log_setStatus.
  - intros Htext.
    destruct (saveInlineEntry_spec w m1) as (Ha & _ & Hio);
      [by rewrite Hval|].
    rewrite Hval, Hq1, Hlog, (answersFor_log m1 m q Hlog) in Ha.
    rewrite Hday in Hio. fold text in Ha. rewrite Ha.
    split; [by rewrite lookup_insert_eq|].
    split; [|done]. intros q' Hq'. by rewrite lookup_insert_ne.
Qed.

Lemma X7_inline_entry_witness :
  view Scenes.typedX = viewDetail ∧ editing (detail Scenes.typedX) = true
  ∧ Answers (log (Update (Examples.failingWorld Examples.emptyLog)
                    (KeyMsg "enter") Scenes.typedX).1.1) !! "Q1"
    = Some [Examples.entry (Examples.clock 0) "x"].
Proof.
  assert (Hv : view Scenes.typedX = viewDetail) by (vm_compute; reflexivity).
  assert (He : editing (detail Scenes.typedX) = true)
    by (vm_compute; reflexivity).
  assert (Ht : TrimSpace
                 (Value (inputUpdate (Examples.failingWorld Examples.emptyLog)
                           (input (detail Scenes.typedX)) (KeyMsg "enter")))
               ≠ EmptyString) by (vm_compute; discriminate).
  split; [exact Hv|]. split; [exact He|].
  exact (proj1 (proj2 (X7_inline_entry
                         (Examples.failingWorld Examples.emptyLog)
                         Scenes.typedX Hv He)
                 Ht)).
Defined.

(** ** The editor buffer *)

Lemma list_ascii_of_string_app (s t : string) :
  list_ascii_of_string (String.append s t)
  = list_ascii_of_string s ++ list_ascii_of_string t.
Proof. induction s as [|c s IH]; [done|]. simpl. by f_equal. Qed.

Lemma TrimRight_LF_app_LF (s : string) :
  TrimRight_LF (String.append s (String LF EmptyString)) = TrimRight_LF s.
Proof.
  unfold TrimRight_LF, trim_right. rewrite list_ascii_of_string_app.
  cbn [list_ascii_of_string]. rewrite rev_app_distr. cbn [rev app map].
  unfold trim_left at 1. cbn [length trim_left_fuel strip_one strip_prefix].
  rewrite decide_True by done. done.
Qed.

Lemma ReplaceAll_CRLF_cons (c d : ascii) (rest : string) :
  ReplaceAll_CRLF (String c (String d rest))
  = if decide (c = CR ∧ d = LF) then String LF (ReplaceAll_CRLF rest)
    else String c (ReplaceAll_CRLF (String d rest)).
Proof. reflexivity. Qed.

Lemma ReplaceAll_CRLF_app_LF (n : nat) :
  ∀ s, (String.length s ≤ n)%nat → noFinalCR s →
       ReplaceAll_CRLF (String.append s (String LF EmptyString))
       = String.append (ReplaceAll_CRLF s) (String LF EmptyString).
Proof.
  induction n as [|n IH]; intros [|c [|d rest]] Hlen Hcr; cbn in Hlen;
    try lia; try done.
  - change (ReplaceAll_CRLF (String c (String LF EmptyString))
            = String c (String LF EmptyString)).
    cbn [ReplaceAll_CRLF].
    rewrite decide_False; [done|]. intros [-> _]. by apply Hcr.
  - change (String.append (String c (String d rest)) (String LF EmptyString))
      with (String c (String d (String.append rest (String LF EmptyString)))).
    rewrite (ReplaceAll_CRLF_cons c d rest),
      (ReplaceAll_CRLF_cons c d (String.append rest (String LF EmptyString))).
    case_dec.
    + change (String.append (String LF (ReplaceAll_CRLF rest))
                (String LF EmptyString))
        with (String LF (String.append (ReplaceAll_CRLF rest)
                           (String LF EmptyString))).
      f_equal. apply IH; [lia|].
      unfold noFinalCR in *. cbn [list_ascii_of_string] in Hcr.
      by destruct (list_ascii_of_string rest).
    + change (String.append (String c (ReplaceAll_CRLF (String d rest)))
                (String LF EmptyString))
        with (String c (String.append (ReplaceAll_CRLF (String d rest))
                          (String LF EmptyString))).
      f_equal.
      change (String d (String.append rest (String LF EmptyString)))
        with (String.append (String d rest) (String LF EmptyString)).
      apply IH; [cbn; lia|]. exact Hcr.
Qed.

Lemma normalizeEditorContent_app_LF (s : string) :
  noFinalCR s →
  normalizeEditorContent (String.append s (String LF EmptyString))
  = normalizeEditorContent s.
Proof.
  intros Hcr. unfold normalizeEditorContent.
  rewrite (ReplaceAll_CRLF_app_LF (String.length s)) by done.
  apply TrimRight_LF_app_LF.
Qed.

Lemma normalizeEditorContent_scratchFile (lines : list string) :
  noFinalCR (Join_LF lines) →
  normalizeEditorContent (scratchFile lines)
  = normalizeEditorContent (Join_LF lines).
Proof.
  intros Hcr. unfold scratchFile. case_dec; [by rewrite e|].
  by apply normalizeEditorContent_app_LF.
Qed.

(** X8.  Leaving the editor without touching the file is not an edit.  When
    the editor run does not fail and the scratch file is read back exactly
    as it was written, the result is marked unchanged, the record stays as
    it is and nothing is written, provided the text written does not end
    with a carriage return. *)
Theorem X8_untouched_file_is_no_edit (w : World) (m : model)
  (run : EditorRun) (q : string) (lines : list string) (idx : Z) :
  createTemp run = None → writeString run = None →
  buildEditorCommand run = None → execProcess run = None →
  readFile run = inl (scratchFile lines) →
  noFinalCR (Join_LF lines) →
  changed (editEntriesCmd run q lines idx) = false
  ∧ log (Update w (EditorResultMsg (editEntriesCmd run q lines idx)) m).1.1
    = log m
  ∧ (Update w (EditorResultMsg (editEntriesCmd run q lines idx)) m).2 = [].
Proof.
  intros H1 H2 H3 H4 H5 Hcr.
  pose proof (normalizeEditorContent_scratchFile lines Hcr) as Hsame.
  split.
  - unfold editEntriesCmd. cbv zeta. rewrite H1, H2, H3, H4, H5.
    repeat case_dec; done.
  - by apply (unchanged_buffer_is_no_edit w m run q lines idx
                (scratchFile lines)).
Qed.

Lemma X8_untouched_file_is_no_edit_witness :
  noFinalCR (Join_LF (responsesForQuestion Examples.abc))
  ∧ log (Update Examples.abcWorld
           (EditorResultMsg
              (editEntriesCmd
                 (Examples.edited
                    (scratchFile (responsesForQuestion Examples.abc)))
                 "Q1" (responsesForQuestion Examples.abc) (-1)))
           Examples.abcSession).1.1
    = log Examples.abcSession.
Proof.
  assert (Hcr : noFinalCR (Join_LF (responsesForQuestion Examples.abc)))
    by (vm_compute; discriminate).
  split; [exact Hcr|].
  exact (proj1 (proj2
    (X8_untouched_file_is_no_edit Examples.abcWorld Examples.abcSession
       (Examples.edited (scratchFile (responsesForQuestion Examples.abc)))
       "Q1" (responsesForQuestion Examples.abc) (-1)
       eq_refl eq_refl eq_refl eq_refl eq_refl Hcr))).
Defined.

(** X9.  A single-entry edit that changes the text replaces the text of
    that entry by the whole normalised buffer: the entry keeps its timestamp
    and its position, the other entries of the question and the other
    questions are untouched, and the new record is handed to storage
    once. *)
Theorem X9_single_entry_edit (w : World) (m : model) (q : string) (idx : Z)
  (orig : Answer) (run : EditorRun) (data : string) :
  0 ≤ idx → answersFor m q !! Z.to_nat idx = Some orig →
  createTemp run = None → writeString run = None →
  buildEditorCommand run = None → execProcess run = None →
  readFile run = inl data →
  normalizeEditorContent data
  ≠ normalizeEditorContent (Join_LF [Response orig]) →
  let r := Update w (EditorResultMsg
                       (editEntriesCmd run q [Response orig] idx)) m in
  Answers (log r.1.1) !! q
  = Some (<[Z.to_nat idx :=
             {| Time := Time orig; Response := normalizeEditorContent data |}]>
            (answersFor m q))
  ∧ (∀ q', q' ≠ q → Answers (log r.1.1) !! q' = Answers (log m) !! q')
  ∧ r.2 = [IOSaveDayLog (day m) (log r.1.1)].
Proof.
  intros Hidx Horig Hc Hw Hb He Hr Hne r.
  destruct (single_entry_edit w m q idx orig run data Hidx Horig Hc Hw Hb He
              Hr Hne) as [Hq Hio].
  split; [exact Hq|]. split; [|exact Hio].
  intros q' Hq'. unfold r.
  rewrite (editEntriesCmd_changed _ _ _ _ data) by done.
  rewrite decide_True by done.
  rewrite Update_EditorResult, log_flushTimer. cbn [fst snd].
  set (m1 := updateInput w _ m).
  assert (Hlog : log m1 = log m) by apply log_updateInput.
  unfold handleEditorResult. cbn [msg_err changed negb msg_entryIndex
    msg_question responses].
  rewrite decide_True by done.
  assert (Hlen : 0 ≤ idx < len (answersFor m1 q)).
  { rewrite (answersFor_log m1 m q Hlog). apply lookup_lt_Some in Horig.
    unfold len. lia. }
  destruct (applySingleEntryEdit_spec w q idx (normalizeEditorContent data) []
              m1 Hlen) as (Ha & _ & _).
  by rewrite Ha, lookup_insert_ne, Hlog.
Qed.

Lemma X9_single_entry_edit_witness :
  answersFor Examples.abcSession "Q1" !! Z.to_nat 1
  = Some (Examples.entry Examples.t2 "b")
  ∧ Answers
      (log (Update Examples.abcWorld
              (EditorResultMsg
                 (editEntriesCmd (Examples.edited Scenes.twoLines) "Q1"
                    ["b"] 1))
              Examples.abcSession).1.1) !! "Q1"
    = Some [Examples.entry Examples.t1 "a";
            Examples.entry Examples.t2
              (String.append "B1" (String LF "B2"));
            Examples.entry Examples.t3 "c"].
Proof.
  assert (Horig : answersFor Examples.abcSession "Q1" !! Z.to_nat 1
                  = Some (Examples.entry Examples.t2 "b"))
    by (vm_compute; reflexivity).
  assert (Hne : normalizeEditorContent Scenes.twoLines
                ≠ normalizeEditorContent (Join_LF ["b"]))
    by (vm_compute; discriminate).
  split; [exact Horig|].
  exact (proj1
    (X9_single_entry_edit Examples.abcWorld Examples.abcSession "Q1" 1
       (Examples.entry Examples.t2 "b") (Examples.edited Scenes.twoLines)
       Scenes.twoLines ltac:(lia) Horig eq_refl eq_refl eq_refl eq_refl
       eq_refl Hne)).
Defined.

(** ** Deleting from the list *)

Lemma Update_d w m :
  view m = viewList → deleteConfirm m = None →
  Update w (KeyMsg "d") m
  = flushTimer ([], (handleDeleteEntryRequest w m).1,
                (handleDeleteEntryRequest w m).2).
Proof.
  intros Hv Hno.
  by rewrite Update_KeyMsg, (updateInput_list _ _ _ Hv), (handleKey_d w m Hv Hno).
Qed.

(** X10.  A delete request needs an entry row.  With list mode off, or with
    a question header (or no row) selected, the key d only sets a status
    message: the record is untouched, no confirmation becomes pending and
    nothing is written. *)
Theorem X10_delete_needs_entry_row (w : World) (m : model) :
  view m = viewList → deleteConfirm m = None →
  listMode m = false
  ∨ (∀ row, currentRow m = Some row → kind row = rowQuestion) →
  let r := Update w (KeyMsg "d") m in
  log r.1.1 = log m ∧ deleteConfirm r.1.1 = None ∧ r.2 = []
  ∧ status r.1.1
    = if listMode m then "Select an entry to delete."
      else "Enable list mode to delete entries.".
Proof.
  intros Hv Hno Hrow r. unfold r. rewrite (Update_d w m Hv Hno).
  rewrite log_flushTimer, deleteConfirm_flushTimer, io_flushTimer,
    status_flushTimer. cbn [fst snd].
  unfold handleDeleteEntryRequest.
  destruct (listMode m) eqn:Hl; cbn [negb fst snd].
  - destruct Hrow as [?|Hrow]; [done|].
    destruct (currentRow m) as [row|] eqn:Hc.
    + rewrite decide_False by (rewrite (Hrow row eq_refl); discriminate).
      cbn [fst snd].
      by rewrite log_setStatus, deleteConfirm_setStatus, status_setStatus.
    + cbn [fst snd].
      by rewrite log_setStatus, deleteConfirm_setStatus, status_setStatus.
  - by rewrite log_setStatus, deleteConfirm_setStatus, status_setStatus.
Qed.

Lemma X10_delete_needs_entry_row_witness :
  view Examples.soleSession = viewList
  ∧ deleteConfirm Examples.soleSession = None
  ∧ currentRow Examples.soleSession = Some (header "Q1")
  ∧ log (Update Examples.soleWorld (KeyMsg "d") Examples.soleSession).1.1
    = log Examples.soleSession
  ∧ status (Update Examples.soleWorld (KeyMsg "d") Examples.soleSession).1.1
    = "Select an entry to delete.".
Proof.
  assert (Hv : view Examples.soleSession = viewList)
    by (vm_compute; reflexivity).
  assert (Hno : deleteConfirm Examples.soleSession = None)
    by (vm_compute; reflexivity).
  assert (Hc : currentRow Examples.soleSession = Some (header "Q1"))
    by (vm_compute; reflexivity).
  assert (Hrow : listMode Examples.soleSession = false
                 ∨ (∀ row, currentRow Examples.soleSession = Some row →
                           kind row = rowQuestion)).
  { right. intros row Hrow. rewrite Hc in Hrow.
    injection Hrow as <-. reflexivity. }
  destruct (X10_delete_needs_entry_row Examples.soleWorld Examples.soleSession
              Hv Hno Hrow) as (Hlog & _ & _ & Hst).
  split; [exact Hv|]. split; [exact Hno|]. split; [exact Hc|].
  split; [exact Hlog|exact Hst].
Defined.

(** X11.  With delete confirmation switched off, the key d on the row of an
    existing entry deletes that entry at once: the record loses exactly that
    entry (and the question's key when it was the last one), the new record
    is handed to storage once, and no confirmation is left pending. *)
Theorem X11_delete_without_confirmation (w : World) (m : model) (q : string)
  (idx : Z) :
  view m = viewList → deleteConfirm m = None →
  listMode m = true → confirmDelete m = false →
  currentRow m = Some {| kind := rowEntry; question := q; entryIndex := idx |} →
  0 ≤ idx < len (answersFor m q) →
  let remaining :=
    take (Z.to_nat idx) (answersFor m q)
    ++ drop (Z.to_nat (idx + 1)) (answersFor m q) in
  let r := Update w (KeyMsg "d") m in
  Answers (log r.1.1) = putEntries q remaining (Answers (log m))
  ∧ r.2 = [IOSaveDayLog (day m) (log r.1.1)]
  ∧ deleteConfirm r.1.1 = None.
Proof.
  intros Hv Hno Hl Hcd Hrow Hidx remaining r. unfold r.
  rewrite (Update_d w m Hv Hno).
  rewrite log_flushTimer, deleteConfirm_flushTimer, io_flushTimer.
  cbn [fst snd].
  assert (Hh : handleDeleteEntryRequest w m = performDeleteEntry w q idx m).
  { unfold handleDeleteEntryRequest, initiateEntryDelete.
    rewrite Hl, Hrow. cbn [negb kind question entryIndex].
    rewrite decide_True by done. cbv zeta.
    rewrite decide_False by lia. by rewrite Hcd. }
  rewrite Hh.
  destruct (performDeleteEntry_spec w q idx m Hidx) as (Ha & _ & Hio).
  split; [done|]. split; [done|].
  by apply deleteConfirm_performDeleteEntry.
Qed.

Lemma X11_delete_without_confirmation_witness :
  view Scenes.extraSelected = viewList
  ∧ confirmDelete Scenes.extraSelected = false
  ∧ currentRow Scenes.extraSelected
    = Some {| kind := rowEntry; question := "X"; entryIndex := 0 |}
  ∧ Answers (log (Update Scenes.extraWorld (KeyMsg "d")
                    Scenes.extraSelected).1.1)
    = putEntries "X" [] (Answers (log Scenes.extraSelected)).
Proof.
  assert (Hv : view Scenes.extraSelected = viewList)
    by (vm_compute; reflexivity).
  assert (Hno : deleteConfirm Scenes.extraSelected = None)
    by (vm_compute; reflexivity).
  assert (Hl : listMode Scenes.extraSelected = true)
    by (vm_compute; reflexivity).
  assert (Hcd : confirmDelete Scenes.extraSelected = false)
    by (vm_compute; reflexivity).
  assert (Hrow : currentRow Scenes.extraSelected
                 = Some {| kind := rowEntry; question := "X";
                           entryIndex := 0 |})
    by (vm_compute; reflexivity).
  assert (Hidx : 0 ≤ 0 < len (answersFor Scenes.extraSelected "X"))
    by (vm_compute; split; [discriminate|reflexivity]).
  split; [exact Hv|]. split; [exact Hcd|]. split; [exact Hrow|].
  exact (proj1 (X11_delete_without_confirmation Scenes.extraWorld
                  Scenes.extraSelected "X" 0 Hv Hno Hl Hcd Hrow Hidx)).
Defined.

(** ** Leaving the session *)

Lemma openEntryEditor_not_Quit q idx m : openEntryEditor q idx m ≠ Some Quit.
Proof.
  unfold openEntryEditor. cbv zeta. case_dec; [done|]. by destruct (_ !! _).
Qed.

Lemma activateSelection_not_Quit m : (activateSelection m).1 ≠ Some Quit.
Proof.
  unfold activateSelection. destruct (currentRow m) as [row|]; [|done].
  case_dec; [apply openEntryEditor_not_Quit|done].
Qed.

Lemma handleDetailKey_not_Quit w key m :
  (handleDetailKey w key m).1.1 ≠ Some Quit.
Proof.
  unfold handleDetailKey. cbv zeta.
  repeat case_dec; destruct (editing (detail m)); try done.
  by destruct (saveInlineEntry w m).
Qed.

Lemma handleListKey_not_Quit w key m :
  (handleListKey w key m).1.1 ≠ Some Quit.
Proof.
  unfold handleListKey.
  repeat (destruct (decide (key = _)) as [_|_]); try done.
  - by destruct (disableJKNav m).
  - by destruct (disableJKNav m).
  - pose proof (activateSelection_not_Quit m) as H.
    by destruct (activateSelection m).
  - by destruct (currentRow m).
  - destruct (currentRow m) as [row|]; [|done].
    case_dec; [apply openEntryEditor_not_Quit|done].
  - by destruct (handleDeleteEntryRequest w m).
  - unfold openDayJSON. cbv zeta.
    destruct (SaveDayLog _ _ _); [done|]. by destruct (DayFilePath _ _).
  - destruct key as [|r [|]]; try done.
    case_dec; [done|].
    destruct (jumpToIndex (ToLower r) m) as [ok m'].
    destruct (ok && autoOpenIndex m'); [|done].
    pose proof (activateSelection_not_Quit m') as H.
    by destruct (activateSelection m').
Qed.

Lemma viewHandling_not_Quit w key m :
  (viewHandling w key m).1.1 ≠ Some Quit.
Proof.
  unfold viewHandling.
  destruct (view m);
    [apply handleListKey_not_Quit|apply handleDetailKey_not_Quit].
Qed.

Lemma handleKey_Quit w key m :
  (handleKey w key m).1.1 = Some Quit
  ↔ key = "ctrl+c"
    ∨ (key = "q" ∧ ¬ (view m = viewDetail ∧ editing (detail m) = true)).
Proof.
  unfold handleKey.
  destruct (decide (view m = viewDetail ∧ _)) as [Hed|Hed].
  { destruct (decide (key = "ctrl+c")) as [->|Hk].
    - split; [by left|done].
    - split; [by intros ?%viewHandling_not_Quit|].
      intros [?|[_ ?]]; done. }
  destruct (decide (key = "ctrl+c" ∨ _)) as [Hk|Hk].
  { split; [|done]. intros _. destruct Hk as [?|?]; [by left|by right]. }
  split; [|intros [?|[? _]]; destruct Hk; by eauto].
  intros Hq. exfalso. revert Hq.
  destruct (if decide (view m = viewList ∧ deleteConfirm m ≠ None)
            then handleDeleteConfirmationKey w key m else (false, m, []))
    as [[consumed m'] io].
  destruct consumed; [done|].
  repeat case_dec; try done.
  - by destruct (toggleHints w m').
  - pose proof (viewHandling_not_Quit w key m') as H.
    by destruct (viewHandling w key m') as [[c m''] io'].
Qed.

Lemma handleKey_quits w key m :
  (handleKey w key m).1.1 = Some Quit → handleKey w key m = (Some Quit, m, []).
Proof.
  intros Hq. pose proof Hq as Hk. apply handleKey_Quit in Hk.
  unfold handleKey in *.
  destruct (decide (view m = viewDetail ∧ _)) as [Hed|Hed].
  { destruct (decide (key = "ctrl+c")); [done|].
    by apply viewHandling_not_Quit in Hq. }
  destruct (decide (key = "ctrl+c" ∨ _)) as [?|Hn]; [done|].
  destruct Hn. destruct Hk as [?|[? _]]; by eauto.
Qed.

(** X12.  How the session ends.  Unless a quit command was already waiting
    in the timer slot, a key message produces the quit command exactly when
    the key is ctrl+c, or the key is q and the inline editor is not open
    (there q is text).  A quitting key changes neither the record nor
    anything in storage, even while a delete confirmation is pending. *)
Theorem X12_quit_keys (w : World) (m : model) (key : string) :
  statusTimerCmd m ≠ Some Quit →
  let r := Update w (KeyMsg key) m in
  (Quit ∈ r.1.2
   ↔ key = "ctrl+c"
     ∨ (key = "q" ∧ ¬ (view m = viewDetail ∧ editing (detail m) = true)))
  ∧ (Quit ∈ r.1.2 → log r.1.1 = log m ∧ r.2 = []).
Proof.
  intros Htimer r. unfold r. rewrite Update_KeyMsg.
  set (m1 := updateInput w (KeyMsg key) m).
  assert (H1 : view m1 = view m ∧ editing (detail m1) = editing (detail m)
               ∧ log m1 = log m ∧ statusTimerCmd m1 = statusTimerCmd m).
  { unfold m1, updateInput. by case_dec. }
  destruct H1 as (Hv1 & He1 & Hl1 & Ht1).
  pose proof (handleKey_Quit w key m1) as Hiff. rewrite Hv1, He1 in Hiff.
  pose proof (handleKey_quits w key m1) as Hquits.
  pose proof (handled_handleKey w key m1) as [[_ Hstep] _].
  destruct (handleKey w key m1) as [[c m'] io]. cbn [fst snd] in *.
  assert (Hin : Quit ∈ (flushTimer (option_list c, m', io)).1.2
                ↔ c = Some Quit).
  { split.
    - intros [Hin|Ht]%cmds_flushTimer; cbn [fst snd] in *.
      + destruct c as [c|]; [|by apply elem_of_nil in Hin].
        apply list_elem_of_singleton in Hin. by subst c.
      + destruct Hstep as [[_ Hsame]|[_ Harmed]];
          [congruence|by apply Harmed in Ht].
    - intros ->. unfold flushTimer. cbn [fst snd option_list].
      destruct (statusTimerCmd m'); cbn [fst snd]; [|by left].
      apply elem_of_app. left. by left. }
  split; [by rewrite Hin|].
  intros Hq%Hin. rewrite log_flushTimer, io_flushTimer. cbn [fst snd].
  pose proof (Hquits Hq) as Heq. by simplify_eq.
Qed.

Lemma X12_quit_keys_witness :
  statusTimerCmd Examples.solePending ≠ Some Quit
  ∧ deleteConfirm Examples.solePending
    = Some {| confirm_question := "Q1"; confirm_entryIndex := 0 |}
  ∧ Quit ∈ (Update Examples.soleWorld (KeyMsg "q") Examples.solePending).1.2
  ∧ log (Update Examples.soleWorld (KeyMsg "q") Examples.solePending).1.1
    = log Examples.solePending.
Proof.
  assert (Ht : statusTimerCmd Examples.solePending ≠ Some Quit)
    by (vm_compute; discriminate).
  assert (Hp : deleteConfirm Examples.solePending
               = Some {| confirm_question := "Q1"; confirm_entryIndex := 0 |})
    by (vm_compute; reflexivity).
  assert (Hv : ¬ (view Examples.solePending = viewDetail
                  ∧ editing (detail Examples.solePending) = true))
    by (vm_compute; intros [H _]; discriminate H).
  destruct (X12_quit_keys Examples.soleWorld Examples.solePending "q" Ht)
    as [Hiff Hlog].
  assert (Hq : Quit ∈ (Update Examples.soleWorld (KeyMsg "q")
                         Examples.solePending).1.2).
  { apply Hiff. right. split; [reflexivity|exact Hv]. }
  split; [exact Ht|]. split; [exact Hp|]. split; [exact Hq|].
  exact (proj1 (Hlog Hq)).
Defined.

(** ** Changing the day *)

Lemma refreshQuestions_frame m :
  view (refreshQuestions m) = view m
  ∧ detail (refreshQuestions m) = detail m
  ∧ err (refreshQuestions m) = err m
  ∧ config (refreshQuestions m) = config m
  ∧ showHints (refreshQuestions m) = showHints m
  ∧ status (refreshQuestions m) = status m.
Proof. unfold refreshQuestions. simpl. repeat case_dec; done. Qed.

Lemma setStatus_frame text m :
  view (setStatus text m) = view m
  ∧ detail (setStatus text m) = detail m
  ∧ err (setStatus text m) = err m
  ∧ config (setStatus text m) = config m
  ∧ showHints (setStatus text m) = showHints m
  ∧ questions (setStatus text m) = questions m
  ∧ rows (setStatus text m) = rows m
  ∧ listMode (setStatus text m) = listMode m
  ∧ selected (setStatus text m) = selected m.
Proof. unfold setStatus. cbv zeta. by case_dec. Qed.

Lemma rowsInSync_layout m m' :
  layout m' = layout m → rowsInSync m → rowsInSync m'.
Proof.
  unfold layout. intros [= Hr Hq Hl Hlog Hs] Hsync.
  unfold rowsInSync, rowsOf, answersFor in *. by rewrite Hr, Hq, Hl, Hlog.
Qed.

Lemma refreshed_with_status text m0 :
  let m' := setStatus text (refreshQuestions m0) in
  day m' = day m0 ∧ log m' = log m0 ∧ view m' = view m0
  ∧ selected m' = clampSelected (refreshQuestions m0) (selected m0)
  ∧ detail m' = detail m0 ∧ err m' = err m0
  ∧ deleteConfirm m' = None
  ∧ questions m' = mergeQuestions (cfgQuestions m0) (log m0)
  ∧ rowsInSync m'.
Proof.
  intros m'. unfold m'.
  destruct (refreshQuestions_fields m0)
    as (_ & Hlog & _ & Hqs & _ & Hsync & Hsel).
  destruct (refreshQuestions_frame m0) as (Fv & Fd & Fe & _).
  destruct (setStatus_frame text (refreshQuestions m0))
    as (Sv & Sd & Se & _ & _ & Sq & Sr & Sl & Ss).
  rewrite day_setStatus, day_refreshQuestions, log_setStatus, Hlog,
    deleteConfirm_setStatus, deleteConfirm_refreshQuestions.
  rewrite Sv, Sd, Se, Sq, Ss, Fv, Fd, Fe, Hqs, Hsel.
  split_and!; try done.
  eapply rowsInSync_layout; [|exact Hsync]. apply layout_setStatus.
Qed.

Lemma clampSelected_0 m : clampSelected m 0 = 0.
Proof.
  unfold clampSelected. repeat case_dec; try done.
  pose proof (Zle_0_nat (length (rows m))). unfold len in *. lia.
Qed.

Lemma reloadDay_loaded w m l :
  LoadDayLog w (day m) = inl l →
  let m' := reloadDay w m in
  day m' = day m ∧ log m' = l ∧ view m' = viewList ∧ selected m' = 0
  ∧ editing (detail m') = false ∧ err m' = None
  ∧ deleteConfirm m' = None
  ∧ questions m' = mergeQuestions (cfgQuestions m) l
  ∧ rowsInSync m'.
Proof.
  intros Hload. unfold reloadDay. rewrite Hload. cbv zeta.
  match goal with
  | |- context [setStatus ?text (refreshQuestions ?m0)] =>
      destruct (refreshed_with_status text m0)
        as (H1 & H2 & H3 & H4 & H5 & H6 & H7 & H8 & H9);
      rewrite H1, H2, H3, H4, H5, H6, H7, H8, clampSelected_0
  end.
  split_and!; done.
Qed.

Lemma reloadDay_failed w m e :
  LoadDayLog w (day m) = inr e → reloadDay w m = set_err (Some e) m.
Proof. intros Hload. unfold reloadDay. by rewrite Hload. Qed.

Lemma handleKey_day w key m :
  ¬ (view m = viewDetail ∧ editing (detail m) = true) →
  (view m = viewList → deleteConfirm m = None) →
  (key = "left" → handleKey w key m = (None, changeDay w (-1) m, []))
  ∧ (key = "right" → handleKey w key m = (None, changeDay w 1 m, []))
  ∧ (key = " " → handleKey w key m = (None, goToToday w m, [])).
Proof.
  intros Hed Hno. unfold handleKey.
  rewrite (decide_False (P := view m = viewDetail ∧ _)) by done.
  rewrite (decide_False (P := view m = viewList ∧ _)) by (intros [? ?]; auto).
  split_and!; intros ->.
  - rewrite decide_False by (intros [?|?]; discriminate). cbn [fst snd].
    by repeat (rewrite decide_False by
                 first [discriminate | by intros [?|?] | by intros [? _]]).
  - rewrite decide_False by (intros [?|?]; discriminate). cbn [fst snd].
    by repeat (rewrite decide_False by
                 first [discriminate | by intros [?|?] | by intros [? _]]).
  - rewrite decide_False by (intros [?|?]; discriminate). cbn [fst snd].
    by repeat (rewrite decide_False by
                 first [discriminate | by intros [?|?] | by intros [? _]]).
Qed.

Lemma Update_fields_flush w key m c m' io :
  handleKey w key (updateInput w (KeyMsg key) m) = (c, m', io) →
  let r := Update w (KeyMsg key) m in
  layout r.1.1 = layout m' ∧ day r.1.1 = day m' ∧ view r.1.1 = view m'
  ∧ detail r.1.1 = detail m' ∧ err r.1.1 = err m'
  ∧ deleteConfirm r.1.1 = deleteConfirm m'
  ∧ config r.1.1 = config m' ∧ showHints r.1.1 = showHints m'
  ∧ status r.1.1 = status m'
  ∧ r.2 = io.
Proof.
  intros Hh r. unfold r. rewrite Update_KeyMsg, Hh. cbn [fst snd].
  unfold flushTimer. cbn [fst snd]. by destruct (statusTimerCmd m').
Qed.

(** X13.  Moving to another day.  With the inline editor closed and no
    delete confirmation pending, the left and right arrows move the day by
    one and the space bar moves it to today; when the record of the new day
    loads, it replaces the record in memory, the list view is shown with the
    first row selected, the question list and the rows are rebuilt from the
    new record, and nothing is written. *)
Theorem X13_change_day (w : World) (m : model) (key : string) (delta : Z)
  (l : DayLog) :
  (key = "left" ∧ delta = -1) ∨ (key = "right" ∧ delta = 1)
  ∨ (key = " " ∧ delta = Today w - day m ∧ delta ≠ 0) →
  ¬ (view m = viewDetail ∧ editing (detail m) = true) →
  (view m = viewList → deleteConfirm m = None) →
  LoadDayLog w (day m + delta) = inl l →
  let r := Update w (KeyMsg key) m in
  day r.1.1 = day m + delta ∧ log r.1.1 = l ∧ view r.1.1 = viewList
  ∧ selected r.1.1 = 0 ∧ editing (detail r.1.1) = false
  ∧ err r.1.1 = None ∧ deleteConfirm r.1.1 = None
  ∧ questions r.1.1 = mergeQuestions (cfgQuestions m) l
  ∧ rowsInSync r.1.1 ∧ r.2 = [].
Proof.
  intros Hkey Hed Hno Hload r.
  assert (Hin : updateInput w (KeyMsg key) m = m).
  { unfold updateInput. by rewrite decide_False. }
  assert (Hh : handleKey w key m
               = (None, reloadDay w (set_day (day m + delta) m), [])).
  { destruct (handleKey_day w key m Hed Hno) as (Hl & Hr & Hs).
    destruct Hkey as [[-> ->]|[[-> ->]|(-> & -> & Hne)]].
    - by rewrite Hl.
    - by rewrite Hr.
    - rewrite Hs by done. unfold goToToday.
      rewrite decide_False by lia. do 3 f_equal. f_equal. lia. }
  rewrite <-Hin in Hh at 1.
  destruct (Update_fields_flush w key m _ _ _ Hh)
    as (Hlay & Hd & Hv & Hdet & Herr & Hdc & _ & _ & _ & Hio).
  fold r in Hlay, Hd, Hv, Hdet, Herr, Hdc, Hio.
  destruct (reloadDay_loaded w (set_day (day m + delta) m) l Hload)
    as (R1 & R2 & R3 & R4 & R5 & R6 & R7 & R8 & R9).
  unfold layout in Hlay. injection Hlay as Hrows Hqs Hlm Hlog Hsel.
  rewrite Hd, Hlog, Hv, Hsel, Hdet, Herr, Hdc, Hqs, Hio.
  split_and!; try done.
  unfold rowsInSync, rowsOf, answersFor in *.
  by rewrite Hrows, Hqs, Hlm, Hlog.
Qed.

Lemma X13_change_day_witness :
  ¬ (view Examples.soleSelected = viewDetail
     ∧ editing (detail Examples.soleSelected) = true)
  ∧ LoadDayLog Examples.soleWorld (day Examples.soleSelected + 1)
    = inl Examples.soleLog
  ∧ day (Update Examples.soleWorld (KeyMsg "right")
           Examples.soleSelected).1.1 = 19845
  ∧ selected (Update Examples.soleWorld (KeyMsg "right")
                Examples.soleSelected).1.1 = 0.
Proof.
  assert (Hed : ¬ (view Examples.soleSelected = viewDetail
                   ∧ editing (detail Examples.soleSelected) = true))
    by (vm_compute; intros [H _]; discriminate H).
  assert (Hno : view Examples.soleSelected = viewList →
                deleteConfirm Examples.soleSelected = None)
    by (intros _; vm_compute; reflexivity).
  assert (Hload : LoadDayLog Examples.soleWorld (day Examples.soleSelected + 1)
                  = inl Examples.soleLog) by reflexivity.
  destruct (X13_change_day Examples.soleWorld Examples.soleSelected "right" 1
              Examples.soleLog (or_intror (or_introl (conj eq_refl eq_refl)))
              Hed Hno Hload) as (Hd & _ & _ & Hs & _).
  split; [exact Hed|]. split; [exact Hload|]. split; [exact Hd|exact Hs].
Defined.

(** X14.  A day that cannot be loaded.  When loading the record of the new
    day fails, the day has nevertheless moved: the error is kept, while the
    record, the rows, the selection and the view are still those of the day
    before, and nothing is written. *)
Theorem X14_change_day_load_failure (w : World) (m : model) (key : string)
  (delta : Z) (e : string) :
  (key = "left" ∧ delta = -1) ∨ (key = "right" ∧ delta = 1)
  ∨ (key = " " ∧ delta = Today w - day m ∧ delta ≠ 0) →
  ¬ (view m = viewDetail ∧ editing (detail m) = true) →
  (view m = viewList → deleteConfirm m = None) →
  LoadDayLog w (day m + delta) = inr e →
  let r := Update w (KeyMsg key) m in
  day r.1.1 = day m + delta ∧ err r.1.1 = Some e
  ∧ layout r.1.1 = layout m ∧ view r.1.1 = view m ∧ r.2 = [].
Proof.
  intros Hkey Hed Hno Hload r.
  assert (Hin : updateInput w (KeyMsg key) m = m).
  { unfold updateInput. by rewrite decide_False. }
  assert (Hh : handleKey w key m
               = (None, reloadDay w (set_day (day m + delta) m), [])).
  { destruct (handleKey_day w key m Hed Hno) as (Hl & Hr & Hs).
    destruct Hkey as [[-> ->]|[[-> ->]|(-> & -> & Hne)]].
    - by rewrite Hl.
    - by rewrite Hr.
    - rewrite Hs by done. unfold goToToday.
      rewrite decide_False by lia. do 3 f_equal. f_equal. lia. }
  rewrite <-Hin in Hh at 1.
  destruct (Update_fields_flush w key m _ _ _ Hh)
    as (Hlay & Hd & Hv & _ & Herr & _ & _ & _ & _ & Hio).
  fold r in Hlay, Hd, Hv, Herr, Hio.
  rewrite (reloadDay_failed w (set_day (day m + delta) m) e Hload)
    in Hlay, Hd, Hv, Herr.
  by rewrite Hlay, Hd, Hv, Herr, Hio.
Qed.

Lemma X14_change_day_load_failure_witness :
  ¬ (view Examples.soleSelected = viewDetail
     ∧ editing (detail Examples.soleSelected) = true)
  ∧ LoadDayLog Scenes.onlyToday (day Examples.soleSelected + 1)
    = inr "permission denied"
  ∧ day (Update Scenes.onlyToday (KeyMsg "right")
           Examples.soleSelected).1.1 = 19845
  ∧ layout (Update Scenes.onlyToday (KeyMsg "right")
              Examples.soleSelected).1.1 = layout Examples.soleSelected.
Proof.
  assert (Hed : ¬ (view Examples.soleSelected = viewDetail
                   ∧ editing (detail Examples.soleSelected) = true))
    by (vm_compute; intros [H _]; discriminate H).
  assert (Hno : view Examples.soleSelected = viewList →
                deleteConfirm Examples.soleSelected = None)
    by (intros _; vm_compute; reflexivity).
  assert (Hload : LoadDayLog Scenes.onlyToday (day Examples.soleSelected + 1)
                  = inr "permission denied") by (vm_compute; reflexivity).
  destruct (X14_change_day_load_failure Scenes.onlyToday Examples.soleSelected
              "right" 1 "permission denied"
              (or_intror (or_introl (conj eq_refl eq_refl)))
              Hed Hno Hload) as (Hd & _ & Hl & _).
  split; [exact Hed|]. split; [exact Hload|]. split; [exact Hd|exact Hl].
Defined.

(** ** Hints, and the day file opened outside *)

Lemma handleKey_hints w key m :
  key = "h" ∨ key = "?" →
  ¬ (view m = viewDetail ∧ editing (detail m) = true) →
  (view m = viewList → deleteConfirm m = None) →
  handleKey w key m = (None, (toggleHints w m).1, (toggleHints w m).2).
Proof.
  intros Hkey Hed Hno. unfold handleKey.
  rewrite (decide_False (P := view m = viewDetail ∧ _)) by done.
  rewrite (decide_False (P := view m = viewList ∧ _)) by (intros [? ?]; auto).
  rewrite decide_False by (by intros [->| ->]; destruct Hkey).
  cbn [fst snd]. rewrite decide_True by done.
  by destruct (toggleHints w m).
Qed.

Lemma toggleHints_spec w m :
  showHints (toggleHints w m).1 = negb (showHints m)
  ∧ config (toggleHints w m).1
    = set_ShowHints (Some (negb (showHints m))) (config m)
  ∧ (toggleHints w m).2 = [IOSaveConfig (config (toggleHints w m).1)]
  ∧ err (toggleHints w m).1 = SaveConfig w (config (toggleHints w m).1)
  ∧ log (toggleHints w m).1 = log m.
Proof.
  unfold toggleHints. cbv zeta.
  set (m1 := set_config _ (set_showHints _ m)).
  assert (H1 : showHints m1 = negb (showHints m)
               ∧ config m1
                 = set_ShowHints (Some (negb (showHints m))) (config m)
               ∧ log m1 = log m) by done.
  destruct H1 as (Hs & Hc & Hl).
  destruct (setStatus_frame "Hints enabled." (set_err None m1))
    as (_ & _ & Se & Sc & Ss & _).
  destruct (setStatus_frame "Hints hidden." (set_err None m1))
    as (_ & _ & Se' & Sc' & Ss' & _).
  change (showHints (set_err None m1)) with (showHints m1) in *.
  change (config (set_err None m1)) with (config m1) in *.
  change (err (set_err None m1)) with (@None string) in *.
  destruct (SaveConfig w (config m1)) as [e|] eqn:Es; cbn [fst snd].
  - change (config (set_err (Some e) m1)) with (config m1).
    change (showHints (set_err (Some e) m1)) with (showHints m1).
    change (log (set_err (Some e) m1)) with (log m1).
    change (err (set_err (Some e) m1)) with (Some e).
    by rewrite Es.
  - destruct (showHints m1); cbn [fst snd];
      rewrite log_setStatus, ?Se, ?Sc, ?Ss, ?Se', ?Sc', ?Ss', Es;
      change (log (set_err None m1)) with (log m1); done.
Qed.

(** X15.  Toggling the hints.  With the inline editor closed and no delete
    confirmation pending, h or ? flips the hint flag, makes the flag an
    explicit option of the configuration, and hands that configuration to
    storage once.  The flip stays in memory also when the write fails; the
    error slot then holds the failure.  The record is not touched. *)
Theorem X15_toggle_hints (w : World) (m : model) (key : string) :
  key = "h" ∨ key = "?" →
  ¬ (view m = viewDetail ∧ editing (detail m) = true) →
  (view m = viewList → deleteConfirm m = None) →
  let r := Update w (KeyMsg key) m in
  showHints r.1.1 = negb (showHints m)
  ∧ config r.1.1 = set_ShowHints (Some (negb (showHints m))) (config m)
  ∧ r.2 = [IOSaveConfig (config r.1.1)]
  ∧ err r.1.1 = SaveConfig w (config r.1.1)
  ∧ log r.1.1 = log m.
Proof.
  intros Hkey Hed Hno r.
  assert (Hin : updateInput w (KeyMsg key) m = m).
  { unfold updateInput. by rewrite decide_False. }
  pose proof (handleKey_hints w key m Hkey Hed Hno) as Hh.
  rewrite <-Hin in Hh at 1.
  destruct (Update_fields_flush w key m _ _ _ Hh)
    as (Hlay & _ & _ & _ & Herr & _ & Hcfg & Hsh & _ & Hio).
  fold r in Hlay, Herr, Hcfg, Hsh, Hio.
  unfold layout in Hlay. injection Hlay as _ _ _ Hlog _.
  rewrite Hsh, Hcfg, Hio, Herr, Hlog. apply toggleHints_spec.
Qed.

Lemma X15_toggle_hints_witness :
  ¬ (view Examples.soleSession = viewDetail
     ∧ editing (detail Examples.soleSession) = true)
  ∧ showHints Examples.soleSession = true
  ∧ showHints (Update Examples.soleWorld (KeyMsg "h")
                 Examples.soleSession).1.1 = false
  ∧ ShowHints (config (Update Examples.soleWorld (KeyMsg "h")
                         Examples.soleSession).1.1) = Some false.
Proof.
  assert (Hed : ¬ (view Examples.soleSession = viewDetail
                   ∧ editing (detail Examples.soleSession) = true))
    by (vm_compute; intros [H _]; discriminate H).
  assert (Hno : view Examples.soleSession = viewList →
                deleteConfirm Examples.soleSession = None)
    by (intros _; vm_compute; reflexivity).
  assert (Hs : showHints Examples.soleSession = true)
    by (vm_compute; reflexivity).
  destruct (X15_toggle_hints Examples.soleWorld Examples.soleSession "h"
              (or_introl eq_refl) Hed Hno) as (H1 & H2 & _).
  rewrite Hs in H1, H2.
  split; [exact Hed|]. split; [exact Hs|]. split; [exact H1|].
  rewrite H2. reflexivity.
Defined.

Lemma Update_ExternalOpenResult w k e m :
  Update w (ExternalOpenResultMsg k e) m
  = flushTimer
      ([], handleExternalOpenResult w k e
             (updateInput w (ExternalOpenResultMsg k e) m), []).
Proof. reflexivity. Qed.

Lemma updateInput_frame w msg m :
  log (updateInput w msg m) = log m
  ∧ day (updateInput w msg m) = day m
  ∧ config (updateInput w msg m) = config m
  ∧ cfgQuestions (updateInput w msg m) = cfgQuestions m
  ∧ err (updateInput w msg m) = err m
  ∧ status (updateInput w msg m) = status m
  ∧ view (updateInput w msg m) = view m.
Proof. unfold updateInput. by case_dec. Qed.

Lemma flushTimer_frame cs m io :
  log (flushTimer (cs, m, io)).1.1 = log m
  ∧ day (flushTimer (cs, m, io)).1.1 = day m
  ∧ config (flushTimer (cs, m, io)).1.1 = config m
  ∧ rows (flushTimer (cs, m, io)).1.1 = rows m
  ∧ questions (flushTimer (cs, m, io)).1.1 = questions m
  ∧ listMode (flushTimer (cs, m, io)).1.1 = listMode m
  ∧ selected (flushTimer (cs, m, io)).1.1 = selected m
  ∧ err (flushTimer (cs, m, io)).1.1 = err m
  ∧ status (flushTimer (cs, m, io)).1.1 = status m
  ∧ view (flushTimer (cs, m, io)).1.1 = view m
  ∧ detail (flushTimer (cs, m, io)).1.1 = detail m
  ∧ (flushTimer (cs, m, io)).2 = io.
Proof. unfold flushTimer. cbn [fst snd]. by destruct (statusTimerCmd m). Qed.

Lemma handleExternalOpenResult_day w m :
  let m' := handleExternalOpenResult w openKindDay None m in
  status m' = "Day file reloaded."
  ∧ match LoadDayLog w (day m) with
    | inl l =>
        log m' = l ∧ err m' = None
        ∧ questions m' = mergeQuestions (cfgQuestions m) l
        ∧ rowsInSync m'
    | inr e => log m' = log m ∧ err m' = Some e
    end.
Proof.
  unfold handleExternalOpenResult, refreshCurrentDayFromDisk.
  change (day (set_err None m)) with (day m).
  cbv zeta. rewrite status_setStatus. split; [done|].
  destruct (LoadDayLog w (day m)) as [l|e].
  - destruct (refreshed_with_status "Day file reloaded."
                (set_log l (set_err None (set_err None m))))
      as (_ & H2 & _ & _ & _ & H6 & _ & H8 & H9).
    split; [exact H2|]. split; [exact H6|]. split; [exact H8|exact H9].
  - rewrite log_setStatus.
    destruct (setStatus_frame "Day file reloaded."
                (set_err (Some e) (set_err None m))) as (_ & _ & Se & _).
    split; [reflexivity|]. rewrite Se. reflexivity.
Qed.

(** X16.  The answer of the editor that was opened on the day file.  When
    the editor reports no error, the record of the current day is read from
    storage again and replaces the record in memory; the question list and
    the rows are rebuilt from it.  When the editor, or the reading, fails,
    the record in memory stays and the error is kept; after a failed reading
    the status nevertheless announces a reload.  Nothing is written in any
    of these cases. *)
Theorem X16_day_file_reloaded (w : World) (m : model) :
  (∀ l, LoadDayLog w (day m) = inl l →
     let r := Update w (ExternalOpenResultMsg openKindDay None) m in
     log r.1.1 = l ∧ err r.1.1 = None
     ∧ questions r.1.1 = mergeQuestions (cfgQuestions m) l
     ∧ rowsInSync r.1.1
     ∧ status r.1.1 = "Day file reloaded." ∧ r.2 = [])
  ∧ (∀ e, LoadDayLog w (day m) = inr e →
       let r := Update w (ExternalOpenResultMsg openKindDay None) m in
       log r.1.1 = log m ∧ err r.1.1 = Some e
       ∧ status r.1.1 = "Day file reloaded." ∧ r.2 = [])
  ∧ (∀ k e,
       let r := Update w (ExternalOpenResultMsg k (Some e)) m in
       log r.1.1 = log m ∧ err r.1.1 = Some e
       ∧ status r.1.1 = status m ∧ r.2 = []).
Proof.
  split_and!.
  - intros l Hload r. unfold r. rewrite Update_ExternalOpenResult.
    destruct (updateInput_frame w (ExternalOpenResultMsg openKindDay None) m)
      as (Hlog & Hday & _ & Hc & _).
    set (m1 := updateInput w _ m) in *.
    destruct (flushTimer_frame
                [] (handleExternalOpenResult w openKindDay None m1) [])
      as (Flog & _ & _ & Frows & Fqs & Flm & _ & Fe & Fs & _ & _ & Fio).
    destruct (handleExternalOpenResult_day w m1) as [Hst Hm].
    rewrite Hday, Hload, Hc in Hm. destruct Hm as (H1 & H2 & H3 & H4).
    rewrite Flog, Fe, Fs, Fio, Fqs.
    split; [exact H1|]. split; [exact H2|]. split; [exact H3|].
    split; [|split; [exact Hst|reflexivity]].
    unfold rowsInSync, rowsOf, answersFor in *.
    by rewrite Frows, Fqs, Flm, Flog.
  - intros e Hload r. unfold r. rewrite Update_ExternalOpenResult.
    destruct (updateInput_frame w (ExternalOpenResultMsg openKindDay None) m)
      as (Hlog & Hday & _ & Hc & _).
    set (m1 := updateInput w _ m) in *.
    destruct (flushTimer_frame
                [] (handleExternalOpenResult w openKindDay None m1) [])
      as (Flog & _ & _ & _ & _ & _ & _ & Fe & Fs & _ & _ & Fio).
    destruct (handleExternalOpenResult_day w m1) as [Hst Hm].
    rewrite Hday, Hload in Hm. destruct Hm as (H1 & H2).
    rewrite Flog, Fe, Fs, Fio, H1, H2, Hlog. by rewrite Hst.
  - intros k e r. unfold r. rewrite Update_ExternalOpenResult.
    destruct (updateInput_frame w (ExternalOpenResultMsg k (Some e)) m)
      as (Hlog & _ & _ & _ & _ & Hst & _).
    set (m1 := updateInput w _ m) in *.
    destruct (flushTimer_frame
                [] (handleExternalOpenResult w k (Some e) m1) [])
      as (Flog & _ & _ & _ & _ & _ & _ & Fe & Fs & _ & _ & Fio).
    rewrite Flog, Fe, Fs, Fio. unfold handleExternalOpenResult.
    change (log (set_err (Some e) m1)) with (log m1).
    change (status (set_err (Some e) m1)) with (status m1).
    by rewrite Hlog, Hst.
Qed.

Lemma X16_day_file_reloaded_witness :
  LoadDayLog Examples.abcWorld (day Examples.soleSession) = inl Examples.abcLog
  ∧ log (Update Examples.abcWorld (ExternalOpenResultMsg openKindDay None)
           Examples.soleSession).1.1 = Examples.abcLog.
Proof.
  assert (Hload : LoadDayLog Examples.abcWorld (day Examples.soleSession)
                  = inl Examples.abcLog) by reflexivity.
  split; [exact Hload|].
  exact (proj1 (proj1 (X16_day_file_reloaded Examples.abcWorld
                         Examples.soleSession) Examples.abcLog Hload)).
Defined.

Lemma handleListKey_o w m : handleListKey w "o" m = openDayJSON w m.
Proof.
  unfold handleListKey.
  repeat (rewrite decide_False by discriminate). by rewrite decide_True.
Qed.

(** X17.  Opening the day file.  In the list view with no confirmation
    pending, the key o first hands the record in memory to storage; the
    command that opens the day file in the editor is issued exactly when
    that write succeeded and the path of the day file is known.  The record
    in memory is not changed. *)
Theorem X17_open_day_file (w : World) (m : model) :
  view m = viewList → deleteConfirm m = None → statusTimerCmd m = None →
  let r := Update w (KeyMsg "o") m in
  r.2 = [IOSaveDayLog (day m) (log m)] ∧ log r.1.1 = log m
  ∧ ∀ path k, OpenFileInEditor path k ∈ r.1.2
              ↔ SaveDayLog w (day m) (log m) = None
                ∧ DayFilePath w (day m) = inl path ∧ k = openKindDay.
Proof.
  intros Hv Hno Ht r. unfold r.
  rewrite Update_KeyMsg, (updateInput_list _ _ _ Hv).
  rewrite handleKey_list, handleListKey_o; [|done|done|].
  2:{ rewrite !not_elem_of_cons. split_and!; try discriminate.
      apply not_elem_of_nil. }
  unfold openDayJSON. cbv zeta.
  destruct (SaveDayLog w (day m) (log m)) as [e|] eqn:Es; cbn [fst snd].
  { unfold flushTimer. cbn [fst snd option_list].
    change (statusTimerCmd (set_err (Some e) m)) with (statusTimerCmd m).
    rewrite Ht. cbn [fst snd]. split; [done|]. split; [done|].
    intros path k. split; [by intros ?%elem_of_nil|by intros [? _]]. }
  destruct (DayFilePath w (day m)) as [p|e] eqn:Ep; cbn [fst snd].
  - destruct (flushTimer_frame
                (option_list (Some (OpenFileInEditor p openKindDay)))
                (setStatus "Opened day file in editor." m)
                [IOSaveDayLog (day m) (log m)])
      as (Flog & _ & _ & _ & _ & _ & _ & _ & _ & _ & _ & Fio).
    rewrite Flog, Fio, log_setStatus. split; [done|]. split; [done|].
    intros path k. unfold flushTimer. cbn [fst snd option_list].
    rewrite statusTimerCmd_setStatus.
    case_dec; cbn [fst snd];
      change (option_list (Some (OpenFileInEditor p openKindDay)))
        with [OpenFileInEditor p openKindDay];
      rewrite ?elem_of_app, !list_elem_of_singleton.
    + split; [by intros [= -> ->]|by intros (_ & [= ->] & ->)].
    + split; [by intros [[= -> ->]|?]|intros (_ & [= ->] & ->); by left].
  - unfold flushTimer. cbn [fst snd option_list].
    change (statusTimerCmd (set_err (Some e) m)) with (statusTimerCmd m).
    rewrite Ht. cbn [fst snd]. split; [done|]. split; [done|].
    intros path k. split; [by intros ?%elem_of_nil|by intros (_ & ? & _)].
Qed.

Lemma X17_open_day_file_witness :
  view Examples.soleSession = viewList
  ∧ (Update Examples.soleWorld (KeyMsg "o") Examples.soleSession).2
    = [IOSaveDayLog (day Examples.soleSession) (log Examples.soleSession)].
Proof.
  assert (Hv : view Examples.soleSession = viewList)
    by (vm_compute; reflexivity).
  assert (Hno : deleteConfirm Examples.soleSession = None)
    by (vm_compute; reflexivity).
  assert (Ht : statusTimerCmd Examples.soleSession = None)
    by (vm_compute; reflexivity).
  split; [exact Hv|].
  exact (proj1 (X17_open_day_file Examples.soleWorld Examples.soleSession
                  Hv Hno Ht)).
Defined.

(** ** Leaving the detail view *)

Lemma handleKey_esc_detail w m :
  view m = viewDetail →
  handleKey w "esc" m = handleDetailKey w "esc" m.
Proof.
  intros Hv. unfold handleKey, viewHandling. rewrite Hv.
  destruct (decide (viewDetail = viewDetail ∧ _)) as [_|_].
  { by rewrite decide_False by discriminate. }
  rewrite (decide_False (P := "esc" = "ctrl+c" ∨ _))
    by (intros [?|?]; discriminate).
  rewrite (decide_False (P := viewDetail = viewList ∧ _))
    by (by intros [? _]).
  cbn [fst snd].
  rewrite (decide_False (P := "esc" = "h" ∨ _))
    by (intros [?|?]; discriminate).
  rewrite (decide_False (P := "esc" = "esc" ∧ _))
    by (intros (_ & Hl & _); rewrite Hv in Hl; discriminate).
  do 3 (rewrite decide_False by discriminate).
  rewrite Hv. by destruct (handleDetailKey w "esc" m) as [[? ?] ?].
Qed.

(** X18.  Escape in the detail view never touches the record, the rows, the
    selection or storage.  With the inline editor open it closes the editor
    and drops the typed text, staying on the question; with the editor
    closed it goes back to the list. *)
Theorem X18_escape_in_detail (w : World) (m : model) :
  view m = viewDetail →
  let r := Update w (KeyMsg "esc") m in
  log r.1.1 = log m ∧ rows r.1.1 = rows m ∧ selected r.1.1 = selected m
  ∧ r.2 = []
  ∧ (editing (detail m) = true →
       view r.1.1 = viewDetail ∧ editing (detail r.1.1) = false
       ∧ Value (input (detail r.1.1)) = EmptyString
       ∧ detail_question (detail r.1.1) = detail_question (detail m))
  ∧ (editing (detail m) = false →
       view r.1.1 = viewList
       ∧ detail_question (detail r.1.1) = EmptyString).
Proof.
  intros Hv r. unfold r. rewrite Update_KeyMsg.
  set (m1 := updateInput w (KeyMsg "esc") m).
  assert (H1 : view m1 = viewDetail ∧ log m1 = log m ∧ rows m1 = rows m
               ∧ selected m1 = selected m
               ∧ editing (detail m1) = editing (detail m)
               ∧ detail_question (detail m1) = detail_question (detail m)).
  { unfold m1, updateInput. by case_dec. }
  destruct H1 as (Hv1 & Hl1 & Hr1 & Hs1 & He1 & Hq1).
  rewrite (handleKey_esc_detail w m1 Hv1).
  unfold handleDetailKey. rewrite decide_True by done.
  rewrite He1. destruct (editing (detail m)); cbv zeta; cbn [fst snd].
  - match goal with
    | |- context [flushTimer (?cs, setStatus ?t ?m2, ?io)] =>
        destruct (flushTimer_frame cs (setStatus t m2) io)
          as (Fl & _ & _ & Fr & _ & _ & Fs & _ & _ & Fv & Fd & Fio);
        destruct (setStatus_frame t m2)
          as (Sv & Sd & _ & _ & _ & _ & Sr & _ & Ss);
        rewrite Fl, Fr, Fs, Fv, Fd, Fio, log_setStatus, Sv, Sd, Sr, Ss
    end.
    split; [exact Hl1|]. split; [exact Hr1|]. split; [exact Hs1|].
    split; [done|]. split; [|done]. intros _.
    split; [exact Hv1|]. split; [done|]. split; [done|exact Hq1].
  - match goal with
    | |- context [flushTimer (?cs, leaveDetail m1, ?io)] =>
        destruct (flushTimer_frame cs (leaveDetail m1) io)
          as (Fl & _ & _ & Fr & _ & _ & Fs & _ & _ & Fv & Fd & Fio);
        rewrite Fl, Fr, Fs, Fv, Fd, Fio
    end.
    split; [exact Hl1|]. split; [exact Hr1|]. split; [exact Hs1|].
    split; [done|]. split; [done|]. intros _. done.
Qed.

Lemma X18_escape_in_detail_witness :
  view Scenes.typedX = viewDetail
  ∧ editing (detail Scenes.typedX) = true
  ∧ editing (detail (Update (Examples.failingWorld Examples.emptyLog)
                       (KeyMsg "esc") Scenes.typedX).1.1) = false
  ∧ log (Update (Examples.failingWorld Examples.emptyLog)
           (KeyMsg "esc") Scenes.typedX).1.1 = log Scenes.typedX.
Proof.
  assert (Hv : view Scenes.typedX = viewDetail) by (vm_compute; reflexivity).
  assert (He : editing (detail Scenes.typedX) = true)
    by (vm_compute; reflexivity).
  destruct (X18_escape_in_detail (Examples.failingWorld Examples.emptyLog)
              Scenes.typedX Hv) as (Hl & _ & _ & _ & Hed & _).
  destruct (Hed He) as (_ & Hoff & _).
  split; [exact Hv|]. split; [exact He|]. split; [exact Hoff|exact Hl].
Defined.

(** ** What is written, and when *)

Lemma day_selectQuestionByName q m : day (selectQuestionByName q m) = day m.
Proof.
  unfold selectQuestionByName, selectQuestionByIndex.
  destruct (_ !! _); [|done]. repeat case_dec; done.
Qed.

Lemma writesOwnState_save m m' :
  day m' = day m → log m' = log m →
  writesOwnState m' [IOSaveDayLog (day m) (log m)].
Proof. intros Hd Hl. right. left. by rewrite Hd, Hl. Qed.

(** Bring the day and the record of a model reached through status,
    refresh and selection steps back to the model they started from. *)
Ltac own_state :=
  apply writesOwnState_save;
  rewrite ?day_selectQuestionByName, ?log_selectQuestionByName,
    ?day_refreshQuestions, ?log_refreshQuestions, ?day_setStatus,
    ?log_setStatus;
  reflexivity.

Lemma performDeleteEntry_writes w q idx m :
  writesOwnState (performDeleteEntry w q idx m).1
    (performDeleteEntry w q idx m).2.
Proof.
  unfold performDeleteEntry. cbv zeta.
  destruct (decide (idx < 0 ∨ _)); [by left|].
  destruct (decide (len _ = 0));
    (destruct (SaveDayLog w _ _); cbn [fst snd]; own_state).
Qed.

Lemma saveInlineEntry_writes w m :
  writesOwnState (saveInlineEntry w m).1 (saveInlineEntry w m).2.
Proof.
  unfold saveInlineEntry. cbv zeta.
  destruct (decide (TrimSpace _ = EmptyString)); [by left|].
  destruct (SaveDayLog w _ _); cbn [fst snd]; own_state.
Qed.

Lemma applyQuestionEdit_writes w q resps m :
  writesOwnState (applyQuestionEdit w q resps m).1
    (applyQuestionEdit w q resps m).2.
Proof.
  unfold applyQuestionEdit. cbv zeta.
  destruct (decide (len _ = 0));
    (destruct (SaveDayLog w _ _); cbn [fst snd]; own_state).
Qed.

Lemma applySingleEntryEdit_writes w q idx resps m :
  writesOwnState (applySingleEntryEdit w q idx resps m).1
    (applySingleEntryEdit w q idx resps m).2.
Proof.
  unfold applySingleEntryEdit. cbv zeta.
  destruct (decide (idx < 0 ∨ _)); [by left|].
  destruct (decide (len _ = 0));
    (destruct (SaveDayLog w _ _); cbn [fst snd]; own_state).
Qed.

Lemma openDayJSON_writes w m :
  writesOwnState (openDayJSON w m).1.2 (openDayJSON w m).2.
Proof.
  unfold openDayJSON. cbv zeta.
  destruct (SaveDayLog w _ _); cbn [fst snd]; [own_state|].
  destruct (DayFilePath w _); cbn [fst snd]; own_state.
Qed.

Lemma toggleHints_writes w m :
  writesOwnState (toggleHints w m).1 (toggleHints w m).2.
Proof.
  destruct (toggleHints_spec w m) as (_ & _ & Hio & _). by right; right.
Qed.

Lemma handleDeleteEntryRequest_writes w m :
  writesOwnState (handleDeleteEntryRequest w m).1
    (handleDeleteEntryRequest w m).2.
Proof.
  unfold handleDeleteEntryRequest, initiateEntryDelete. cbv zeta.
  destruct (listMode m); cbn [negb]; [|by left].
  destruct (currentRow m) as [row|]; [|by left].
  destruct (decide (kind row = rowEntry)); [|by left].
  destruct (decide (_ < 0 ∨ _)); [by left|].
  destruct (confirmDelete m); [by left|].
  apply performDeleteEntry_writes.
Qed.

Lemma handleDeleteConfirmationKey_writes w key m :
  writesOwnState (handleDeleteConfirmationKey w key m).1.2
    (handleDeleteConfirmationKey w key m).2.
Proof.
  unfold handleDeleteConfirmationKey.
  destruct (deleteConfirm m) as [p|]; [|by left].
  destruct (decide (key = "y" ∨ _)).
  - cbv zeta.
    pose proof (performDeleteEntry_writes w (confirm_question p)
                  (confirm_entryIndex p)
                  (clearDeletePrompt (set_deleteConfirm None m))) as H.
    by destruct (performDeleteEntry _ _ _ _).
  - destruct (decide (key = "n" ∨ _)); by left.
Qed.

Lemma handleEditorResult_writes w r m :
  writesOwnState (handleEditorResult w r m).1 (handleEditorResult w r m).2.
Proof.
  unfold handleEditorResult.
  destruct (msg_err r); [by left|].
  destruct (changed r); cbn [negb]; [|by left].
  destruct (decide (0 ≤ _));
    [apply applySingleEntryEdit_writes|apply applyQuestionEdit_writes].
Qed.

Lemma handleDetailKey_writes w key m :
  writesOwnState (handleDetailKey w key m).1.2 (handleDetailKey w key m).2.
Proof.
  unfold handleDetailKey. cbv zeta.
  repeat (destruct (decide (key = _)) as [_|_]);
    destruct (editing (detail m)); try (by left).
  pose proof (saveInlineEntry_writes w m) as H.
  by destruct (saveInlineEntry w m).
Qed.

Lemma handleListKey_writes w key m :
  writesOwnState (handleListKey w key m).1.2 (handleListKey w key m).2.
Proof.
  unfold handleListKey.
  repeat (destruct (decide (key = _)) as [_|_]); try (by left).
  - by destruct (disableJKNav m); left.
  - by destruct (disableJKNav m); left.
  - by destruct (activateSelection m); left.
  - by destruct (currentRow m); left.
  - destruct (currentRow m) as [row|]; [|by left].
    by destruct (decide (kind row = rowEntry)); left.
  - pose proof (handleDeleteEntryRequest_writes w m) as H.
    by destruct (handleDeleteEntryRequest w m).
  - apply openDayJSON_writes.
  - destruct key as [|r [|]]; try (by left).
    destruct (decide _); [by left|].
    destruct (jumpToIndex (ToLower r) m) as [ok m'].
    destruct (ok && autoOpenIndex m'); [|by left].
    by destruct (activateSelection m'); left.
Qed.

Lemma viewHandling_writes w key m :
  writesOwnState (viewHandling w key m).1.2 (viewHandling w key m).2.
Proof.
  unfold viewHandling.
  destruct (view m); [apply handleListKey_writes|apply handleDetailKey_writes].
Qed.

Lemma handleKey_writes w key m :
  writesOwnState (handleKey w key m).1.2 (handleKey w key m).2.
Proof.
  unfold handleKey.
  destruct (decide (view m = viewDetail ∧ _)).
  { destruct (decide (key = "ctrl+c")); [by left|apply viewHandling_writes]. }
  destruct (decide (key = "ctrl+c" ∨ _)); [by left|].
  set (pending := if decide (view m = viewList ∧ deleteConfirm m ≠ None)
                  then handleDeleteConfirmationKey w key m else (false, m, [])).
  assert (Hp : writesOwnState pending.1.2 pending.2
               ∧ (pending.1.1 = false → pending.2 = [])).
  { unfold pending. destruct (decide (view m = viewList ∧ _)).
    - split; [apply handleDeleteConfirmationKey_writes|].
      destruct (handleDeleteConfirmationKey w key m) as [[c m'] io] eqn:E.
      cbn [fst snd]. intros ->.
      by apply handleDeleteConfirmationKey_unconsumed in E as [_ ->].
    - split; [by left|done]. }
  destruct pending as [[consumed m'] io]. cbn [fst snd] in Hp.
  destruct Hp as [Hw Hun]. destruct consumed; [done|].
  rewrite (Hun eq_refl). clear Hw Hun.
  destruct (decide (key = "h" ∨ _)).
  { pose proof (toggleHints_writes w m') as H.
    by destruct (toggleHints w m'). }
  destruct (decide (key = "esc" ∧ _)); [by left|].
  repeat (destruct (decide (key = _)) as [_|_]); try (by left).
  pose proof (viewHandling_writes w key m') as H.
  by destruct (viewHandling w key m') as [[c m''] io'].
Qed.

Lemma dispatch_writes w msg m :
  writesOwnState (dispatch w msg m).1.2 (dispatch w msg m).2.
Proof.
  destruct msg; cbn [dispatch]; try (by left).
  - pose proof (handleKey_writes w key m) as H.
    by destruct (handleKey w key m) as [[c m'] io].
  - pose proof (handleEditorResult_writes w r m) as H.
    by destruct (handleEditorResult w r m).
  - by destruct (decide _); left.
Qed.

(** X19.  What a transition writes.  Every message leads to at most one
    write, and what is written is what the session holds afterwards: either
    the day record of the resulting model, under the day of the resulting
    model, or the configuration of the resulting model. *)
Theorem X19_writes_own_state (w : World) (msg : Msg) (m : model) :
  writesOwnState (Update w msg m).1.1 (Update w msg m).2.
Proof.
  unfold Update.
  pose proof (dispatch_writes w msg (updateInput w msg m)) as H.
  destruct (dispatch w msg (updateInput w msg m)) as [[cs m'] io].
  cbn [fst snd] in H.
  destruct (flushTimer_frame cs m' io)
    as (Fl & Fd & Fc & _ & _ & _ & _ & _ & _ & _ & _ & Fio).
  unfold writesOwnState in *. by rewrite Fl, Fd, Fc, Fio.
Qed.

(** ** Reordering the buffer *)

Lemma takeFirst_elem line (unused : list Answer) :
  line ∈ Response <$> unused →
  ∃ t unused',
    takeFirst line unused = Some (t, unused')
    ∧ unused ≡ₚ {| Time := t; Response := line |} :: unused'.
Proof.
  induction unused as [|a rest IH]; [by intros ?%elem_of_nil|].
  rewrite fmap_cons, elem_of_cons. intros Hin. cbn [takeFirst].
  destruct (decide (Response a = line)) as [Ha|Ha].
  - exists (Time a), rest. split; [done|]. subst line. by destruct a.
  - destruct Hin as [?|Hin]; [done|].
    destruct (IH Hin) as (t & rest' & -> & Hperm).
    exists t, (a :: rest'). split; [done|].
    rewrite Hperm. apply Permutation_swap.
Qed.

Lemma reconcile_Permutation now (lines : list string) :
  ∀ k (unused : list Answer),
    lines ≡ₚ Response <$> unused → reconcile now k unused lines ≡ₚ unused.
Proof.
  induction lines as [|line lines IH]; intros k unused Hperm.
  - symmetry in Hperm. apply Permutation_nil_r in Hperm.
    apply fmap_nil_inv in Hperm. by subst.
  - assert (Hin : line ∈ Response <$> unused).
    { rewrite <-Hperm. by left. }
    destruct (takeFirst_elem line unused Hin) as (t & unused' & Ht & Hu).
    cbn [reconcile]. rewrite Ht, Hu. constructor. apply IH.
    rewrite Hu in Hperm. cbn in Hperm.
    by apply Permutation_cons_inv in Hperm.
Qed.

(** X20.  Reordering the lines of a question in the editor moves the entries
    and nothing else.  When the returned lines are a rearrangement of the
    response texts of the existing entries (each line trimmed and
    non-empty), the rebuilt entries are a rearrangement of the existing
    entries: every entry keeps its timestamp, none gets the current time,
    and the entries appear in the order of the lines. *)
Theorem X20_reorder_keeps_timestamps (now : nat → string)
  (existing : list Answer) (resps : list string) :
  Forall (fun r => TrimSpace r = r ∧ r ≠ EmptyString) resps →
  resps ≡ₚ Response <$> existing →
  rebuildAnswers now existing resps ≡ₚ existing
  ∧ Response <$> rebuildAnswers now existing resps = resps.
Proof.
  intros Hclean Hperm.
  rewrite rebuildAnswers_reconcile, (cleanLines_id resps Hclean).
  split; [by apply reconcile_Permutation|apply reconcile_responses].
Qed.

Lemma X20_reorder_keeps_timestamps_witness :
  ["c"; "a"; "b"] ≡ₚ Response <$> Examples.abc
  ∧ rebuildAnswers Examples.clock Examples.abc ["c"; "a"; "b"]
    ≡ₚ Examples.abc.
Proof.
  assert (Hclean : Forall (fun r => TrimSpace r = r ∧ r ≠ EmptyString)
                     ["c"; "a"; "b"]).
  { repeat constructor; solve [vm_compute; reflexivity | discriminate]. }
  assert (Hperm : ["c"; "a"; "b"] ≡ₚ Response <$> Examples.abc).
  { apply (bool_decide_unpack _). vm_compute. exact I. }
  split; [exact Hperm|].
  exact (proj1 (X20_reorder_keeps_timestamps Examples.clock Examples.abc
                  ["c"; "a"; "b"] Hclean Hperm)).
Defined.

(** ** The command line: listing the questions of a day *)

Lemma elem_of_keys_with_entries (l : DayLog) (q : string) :
  q ∈ (fst <$> filter (fun kv : string * list Answer => length kv.2 ≠ 0%nat)
                 (map_to_list (Answers l)))
  ↔ ∃ es, Answers l !! q = Some es ∧ es ≠ [].
Proof.
  rewrite list_elem_of_fmap. split.
  - intros ([k es] & -> & [Hne Hin%elem_of_map_to_list]%list_elem_of_filter).
    exists es. split; [done|]. cbn in Hne. by destruct es.
  - intros (es & Hes & Hne). exists (q, es). split; [done|].
    apply list_elem_of_filter. split; [by destruct es|].
    by apply elem_of_map_to_list.
Qed.

Lemma dayLogHasEntries_true (l : DayLog) :
  dayLogHasEntries l = true ↔ ∃ q es, Answers l !! q = Some es ∧ es ≠ [].
Proof.
  unfold dayLogHasEntries. rewrite existsb_exists. split.
  - intros ([q es] & Hin%list_elem_of_In%elem_of_map_to_list & Hlen).
    apply bool_decide_eq_true in Hlen. exists q, es. split; [done|].
    cbn in Hlen. destruct es; [cbn in Hlen; lia|done].
  - intros (q & es & Hes & Hne). exists (q, es). split.
    + by apply list_elem_of_In, elem_of_map_to_list.
    + apply bool_decide_eq_true. cbn. destruct es; [done|cbn; lia].
Qed.

(** X21.  Listing a day on the command line.  A day has entries exactly when
    some key of its record has a non-empty entry sequence; a day without
    entries lists the configured questions and nothing else; and the list
    printed by [wlog cat] is, for every configuration and record, the
    question list of the interactive session. *)
Theorem X21_cat_listing (base : list string) (l : DayLog) :
  (dayLogHasEntries l = true ↔ ∃ q es, Answers l !! q = Some es ∧ es ≠ [])
  ∧ (dayLogHasEntries l = false → mergeQuestionsForList base l = base)
  ∧ mergeQuestionsForList base l = mergeQuestions base l.
Proof.
  split; [apply dayLogHasEntries_true|]. split.
  - intros Hno. unfold mergeQuestionsForList.
    assert (Hnil : filter (fun kv : string * list Answer => length kv.2 ≠ 0%nat)
                     (map_to_list (Answers l)) = []).
    { apply elem_of_nil_inv.
      intros [q es] [Hlen Hin%elem_of_map_to_list]%list_elem_of_filter.
      assert (dayLogHasEntries l = true); [|congruence].
      apply dayLogHasEntries_true. exists q, es. split; [done|].
      by destruct es. }
    rewrite Hnil. cbn. by rewrite app_nil_r.
  - unfold mergeQuestionsForList, mergeQuestions. do 4 f_equal.
    apply list_filter_iff. intros [q es]. cbn. by destruct es.
Qed.

(** X22.  The order in which [wlog view] prints the questions of a day: the
    configured questions that are keys of the record, in their configured
    order, followed by the other keys of the record, each once and in
    ascending byte order.  A question is printed exactly when it is a key of
    the record, and when the configured questions are distinct no question
    is printed twice. *)
Theorem X22_OrderQuestions (answers : gmap string (list Answer))
  (base : list string) :
  ∃ extras,
    OrderQuestions answers base
    = filter (fun q => is_Some (answers !! q)) base ++ extras
    ∧ StronglySorted String.le extras
    ∧ NoDup extras
    ∧ (∀ q, q ∈ extras ↔ is_Some (answers !! q) ∧ (q ∉ base))
    ∧ (∀ q, q ∈ OrderQuestions answers base ↔ is_Some (answers !! q))
    ∧ (NoDup base → NoDup (OrderQuestions answers base)).
Proof.
  unfold OrderQuestions. cbv zeta.
  set (ordered := filter (fun q => is_Some (answers !! q)) base).
  set (extras := merge_sort String.le _).
  assert (Hex : ∀ q, q ∈ extras ↔ is_Some (answers !! q) ∧ (q ∉ base)).
  { intros q. unfold extras.
    rewrite merge_sort_Permutation, list_elem_of_filter, list_elem_of_fmap.
    unfold ordered. rewrite list_elem_of_filter. split.
    - intros [Hq ([k es] & -> & Hin%elem_of_map_to_list)]. cbn in *.
      split; [by exists es|]. intros Hb. apply Hq. split; [by exists es|done].
    - intros [[es Hes] Hq]. split; [by intros [_ ?]|].
      exists (q, es). split; [done|]. by apply elem_of_map_to_list. }
  assert (Hnd : NoDup extras).
  { unfold extras. rewrite merge_sort_Permutation. apply NoDup_filter.
    apply NoDup_fst_map_to_list. }
  exists extras. split; [done|].
  split; [apply StronglySorted_merge_sort; apply _|].
  split; [exact Hnd|]. split; [exact Hex|]. split.
  - intros q. rewrite elem_of_app, Hex. unfold ordered.
    rewrite list_elem_of_filter. split; [by intros [[? _]|[? _]]|].
    intros Hq. destruct (decide (q ∈ base)); [left|right]; done.
  - intros Hbase. apply NoDup_app. split; [by apply NoDup_filter|].
    split; [|exact Hnd].
    intros q [_ Hb]%list_elem_of_filter [_ Hn]%Hex. done.
Qed.

(** ** Defaults of the configuration *)

(** X23.  [ensureDefaults] normalises a configuration without changing what
    it means: afterwards the question list is not empty (a non-empty list is
    kept as it is), a duration that remains set is positive, every accessor
    answers as before, and normalising again changes nothing. *)
Theorem X23_ensureDefaults (cfg : Config) :
  let cfg' := ensureDefaults cfg in
  Questions cfg' ≠ []
  ∧ (Questions cfg ≠ [] → Questions cfg' = Questions cfg)
  ∧ (∀ v, StatusMessageDurationMs cfg' = Some v → 0 < v)
  ∧ (∀ v, EscapeConfirmTimeoutMs cfg' = Some v → 0 < v)
  ∧ StatusMessageDuration cfg' = StatusMessageDuration cfg
  ∧ EscapeConfirmTimeout cfg' = EscapeConfirmTimeout cfg
  ∧ (HintsEnabled cfg', AutoInsertEnabled cfg', DefaultListModeEnabled cfg',
     AutoOpenIndexJumpEnabled cfg', ConfirmDeleteEnabled cfg',
     ContinueInsertAfterSaveEnabled cfg', ConfirmEscapeWithTextEnabled cfg')
    = (HintsEnabled cfg, AutoInsertEnabled cfg, DefaultListModeEnabled cfg,
       AutoOpenIndexJumpEnabled cfg, ConfirmDeleteEnabled cfg,
       ContinueInsertAfterSaveEnabled cfg, ConfirmEscapeWithTextEnabled cfg)
  ∧ ensureDefaults cfg' = cfg'.
Proof.
  intros cfg'. unfold cfg', ensureDefaults.
  destruct cfg as [qs h a lm ao cd ci ce sd et].
  cbn [Questions ShowHints AutoInsertEntries DefaultListMode AutoOpenIndexJump
       ConfirmDelete ContinueInsertAfterSave ConfirmEscapeWithText
       StatusMessageDurationMs EscapeConfirmTimeoutMs].
  split_and!.
  - case_dec; [done|]. by destruct qs.
  - intros Hqs. rewrite decide_False; [done|]. by destruct qs.
  - intros v. destruct sd as [s|]; [|done]. case_dec; [done|].
    intros [= <-]. lia.
  - intros v. destruct et as [s|]; [|done]. case_dec; [done|].
    intros [= <-]. lia.
  - unfold StatusMessageDuration. cbn [StatusMessageDurationMs].
    destruct sd as [s|]; [|done].
    destruct (decide (s ≤ 0)); [by rewrite decide_False by lia|done].
  - unfold EscapeConfirmTimeout. cbn [EscapeConfirmTimeoutMs].
    destruct et as [s|]; [|done].
    destruct (decide (s ≤ 0)); [by rewrite decide_False by lia|done].
  - done.
  - f_equal.
    + destruct (decide (length qs = 0%nat)) as [Hq|Hq]; [done|].
      by rewrite decide_False.
    + destruct sd as [s|]; [|done].
      destruct (decide (s ≤ 0)) as [Hs|Hs]; [done|]. by rewrite decide_False.
    + destruct et as [s|]; [|done].
      destruct (decide (s ≤ 0)) as [Hs|Hs]; [done|]. by rewrite decide_False.
Qed.

Lemma X23_ensureDefaults_witness :
  Questions (ensureDefaults Scenes.bareConfig) = DefaultQuestions
  ∧ StatusMessageDurationMs (ensureDefaults Scenes.bareConfig) = None
  ∧ StatusMessageDuration (ensureDefaults Scenes.bareConfig)
    = StatusMessageDuration Scenes.bareConfig.
Proof.
  split; [reflexivity|]. split; [reflexivity|].
  exact (proj1 (proj2 (proj2 (proj2 (proj2
           (X23_ensureDefaults Scenes.bareConfig)))))).
Defined.

(** ** Answering the prompts *)

Lemma givenTo_cons q q0 t0 (questions texts : list string) :
  givenTo q (q0 :: questions) (t0 :: texts)
  = (if decide (q0 = q ∧ TrimSpace t0 ≠ EmptyString) then [TrimSpace t0]
     else [])
    ++ givenTo q questions texts.
Proof.
  unfold givenTo. cbn [zip zip_with]. rewrite filter_cons. cbn [fst].
  destruct (decide (q0 = q)) as [->|Hq].
  - rewrite !fmap_cons, filter_cons. cbn [snd].
    destruct (decide (TrimSpace t0 ≠ EmptyString)).
    + by rewrite decide_True.
    + by rewrite decide_False by (by intros [_ ?]).
  - by rewrite decide_False by (by intros [? _]).
Qed.

Lemma promptLoop_reads pw (questions : list string) :
  ∀ (texts : list string) k st,
    length texts = length questions →
    (∀ i text, texts !! i = Some text → readLine pw (k + i) = inl text) →
    ∃ st',
      promptLoop pw questions k st = inr st'
      ∧ updated st'
        = updated st
          || existsb (fun t => bool_decide (TrimSpace t ≠ EmptyString)) texts
      ∧ ∀ q,
          Response <$> default [] (answersSoFar st' !! q)
          = (Response <$> default [] (answersSoFar st !! q))
            ++ givenTo q questions texts
          ∧ default [] (answersSoFar st !! q)
            `prefix_of` default [] (answersSoFar st' !! q)
          ∧ (givenTo q questions texts = [] →
             answersSoFar st' !! q = answersSoFar st !! q).
Proof.
  induction questions as [|q0 questions IH]; intros texts k st Hlen Hread.
  { destruct texts; [|done]. exists st. split; [done|].
    split; [by rewrite orb_false_r|]. intros q.
    unfold givenTo. cbn. by rewrite app_nil_r. }
  destruct texts as [|t0 texts]; [done|]. cbn in Hlen.
  cbn [promptLoop existsb].
  pose proof (Hread 0%nat t0 eq_refl) as H0. rewrite Nat.add_0_r in H0.
  rewrite H0.
  assert (Hread' : ∀ i text, texts !! i = Some text →
                             readLine pw (S k + i) = inl text).
  { intros i text Hi. replace (S k + i)%nat with (k + S i)%nat by lia.
    by apply Hread. }
  cbv zeta. destruct (decide (TrimSpace t0 = EmptyString)) as [Hblank|Hblank].
  - destruct (IH texts (S k) st ltac:(lia) Hread') as (st' & Hloop & Hup & Hq).
    exists st'. split; [done|]. split.
    { rewrite Hup. by rewrite bool_decide_eq_false_2 by (by intros ?). }
    intros q. rewrite givenTo_cons.
    rewrite decide_False by (by intros [_ ?]). apply Hq.
  - set (entry := {| Time := nowAt pw (clockReadings st);
                     Response := TrimSpace t0 |}).
    set (st1 := {| answersSoFar := _; clockReadings := _; updated := true |}).
    destruct (IH texts (S k) st1 ltac:(lia) Hread')
      as (st' & Hloop & Hup & Hq).
    exists st'. split; [done|]. split.
    { rewrite Hup. cbn [updated st1].
      rewrite bool_decide_eq_true_2 by done. by rewrite orb_true_r. }
    intros q. rewrite givenTo_cons. destruct (Hq q) as (H1 & H2 & H3).
    cbn [answersSoFar st1] in H1, H2, H3.
    destruct (decide (q0 = q)) as [->|Hne].
    + rewrite decide_True by done.
      rewrite lookup_insert_eq in H1, H2, H3.
      cbn [from_option id] in H1, H2.
      rewrite fmap_app in H1. cbn in H1. rewrite <-app_assoc in H1.
      split; [exact H1|]. split; [|done].
      etrans; [|exact H2]. by apply prefix_app_r.
    + rewrite decide_False by (by intros [? _]).
      rewrite lookup_insert_ne in H1, H2, H3 by done. done.
Qed.

Lemma promptLoop_read_error pw (questions : list string) :
  ∀ k st j e,
    (j < length questions)%nat →
    (∀ i, (i < j)%nat → ∃ text, readLine pw (k + i) = inl text) →
    readLine pw (k + j) = inr e →
    promptLoop pw questions k st = inl e.
Proof.
  induction questions as [|q0 questions IH]; intros k st j e Hj Hok Herr;
    [cbn in Hj; lia|].
  cbn [promptLoop]. destruct j as [|j].
  - rewrite Nat.add_0_r in Herr. by rewrite Herr.
  - destruct (Hok 0%nat ltac:(lia)) as [text Ht].
    rewrite Nat.add_0_r in Ht. rewrite Ht. cbv zeta.
    assert (Hok' : ∀ i, (i < j)%nat → ∃ text, readLine pw (S k + i) = inl text).
    { intros i Hi. replace (S k + i)%nat with (k + S i)%nat by lia.
      apply Hok. lia. }
    assert (Herr' : readLine pw (S k + j) = inr e).
    { by replace (S k + j)%nat with (k + S j)%nat by lia. }
    cbn in Hj.
    case_dec; apply (IH _ _ j e); try done; lia.
Qed.

(** X24.  [RunPrompts] only ever appends.  When the record of today loads
    and every question is answered by a line of input, then: if all answers
    are blank nothing is written; otherwise one record is handed to storage
    in which every question holds its former entries, unchanged and first,
    followed by the non-blank answers typed for it, trimmed and in order.
    A question that got no answer keeps its entry as it was, and if reading
    a line fails nothing is written, whatever was answered before. *)
Theorem X24_RunPrompts_appends (pw : PromptWorld) (questions : list string)
  (l : DayLog) :
  questions ≠ [] → loadToday pw = inl l →
  (∀ texts,
     length texts = length questions →
     (∀ i text, texts !! i = Some text → readLine pw i = inl text) →
     (Forall (fun t => TrimSpace t = EmptyString) texts →
      RunPrompts pw questions = (None, []))
     ∧ (Exists (fun t => TrimSpace t ≠ EmptyString) texts →
        ∃ l', RunPrompts pw questions = (saveToday pw l', [l'])
              ∧ Date l' = Date l
              ∧ ∀ q,
                  Response <$> default [] (Answers l' !! q)
                  = (Response <$> default [] (Answers l !! q))
                    ++ givenTo q questions texts
                  ∧ default [] (Answers l !! q)
                    `prefix_of` default [] (Answers l' !! q)
                  ∧ (givenTo q questions texts = [] →
                     Answers l' !! q = Answers l !! q)))
  ∧ (∀ j e,
       (j < length questions)%nat →
       (∀ i, (i < j)%nat → ∃ text, readLine pw i = inl text) →
       readLine pw j = inr e →
       RunPrompts pw questions = (Some e, [])).
Proof.
  intros Hqs Hload. unfold RunPrompts.
  rewrite decide_False by (by destruct questions). rewrite Hload.
  set (st0 := {| answersSoFar := Answers l; clockReadings := 0;
                 updated := false |}).
  split.
  - intros texts Hlen Hread.
    destruct (promptLoop_reads pw questions texts 0 st0 Hlen Hread)
      as (st' & -> & Hup & Hq).
    cbn [updated st0 orb] in Hup. split.
    + intros Hblank. rewrite Hup.
      assert (Hno : existsb (fun t => bool_decide (TrimSpace t ≠ EmptyString))
                      texts = false).
      { apply not_true_is_false. intros (t & Hin & Ht)%existsb_exists.
        apply bool_decide_eq_true in Ht. apply list_elem_of_In in Hin.
        rewrite Forall_forall in Hblank. by apply Ht, Hblank. }
      by rewrite Hno.
    + intros Hsome. rewrite Hup.
      assert (Hyes : existsb (fun t => bool_decide (TrimSpace t ≠ EmptyString))
                       texts = true).
      { apply existsb_exists. apply Exists_exists in Hsome as (t & Hin & Ht).
        exists t. split; [by apply list_elem_of_In|].
        by apply bool_decide_eq_true. }
      rewrite Hyes. cbn [negb]. cbv zeta.
      eexists. split; [reflexivity|]. split; [done|]. exact Hq.
  - intros j e Hj Hok Herr.
    by rewrite (promptLoop_read_error pw questions 0 st0 j e Hj Hok Herr).
Qed.

Lemma X24_RunPrompts_appends_witness :
  ["Q1"; "Q2"; "Q1"] ≠ []
  ∧ loadToday (Scenes.promptWorld Examples.soleLog) = inl Examples.soleLog
  ∧ ∃ l', RunPrompts (Scenes.promptWorld Examples.soleLog) ["Q1"; "Q2"; "Q1"]
          = (None, [l'])
          ∧ Response <$> default [] (Answers l' !! "Q1")
            = ["a"; "fixed the build"; "nothing"].
Proof.
  assert (Hqs : ["Q1"; "Q2"; "Q1"] ≠ []) by discriminate.
  assert (Hload : loadToday (Scenes.promptWorld Examples.soleLog)
                  = inl Examples.soleLog) by reflexivity.
  assert (Hread : ∀ i text, Scenes.typedAnswers !! i = Some text →
                    readLine (Scenes.promptWorld Examples.soleLog) i
                    = inl text).
  { intros i text Hi. cbn. by rewrite Hi. }
  assert (Hsome : Exists (fun t => TrimSpace t ≠ EmptyString)
                    Scenes.typedAnswers).
  { apply Exists_cons_hd. vm_compute. discriminate. }
  split; [exact Hqs|]. split; [exact Hload|].
  destruct (proj2 (proj1 (X24_RunPrompts_appends
                            (Scenes.promptWorld Examples.soleLog)
                            ["Q1"; "Q2"; "Q1"] Examples.soleLog Hqs Hload)
                     Scenes.typedAnswers eq_refl Hread) Hsome)
    as (l' & Hrun & _ & Hq).
  exists l'. split; [exact Hrun|].
  destruct (Hq "Q1") as (Hresp & _). rewrite Hresp.
  vm_compute. reflexivity.
Defined.
